(** * INCA automation: calibration write-verify engine, sampling loop and
      file-name resolver of [inca_automation.py]

    A shallow embedding of the parts of the script that carry its protocol:
    [FileValidator], [ExcelCalibrationLoader],
    [INCADemoController.set_measurement_vars], [start_measurement] and
    [stop_measurement], [CalibrationApplicator], [MeasurementCollector] and
    the measurement steps of [main].

    Python floats are IEEE binary64 numbers and are modelled by Rocq's
    primitive floats, so [abs(v - t) < 0.01], [int(duration / interval)] and
    [(i + 1) * interval] compute here exactly what they compute in Python.
    The COM server, the file system and the clock are an abstract host
    ([Host]); every call made to it is recorded in the trace of a run.
    Console output is not modelled, except the data line shown per tick;
    the readings of the clock that only feed console output (start and end
    time) are not traced. *)

From Stdlib Require Import ZArith List Bool Lia.
From Stdlib Require Import Strings.String Strings.Ascii Numbers.DecimalString.
From Stdlib Require Import Floats.PrimFloat Floats.SpecFloat Floats.FloatOps.
Import ListNotations.

Set Warnings "-inexact-float".
Open Scope string_scope.
Open Scope Z_scope.

(** ** Exceptions and results *)

(** The exception classes that occur in the modelled code.  All of them are
    subclasses of [Exception]; asynchronous [KeyboardInterrupt] is outside
    the model. *)
Inductive Exn : Type :=
| ComError            (* any exception raised by a call into the COM server *)
| OSError             (* open / write / remove failing *)
| TypeError
| ValueError
| ZeroDivisionError
| OverflowError.

Inductive Result (A : Type) : Type :=
| Ok (a : A)
| Exc (x : Exn).
Arguments Ok {A} a.
Arguments Exc {A} x.

Definition is_ok {A} (r : Result A) : bool :=
  match r with Ok _ => true | Exc _ => false end.

(** ** Python strings (ASCII part) *)

Module PyStr.

Definition is_empty (s : string) : bool :=
  match s with EmptyString => true | String _ _ => false end.

(** [str.isspace] on ASCII: TAB..CR, FS..US and the blank. *)
Definition is_space (c : ascii) : bool :=
  let n := nat_of_ascii c in
  ((9 <=? n) && (n <=? 13) || (28 <=? n) && (n <=? 32))%nat.

Fixpoint lstrip (s : string) : string :=
  match s with
  | EmptyString => EmptyString
  | String c s' => if is_space c then lstrip s' else s
  end.

Fixpoint rev_acc (s acc : string) : string :=
  match s with
  | EmptyString => acc
  | String c s' => rev_acc s' (String c acc)
  end.

Definition rev (s : string) : string := rev_acc s EmptyString.

(** [s.strip()] *)
Definition strip (s : string) : string := rev (lstrip (rev (lstrip s))).

(** [s.split(',')]: the pieces between commas, empty pieces kept. *)
Fixpoint split_comma_acc (s cur : string) : list string :=
  match s with
  | EmptyString => [rev cur]
  | String c s' =>
      if Ascii.eqb c "," then rev cur :: split_comma_acc s' EmptyString
      else split_comma_acc s' (String c cur)
  end.

Definition split_comma (s : string) : list string :=
  split_comma_acc s EmptyString.

(** [s.replace('_', '')] *)
Fixpoint remove_underscores (s : string) : string :=
  match s with
  | EmptyString => EmptyString
  | String c s' =>
      if Ascii.eqb c "_" then remove_underscores s'
      else String c (remove_underscores s')
  end.

(** [str.lower] on ASCII letters; other bytes are left alone. *)
Definition lower_char (c : ascii) : ascii :=
  let n := nat_of_ascii c in
  if ((65 <=? n) && (n <=? 90))%nat then ascii_of_nat (n + 32) else c.

Fixpoint ascii_lower (s : string) : string :=
  match s with
  | EmptyString => EmptyString
  | String c s' => String (lower_char c) (ascii_lower s')
  end.

(** [str(n)] for an integer. *)
Definition of_int (n : Z) : string := NilZero.string_of_int (Z.to_int n).

Definition digit (d : Z) : ascii := ascii_of_nat (48 + Z.to_nat (d mod 10)).

(** The [w] low decimal digits of [n], most significant first: what a
    zero-padded field of width [w] shows for [0 <= n < 10^w]. *)
Fixpoint digits_fixed (w : nat) (n : Z) : string :=
  match w with
  | O => EmptyString
  | S w' => digits_fixed w' (n / 10) ++ String (digit n) EmptyString
  end.

Fixpoint spaces (n : nat) : string :=
  match n with
  | O => EmptyString
  | S n' => String " " (spaces n')
  end.

(** [f"{s:>w}"]: right-aligned in a field of width [w]. *)
Definition rjust (w : nat) (s : string) : string :=
  spaces (w - String.length s) ++ s.

(** [s[:-3]] *)
Definition drop_last3 (s : string) : string :=
  substring 0 (String.length s - 3) s.

End PyStr.

(** ** Python floats *)

Module PyFloat.

(** [float(n)] for an integer, rounded to nearest-even. *)
Definition of_int (n : Z) : float :=
  SF2Prim (binary_normalize prec emax n 0 false).

(** [a / b]: division by a zero of either sign raises. *)
Definition truediv (a b : float) : Result float :=
  if PrimFloat.is_zero b then Exc ZeroDivisionError else Ok (a / b)%float.

Definition signed (s : bool) (n : Z) : Z := if s then - n else n.

(** The integer part of [m * 2^e], [m] positive. *)
Definition magnitude (m : positive) (e : Z) : Z :=
  if 0 <=? e then Zpos m * 2 ^ e else Zpos m / 2 ^ (- e).

(** [int(x)]: truncation toward zero. *)
Definition to_int (x : float) : Result Z :=
  match Prim2SF x with
  | S754_nan => Exc ValueError
  | S754_infinity _ => Exc OverflowError
  | S754_zero _ => Ok 0
  | S754_finite s m e => Ok (signed s (magnitude m e))
  end.

(** Modelled from the spec's words, [floor(duration / interval)]:
    [math.floor(x)], to compare with the [int(x)] of the code. *)
Definition floor (x : float) : Result Z :=
  match Prim2SF x with
  | S754_nan => Exc ValueError
  | S754_infinity _ => Exc OverflowError
  | S754_zero _ => Ok 0
  | S754_finite s m e =>
      if 0 <=? e then Ok (signed s (Zpos m * 2 ^ e))
      else if s then Ok (- ((Zpos m + 2 ^ (- e) - 1) / 2 ^ (- e)))
           else Ok (Zpos m / 2 ^ (- e))
  end.

(** [num / den] rounded to the nearest integer, ties to even. *)
Definition round_half_even (num den : Z) : Z :=
  let q := num / den in
  let r := num mod den in
  match 2 * r ?= den with
  | Lt => q
  | Gt => q + 1
  | Eq => if Z.even q then q else q + 1
  end.

(** [f"{x:.df}"]: fixed-point notation with [d] decimals, correctly
    rounded from the exact binary value. *)
Definition format_f (d : nat) (x : float) : string :=
  let point := if Nat.eqb d 0 then "" else "." in
  let show (s : bool) (scaled : Z) :=
    (if s then "-" else "") ++ PyStr.of_int (scaled / 10 ^ Z.of_nat d)
    ++ point ++ PyStr.digits_fixed d scaled in
  match Prim2SF x with
  | S754_nan => "nan"
  | S754_infinity s => if s then "-inf" else "inf"
  | S754_zero s => show s 0
  | S754_finite s m e =>
      let num := Zpos m * 10 ^ Z.of_nat d in
      show s (if 0 <=? e then num * 2 ^ e
              else round_half_even num (2 ^ (- e)))
  end.

(** The test of [_verify_calibration]: [abs(v - t) < 0.01]. *)
Definition within_tolerance (v t : float) : bool :=
  (abs (v - t) <? 0.01)%float.

End PyFloat.

(** [range(a, a + n)] *)
Definition range (a : Z) (n : nat) : list Z :=
  map (fun k => a + Z.of_nat k) (seq 0 n).

(** ** The host: COM server, file system, clock and runtime library *)

(** Calls into the INCA COM server.  [calib_obj.GetDoublePhysValue()] and
    [measure_obj.GetDoublePhysValue()] carry the name of the variable their
    object was obtained for. *)
Inductive ComCall : Type :=
| GetCalibrationValueInDevice (var_name : string)
| CalibGetDoublePhysValue (var_name : string)
| SetDoublePhysValue (var_name : string) (value : float)
| Synchronize
| DownloadWorkingPage
| SyncWorkingPageToEcu
| GetMeasurementValueInDevice (var_name : string)
| MeasGetDoublePhysValue (var_name : string)
| StartMeasurement
| StopMeasurement
| WriteToMonitor (msg : string).

(** What a COM call does: it returns (a float, or [None] / an object whose
    value is not used) or it raises. *)
Inductive Resp : Type :=
| Returned (v : option float)
| Raised.

Inductive OpenMode : Type := ModeW | ModeA.

(** A cell of a row handed to [csv_writer.writerow]: the list is
    heterogeneous in Python, strings and floats. *)
Inductive Cell : Type :=
| CStr (s : string)
| CFloat (f : float).

(** [datetime.now()] *)
Record DateTime : Type := mkDateTime {
  year : Z; month : Z; day : Z;
  hour : Z; minute : Z; second : Z; microsecond : Z
}.

Class Host (H : Type) : Type := {
  com_call : ComCall -> H -> Resp * H;
  datetime_now : H -> DateTime * H;
  path_exists : string -> H -> bool * H;
  (* [true]: done; [false]: the call raised *)
  file_open : string -> OpenMode -> H -> bool * H;
  file_writerow : string -> list Cell -> H -> bool * H;
  file_remove : string -> H -> bool * H;
  file_close : string -> H -> H;
  file_flush : string -> H -> bool * H;
  host_sleep : float -> H -> H;
  (* library functions whose result depends on the platform *)
  os_path_dirname : string -> string;
  os_path_splitext : string -> string * string
}.

Inductive Event : Type :=
| EvCom (c : ComCall) (r : Resp)
| EvNow (dt : DateTime)
| EvExists (path : string) (found : bool)
| EvOpen (path : string) (mode : OpenMode) (ok : bool)
| EvWriteRow (path : string) (row : list Cell) (ok : bool)
| EvRemove (path : string) (ok : bool)
| EvClose (path : string)
| EvSleep (secs : float)
| EvPrint (line : string)
| EvFlush (path : string) (ok : bool).

(** ** Runs: result, final host state and trace *)

Record Run (H A : Type) : Type := mkRun {
  res : Result A;
  final : H;
  trace : list Event
}.
Arguments mkRun {H A} res final trace.
Arguments res {H A} r.
Arguments final {H A} r.
Arguments trace {H A} r.

Definition M (H A : Type) : Type := H -> Run H A.

Definition ret {H A} (a : A) : M H A := fun h => mkRun (Ok a) h [].

Definition raise {H A} (x : Exn) : M H A := fun h => mkRun (Exc x) h [].

Definition bind {H A B} (m : M H A) (f : A -> M H B) : M H B :=
  fun h =>
    let r := m h in
    match res r with
    | Ok a => let r2 := f a (final r) in
              mkRun (res r2) (final r2) (trace r ++ trace r2)
    | Exc x => mkRun (Exc x) (final r) (trace r)
    end.

(** [try: m  except Exception as e: handler(e)] *)
Definition try_except {H A} (m : M H A) (handler : Exn -> M H A) : M H A :=
  fun h =>
    let r := m h in
    match res r with
    | Ok a => r
    | Exc x => let r2 := handler x (final r) in
               mkRun (res r2) (final r2) (trace r ++ trace r2)
    end.

(** [try: m  finally: fin] *)
Definition try_finally {H A} (m : M H A) (fin : M H unit) : M H A :=
  fun h =>
    let r := m h in
    let r2 := fin (final r) in
    mkRun (match res r2 with Ok _ => res r | Exc y => Exc y end)
          (final r2) (trace r ++ trace r2).

Declare Scope py_scope.
Delimit Scope py_scope with py.
Notation "x <- m ;; k" := (bind m (fun x => k))
  (at level 61, m at next level, right associativity) : py_scope.
Notation "m ;;; k" := (bind m (fun _ => k))
  (at level 61, right associativity) : py_scope.
Open Scope py_scope.

(** ** Primitive operations *)

Section Primitives.
Context {H : Type} `{Host H}.

(** A COM call: the value it returns, or [ComError] when it raises. *)
Definition com (c : ComCall) : M H (option float) :=
  fun h =>
    let (r, h') := com_call c h in
    mkRun (match r with Returned v => Ok v | Raised => Exc ComError end)
          h' [EvCom c r].

(** [datetime.now()] *)
Definition now : M H DateTime :=
  fun h => let (dt, h') := datetime_now h in mkRun (Ok dt) h' [EvNow dt].

(** [os.path.exists(path)]; it does not raise. *)
Definition os_path_exists (path : string) : M H bool :=
  fun h =>
    let (b, h') := path_exists path h in mkRun (Ok b) h' [EvExists path b].

(** [open(path, mode)] *)
Definition open_file (path : string) (mode : OpenMode) : M H unit :=
  fun h =>
    let (ok, h') := file_open path mode h in
    mkRun (if ok then Ok tt else Exc OSError) h' [EvOpen path mode ok].

(** [csv.writer(f).writerow(row)] on the file opened at [path]. *)
Definition writerow (path : string) (row : list Cell) : M H unit :=
  fun h =>
    let (ok, h') := file_writerow path row h in
    mkRun (if ok then Ok tt else Exc OSError) h' [EvWriteRow path row ok].

(** [os.remove(path)] *)
Definition os_remove (path : string) : M H unit :=
  fun h =>
    let (ok, h') := file_remove path h in
    mkRun (if ok then Ok tt else Exc OSError) h' [EvRemove path ok].

(** The end of a [with open(...) as f: pass] block: the file is closed
    with nothing written to it, so there is nothing to write out. *)
Definition close_file (path : string) : M H unit :=
  fun h => mkRun (Ok tt) (file_close path h) [EvClose path].

(** [csv_file.close()] after rows have been handed to the writer: what
    is still buffered is written out first.  If that fails (a full disk)
    the file is closed all the same and the [OSError] is raised. *)
Definition flush_and_close (path : string) : M H unit :=
  fun h =>
    let (ok, h') := file_flush path h in
    mkRun (if ok then Ok tt else Exc OSError) (file_close path h')
          [EvFlush path ok; EvClose path].

(** What [time.sleep(secs)] raises, if anything.  CPython (3.11) first
    converts the length to a 64-bit count of nanoseconds: NaN raises
    [ValueError], and a length beyond 2^63 ns (about 9.22e9 s) in either
    direction raises [OverflowError].  Then a negative count raises
    [ValueError]; the count for exactly 2^63 ns comes out negative. *)
Definition sleep_error (secs : float) : option Exn :=
  if PrimFloat.is_nan secs then Some ValueError
  else
    let ns := (secs * 1e9)%float in
    if ((ns <? -9223372036854775808) || (9223372036854775808 <? ns))%float
    then Some OverflowError
    else if ((secs <? 0) || (ns =? 9223372036854775808))%float
         then Some ValueError
         else None.

(** [time.sleep(secs)] *)
Definition sleep (secs : float) : M H unit :=
  fun h =>
    match sleep_error secs with
    | None => mkRun (Ok tt) (host_sleep secs h) [EvSleep secs]
    | Some x => mkRun (Exc x) h []
    end.

(** [print(line)], for the data line of a tick. *)
Definition print (line : string) : M H unit :=
  fun h => mkRun (Ok tt) h [EvPrint line].

End Primitives.

(** ** FileValidator *)

Section FileValidator.
Context {H : Type} `{Host H}.

(** [FileValidator.is_file_writable]: both [try] blocks end in a bare
    [except], so no exception leaves the function. *)
Definition is_file_writable (filename : string) : M H bool :=
  found <- os_path_exists filename ;;
  if negb found then
    try_except
      (let directory := os_path_dirname filename in
       missing <- (if PyStr.is_empty directory then ret false
                   else (d <- os_path_exists directory ;; ret (negb d))) ;;
       if missing then ret false
       else
         open_file filename ModeW ;;;
         close_file filename ;;;
         os_remove filename ;;;
         ret true)
      (fun _ => ret false)
  else
    try_except
      (open_file filename ModeA ;;; close_file filename ;;; ret true)
      (fun _ => ret false).

(** [f"{base_name}_{counter}{ext}"] *)
Definition numbered (filename : string) (counter : Z) : string :=
  let (base_name, ext) := os_path_splitext filename in
  base_name ++ "_" ++ PyStr.of_int counter ++ ext.

(** The body of [for counter in range(1, 101)], on the remaining
    counters, followed by the [return None] after the loop. *)
Fixpoint search_numbered (filename : string) (counters : list Z)
  : M H (option string) :=
  match counters with
  | [] => ret None
  | counter :: rest =>
      let new_filename := numbered filename counter in
      ok <- is_file_writable new_filename ;;
      if ok then ret (Some new_filename)
      else search_numbered filename rest
  end.

(** [FileValidator.get_available_filename] *)
Definition get_available_filename (filename : string)
  : M H (option string) :=
  ok <- is_file_writable filename ;;
  if ok then ret (Some filename)
  else search_numbered filename (range 1 100).

End FileValidator.

(** ** INCADemoController *)

(** The fields of the controller that the modelled methods read or write.
    [measurement_vars] is a [dict]: insertion-ordered, one entry per key. *)
Record Controller : Type := mkController {
  measurement_started : bool;
  measurement_vars : list (string * string)
}.

(** [d[key] = value] on an insertion-ordered dict: an existing key keeps
    its place and gets the new value, a new key goes to the end. *)
Fixpoint dict_set (d : list (string * string)) (key value : string)
  : list (string * string) :=
  match d with
  | [] => [(key, value)]
  | (k, v) :: d' =>
      if String.eqb k key then (k, value) :: d'
      else (k, v) :: dict_set d' key value
  end.

(** [list(d.values())] *)
Definition dict_values (d : list (string * string)) : list string :=
  map snd d.

Section MeasurementVars.
(** Python's [str.lower].  Its Unicode case tables are not modelled;
    [PyStr.ascii_lower] is what it does on ASCII names. *)
Variable str_lower : string -> string.

(** [var_name.lower().replace('_', '')] *)
Definition var_key (var_name : string) : string :=
  PyStr.remove_underscores (str_lower var_name).

(** [[v.strip() for v in var_names_str.split(',') if v.strip()]] *)
Definition parse_var_names (var_names_str : string) : list string :=
  map PyStr.strip
      (filter (fun v => negb (PyStr.is_empty (PyStr.strip v)))
              (PyStr.split_comma var_names_str)).

(** The registration loop of [set_measurement_vars]. *)
Fixpoint register_vars (var_names : list string)
                       (vars : list (string * string))
  : list (string * string) :=
  match var_names with
  | [] => vars
  | var_name :: rest =>
      register_vars rest (dict_set vars (var_key var_name) var_name)
  end.

(** [INCADemoController.set_measurement_vars] *)
Definition set_measurement_vars (var_names_str : string) (c : Controller)
  : bool * Controller :=
  if PyStr.is_empty var_names_str
     || PyStr.is_empty (PyStr.strip var_names_str)
  then (false, c)
  else
    let var_names := parse_var_names var_names_str in
    match var_names with
    | [] => (false, c)
    | _ =>
        (true,
         mkController (measurement_started c)
                      (register_vars var_names (measurement_vars c)))
    end.

End MeasurementVars.

Section StopMeasurement.
Context {H : Type} `{Host H}.

(** [INCADemoController.stop_measurement].  Inside the [try] block the
    flag is cleared between [StopMeasurement()] and [WriteToMonitor(...)],
    so a failure of the second call leaves it cleared. *)
Definition stop_measurement (c : Controller) : M H (bool * Controller) :=
  if negb (measurement_started c) then ret (true, c)
  else
    stopped <- try_except (com StopMeasurement ;;; ret true)
                          (fun _ => ret false) ;;
    if stopped then
      let c' := mkController false (measurement_vars c) in
      told <- try_except
                (com (WriteToMonitor "측정이 중지되었습니다.") ;;; ret true)
                (fun _ => ret false) ;;
      ret (told, c')
    else ret (false, c).

End StopMeasurement.

(** ** CalibrationApplicator *)

Section CalibrationApplicator.
Context {H : Type} `{Host H}.

(** [_read_calibration] *)
Definition _read_calibration (var_name : string) : M H (option float) :=
  try_except
    (com (GetCalibrationValueInDevice var_name) ;;;
     com (CalibGetDoublePhysValue var_name))
    (fun _ => ret None).

Definition sync_methods : list (string * ComCall) :=
  [ ("Synchronize", Synchronize);
    ("DownloadWorkingPage", DownloadWorkingPage);
    ("SyncWorkingPageToEcu", SyncWorkingPageToEcu) ].

(** The loop of [_sync_memory] on the remaining methods, followed by the
    [return False] after it. *)
Fixpoint sync_loop (methods : list (string * ComCall)) : M H bool :=
  match methods with
  | [] => ret false
  | (_, method) :: rest =>
      try_except (com method ;;; ret true) (fun _ => sync_loop rest)
  end.

(** [_sync_memory] *)
Definition _sync_memory : M H bool := sync_loop sync_methods.

(** [_write_calibration] *)
Definition _write_calibration (var_name : string) (value : float)
  : M H bool :=
  try_except
    (com (GetCalibrationValueInDevice var_name) ;;;
     com (SetDoublePhysValue var_name value) ;;;
     sleep 0.1 ;;;
     _sync_memory ;;;
     ret true)
    (fun _ => ret false).

(** [f"{x:.2f}"] for a value that may be [None]: [None] has no format
    specification [.2f] and raises [TypeError]. *)
Definition format_2f (x : option float) : M H string :=
  match x with
  | Some v => ret (PyFloat.format_f 2 v)
  | None => raise TypeError
  end.

(** The loop [for retry in range(3)] of [_verify_calibration] on the
    remaining retries, followed by the code after the loop.
    [verify_val] is the variable of that name: the last value read. *)
Fixpoint verify_loop (var_name : string) (expected_value : float)
                     (retries : list Z) (verify_val : option float)
  : M H bool :=
  match retries with
  | [] =>
      (* print_warning(f"... {verify_val:.2f} ...") *)
      format_2f verify_val ;;;
      ret false
  | retry :: rest =>
      verify_val <- _read_calibration var_name ;;
      if match verify_val with
         | Some v => PyFloat.within_tolerance v expected_value
         | None => false
         end
      then ret true
      else
        (if retry <? 2 then sleep 0.5 else ret tt) ;;;
        verify_loop var_name expected_value rest verify_val
  end.

(** [_verify_calibration] *)
Definition _verify_calibration (var_name : string) (expected_value : float)
  : M H bool :=
  sleep 0.3 ;;;
  verify_loop var_name expected_value (range 0 3) None.

(** [_apply_single] *)
Definition _apply_single (var_name : string) (new_value : float)
  : M H bool :=
  _read_calibration var_name ;;;
  written <- _write_calibration var_name new_value ;;
  if negb written then ret false
  else _verify_calibration var_name new_value.

(** The loop of [apply_all] on the remaining items. *)
Fixpoint apply_loop (items : list (string * float))
                    (success_count fail_count : Z) : M H (Z * Z) :=
  match items with
  | [] => ret (success_count, fail_count)
  | (var_name, new_value) :: rest =>
      ok <- _apply_single var_name new_value ;;
      if ok then apply_loop rest (success_count + 1) fail_count
      else apply_loop rest success_count (fail_count + 1)
  end.

(** [apply_all]: [calib_dict.items()] in insertion order. *)
Definition apply_all (calib_dict : list (string * float)) : M H (Z * Z) :=
  apply_loop calib_dict 0 0.

End CalibrationApplicator.

(** ** MeasurementCollector *)

Section MeasurementCollector.
Context {H : Type} `{Host H}.

(** [_read_measurement]; [verbose] only selects console output. *)
Definition _read_measurement (var_name : string) : M H (option float) :=
  try_except
    (com (GetMeasurementValueInDevice var_name) ;;;
     com (MeasGetDoublePhysValue var_name))
    (fun _ => ret None).

(** The loop of [_read_all_measurements], with its two accumulators. *)
Fixpoint read_loop (var_names_list : list string)
                   (values : list Cell) (display_values : list string)
  : M H (list Cell * list string) :=
  match var_names_list with
  | [] => ret (values, display_values)
  | var_name :: rest =>
      value <- _read_measurement var_name ;;
      match value with
      | Some v =>
          read_loop rest (values ++ [CFloat v])
            (display_values ++ [PyStr.rjust 15 (PyFloat.format_f 2 v)])
      | None =>
          read_loop rest (values ++ [CStr "N/A"])
            (display_values ++ [PyStr.rjust 15 "N/A"])
      end
  end.

(** [_read_all_measurements]: the values for the CSV row and the strings
    for the console. *)
Definition _read_all_measurements (var_names_list : list string)
  : M H (list Cell * list string) :=
  read_loop var_names_list [] [].

(** The loop of [_check_connections]. *)
Fixpoint check_loop (var_names_list : list string) (connection_ok : Z)
  : M H Z :=
  match var_names_list with
  | [] => ret connection_ok
  | var_name :: rest =>
      value <- _read_measurement var_name ;;
      check_loop rest (match value with
                       | Some _ => connection_ok + 1
                       | None => connection_ok
                       end)
  end.

Definition _check_connections (var_names_list : list string) : M H Z :=
  check_loop var_names_list 0.

(** [header = ['시간(초)', '타임스탬프'] + var_names_list] *)
Definition csv_header (var_names_list : list string) : list Cell :=
  ([CStr "시간(초)"; CStr "타임스탬프"] ++ map CStr var_names_list)%list.

(** [_open_csv_file]: the handler reports and re-raises. *)
Definition _open_csv_file (csv_filename : string)
                          (var_names_list : list string) : M H string :=
  try_except
    (open_file csv_filename ModeW ;;;
     writerow csv_filename (csv_header var_names_list) ;;;
     ret csv_filename)
    (fun e => raise e).

(** [dt.strftime('%Y-%m-%d %H:%M:%S.%f')] *)
Definition strftime (dt : DateTime) : string :=
  PyStr.digits_fixed 4 (year dt) ++ "-" ++ PyStr.digits_fixed 2 (month dt)
  ++ "-" ++ PyStr.digits_fixed 2 (day dt) ++ " "
  ++ PyStr.digits_fixed 2 (hour dt) ++ ":"
  ++ PyStr.digits_fixed 2 (minute dt) ++ ":"
  ++ PyStr.digits_fixed 2 (second dt) ++ "."
  ++ PyStr.digits_fixed 6 (microsecond dt).

Fixpoint join_spaces (l : list string) : string :=
  match l with
  | [] => ""
  | [s] => s
  | s :: l' => s ++ " " ++ join_spaces l'
  end.

(** One pass through the body of the loop of [_collect_samples]. *)
Definition sample_tick (csv_file : string) (var_names_list : list string)
                       (interval : float) (i : Z) : M H unit :=
  let elapsed_time := (PyFloat.of_int (i + 1) * interval)%float in
  dt <- now ;;
  let timestamp := PyStr.drop_last3 (strftime dt) in
  vd <- _read_all_measurements var_names_list ;;
  let row :=
    ([CStr (PyFloat.format_f 1 elapsed_time); CStr timestamp] ++ fst vd)%list
  in
  writerow csv_file row ;;;
  print (PyStr.rjust 7 (PyFloat.format_f 1 elapsed_time) ++ "s "
         ++ join_spaces (snd vd)) ;;;
  sleep interval.

(** [for i in range(num_samples)]: [count] passes are left, the next one
    has index [i]. *)
Fixpoint sample_loop (csv_file : string) (var_names_list : list string)
                     (interval : float) (count : nat) (i : Z) : M H unit :=
  match count with
  | O => ret tt
  | S count' =>
      sample_tick csv_file var_names_list interval i ;;;
      sample_loop csv_file var_names_list interval count' (i + 1)
  end.

(** [_collect_samples] *)
Definition _collect_samples (csv_file : string)
                            (var_names_list : list string)
                            (num_samples : Z) (interval : float)
  : M H unit :=
  sample_loop csv_file var_names_list interval (Z.to_nat num_samples) 0.

(** [int(duration / interval)] *)
Definition sample_count (duration interval : float) : Result Z :=
  match PyFloat.truediv duration interval with
  | Ok q => PyFloat.to_int q
  | Exc x => Exc x
  end.

(** [collect_and_save] *)
Definition collect_and_save (c : Controller) (duration interval : float)
                            (csv_filename : string) : M H unit :=
  match sample_count duration interval with
  | Exc x => raise x
  | Ok num_samples =>
      let var_names_list := dict_values (measurement_vars c) in
      _check_connections var_names_list ;;;
      csv_file <- _open_csv_file csv_filename var_names_list ;;
      try_finally
        (_collect_samples csv_file var_names_list num_samples interval)
        (flush_and_close csv_file)
  end.

End MeasurementCollector.

(** ** INCADemoController: starting the measurement *)

Section StartMeasurement.
Context {H : Type} `{Host H}.

(** [INCADemoController.start_measurement].  As in [stop_measurement] the
    flag is assigned between the two calls of the [try] block. *)
Definition start_measurement (c : Controller) : M H (bool * Controller) :=
  started <- try_except (com StartMeasurement ;;; ret true)
                        (fun _ => ret false) ;;
  if started then
    let c' := mkController true (measurement_vars c) in
    told <- try_except
              (com (WriteToMonitor "측정이 시작되었습니다.") ;;; ret true)
              (fun _ => ret false) ;;
    ret (told, c')
  else ret (false, c).

(** [wait_for_stabilization]: three sleeps of one second. *)
Definition wait_for_stabilization : M H unit :=
  sleep 1 ;;; sleep 1 ;;; sleep 1.

End StartMeasurement.

(** ** The measurement steps of [main] *)

Section MainMeasurement.
Context {H : Type} `{Host H}.

(** Steps 6 to 9 of [main] with its [except Exception] handler, for a
    controller attached to an experiment: start the measurement, wait,
    apply the calibrations, sample, stop.  [start_measurement] catches
    what its calls raise, so the handler finds the controller as
    [start_measurement] left it; the steps after it do not change the
    controller before step 9.  The result is the controller at the end.
    The [finally: controller.disconnect()] is not part of this. *)
Definition main_measurement_steps
           (controller : Controller) (calib_data : list (string * float))
           (duration interval : float) (output_filename : string)
  : M H Controller :=
  sc <- start_measurement controller ;;
  let measurement_started_ := fst sc in
  let controller := snd sc in
  try_except
    (wait_for_stabilization ;;;
     apply_all calib_data ;;;
     collect_and_save controller duration interval output_filename ;;;
     if measurement_started_
     then (sc' <- stop_measurement controller ;; ret (snd sc'))
     else ret controller)
    (fun _ =>
       if measurement_started controller
       then (sc' <- stop_measurement controller ;; ret (snd sc'))
       else ret controller).

End MainMeasurement.

(** ** ExcelCalibrationLoader *)

(** A cell value as [openpyxl] hands it over with [values_only=True]: an
    empty cell, a text, a number, a truth value, or another object (a
    date, a time, a duration), which is given by its [str()] and its truth
    value and which [float()] refuses. *)
Inductive XlValue : Type :=
| XlNone
| XlStr (s : string)
| XlInt (n : Z)
| XlFloat (x : float)
| XlBool (b : bool)
| XlOther (text : string) (truthy : bool).

(** What [openpyxl.load_workbook(excel_path)] and [wb.active] give: the
    rows of the active sheet from row 1 on, each the tuple of its cell
    values, or an exception, a [PermissionError] or another one. *)
Inductive Workbook : Type :=
| Sheet (rows : list (list XlValue))
| LoadRaised (permission : bool).

(** The exceptions inside the loader. *)
Inductive XlExn : Type :=
| XlIndexError          (* [row[1]] on a tuple of one cell *)
| XlOverflowError       (* [float()] of an integer beyond the floats *)
| XlValueError          (* "No valid calibration data found" *)
| XlPermissionError
| XlOtherError.

Inductive XlResult (A : Type) : Type :=
| XlOk (a : A)
| XlExc (x : XlExn).
Arguments XlOk {A} a.
Arguments XlExc {A} x.

(** [calib_data[var_name] = var_value] *)
Fixpoint calib_set (d : list (string * float)) (key : string) (value : float)
  : list (string * float) :=
  match d with
  | [] => [(key, value)]
  | (k, v) :: d' =>
      if String.eqb k key then (k, value) :: d'
      else (k, v) :: calib_set d' key value
  end.

Section ExcelCalibrationLoader.
(** [str(x)] of a float and [float(s)] of a text ([None] for the
    [ValueError] of a text that is no number) are not modelled. *)
Variable float_repr : float -> string.
Variable float_of_str : string -> option float.

(** [bool(v)] *)
Definition py_bool (v : XlValue) : bool :=
  match v with
  | XlNone => false
  | XlStr s => negb (PyStr.is_empty s)
  | XlInt n => negb (n =? 0)
  | XlFloat x => negb (PrimFloat.is_zero x)
  | XlBool b => b
  | XlOther _ truthy => truthy
  end.

(** [str(v)] *)
Definition py_str (v : XlValue) : string :=
  match v with
  | XlNone => "None"
  | XlStr s => s
  | XlInt n => PyStr.of_int n
  | XlFloat x => float_repr x
  | XlBool b => if b then "True" else "False"
  | XlOther text _ => text
  end.

(** [float(v)] *)
Definition py_float (v : XlValue) : Result float :=
  match v with
  | XlNone => Exc TypeError
  | XlStr s =>
      match float_of_str s with
      | Some x => Ok x
      | None => Exc ValueError
      end
  | XlInt n =>
      let x := PyFloat.of_int n in
      if PrimFloat.is_infinity x then Exc OverflowError else Ok x
  | XlFloat x => Ok x
  | XlBool b => Ok (if b then 1 else 0)%float
  | XlOther _ _ => Exc TypeError
  end.

(** [_parse_row]; [row_idx] only occurs in console output. *)
Definition _parse_row (row : list XlValue)
  : XlResult (option (string * float)) :=
  match nth_error row 0 with
  | None => XlExc XlIndexError
  | Some cell =>
      let var_name :=
        if py_bool cell then PyStr.strip (py_str cell) else "" in
      match nth_error row 1 with
      | None => XlExc XlIndexError
      | Some var_value =>
          if PyStr.is_empty var_name then XlOk None
          else
            match var_value with
            | XlNone => XlOk None
            | _ =>
                match py_float var_value with
                | Ok x => XlOk (Some (var_name, x))
                | Exc ValueError | Exc TypeError => XlOk None
                | Exc OverflowError => XlExc XlOverflowError
                | Exc _ => XlExc XlOtherError
                end
            end
      end
  end.

(** The loop of [_parse_excel] over the rows from row 2 on. *)
Fixpoint parse_rows (rows : list (list XlValue))
                    (calib_data : list (string * float))
                    (row_count skip_count : Z)
  : XlResult (list (string * float) * Z * Z) :=
  match rows with
  | [] => XlOk (calib_data, row_count, skip_count)
  | row :: rest =>
      match nth_error row 0 with
      | None => XlExc XlIndexError
      | Some XlNone => XlOk (calib_data, row_count, skip_count)
      | Some _ =>
          match _parse_row row with
          | XlExc x => XlExc x
          | XlOk (Some (var_name, var_value)) =>
              parse_rows rest (calib_set calib_data var_name var_value)
                         (row_count + 1) skip_count
          | XlOk None =>
              parse_rows rest calib_data row_count (skip_count + 1)
          end
      end
  end.

(** [_parse_excel]: [iter_rows(min_row=2)] leaves out the first row. *)
Definition _parse_excel (wb : Workbook)
  : XlResult (list (string * float)) :=
  match wb with
  | LoadRaised permission =>
      XlExc (if permission then XlPermissionError else XlOtherError)
  | Sheet rows =>
      match parse_rows (tl rows) [] 0 0 with
      | XlExc x => XlExc x
      | XlOk (calib_data, row_count, _) =>
          if row_count =? 0 then XlExc XlValueError else XlOk calib_data
      end
  end.

(** [load], given what [validate_file_exists] and
    [validate_file_readable] answer and what opening the workbook gives.
    Both handlers return [None]. *)
Definition load (file_exists file_readable : bool) (wb : Workbook)
  : option (list (string * float)) :=
  if negb file_exists then None
  else if negb file_readable then None
  else
    match _parse_excel wb with
    | XlOk calib_data => Some calib_data
    | XlExc _ => None
    end.

End ExcelCalibrationLoader.

(** ** A scripted host, for running the model on concrete scenarios *)

Module Scripted.

(** The COM server answers successive calls from [responses] and raises
    once they are used up; files in [locked] cannot be opened or removed;
    the sink accepts [writes_left] rows and then fails, and writes each
    row out at once, so that nothing is left to fail at [close]; the clock
    stands still. *)
Record Script : Type := mkScript {
  responses : list Resp;
  locked : list string;
  existing : list string;
  writes_left : nat;
  clock : DateTime
}.

Definition mem (p : string) (l : list string) : bool :=
  existsb (String.eqb p) l.

Definition answer (c : ComCall) (s : Script) : Resp * Script :=
  match responses s with
  | [] => (Raised, s)
  | r :: rs =>
      (r, mkScript rs (locked s) (existing s) (writes_left s) (clock s))
  end.

Definition do_open (p : string) (m : OpenMode) (s : Script)
  : bool * Script :=
  if mem p (locked s) then (false, s)
  else (true,
        mkScript (responses s) (locked s)
                 (if mem p (existing s) then existing s
                  else p :: existing s)
                 (writes_left s) (clock s)).

Definition do_writerow (p : string) (row : list Cell) (s : Script)
  : bool * Script :=
  match writes_left s with
  | O => (false, s)
  | S n =>
      (true, mkScript (responses s) (locked s) (existing s) n (clock s))
  end.

Definition do_remove (p : string) (s : Script) : bool * Script :=
  if mem p (locked s) || negb (mem p (existing s)) then (false, s)
  else (true,
        mkScript (responses s) (locked s)
                 (filter (fun q => negb (String.eqb p q)) (existing s))
                 (writes_left s) (clock s)).

(** The extension of a plain file name, one with no directory part and
    at most one leading dot: from its last dot, unless the dot is the
    first character.  [os.path.splitext] itself stays abstract in the
    theorems. *)
Fixpoint split_last_dot (s : string) : option (string * string) :=
  match s with
  | EmptyString => None
  | String c s' =>
      match split_last_dot s' with
      | Some (b, e) => Some (String c b, e)
      | None => if Ascii.eqb c "." then Some (EmptyString, s) else None
      end
  end.

Definition splitext (s : string) : string * string :=
  match split_last_dot s with
  | Some (String c b, e) => (String c b, e)
  | _ => (s, EmptyString)
  end.

#[export] Instance script_host : Host Script := {
  com_call := answer;
  datetime_now := fun s => (clock s, s);
  path_exists := fun p s => (mem p (existing s), s);
  file_open := do_open;
  file_writerow := do_writerow;
  file_remove := do_remove;
  file_close := fun _ s => s;
  file_flush := fun _ s => (true, s);
  host_sleep := fun _ s => s;
  os_path_dirname := fun _ => EmptyString;
  os_path_splitext := splitext
}.

Definition noon : DateTime := mkDateTime 2025 10 22 12 0 1 123456.

(** A host with the given COM answers, nothing locked, no files and a
    sink that accepts 1000 rows. *)
Definition device (rs : list Resp) : Script := mkScript rs [] [] 1000 noon.

Definition ok : Resp := Returned None.
Definition value (v : float) : Resp := Returned (Some v).

End Scripted.

(** * Observations on runs *)

(** ** Reading traces *)

(** A call of [experiment.StopMeasurement()]. *)
Definition is_stop_call (e : Event) : bool :=
  match e with EvCom StopMeasurement _ => true | _ => false end.

(** A call into the COM server. *)
Definition is_com (e : Event) : bool :=
  match e with EvCom _ _ => true | _ => false end.

(** How many events of a trace satisfy [p]. *)
Definition count (p : Event -> bool) (t : list Event) : nat :=
  List.length (filter p t).

(** The calls behind the lambdas of [sync_methods]. *)
Definition sync_calls : list ComCall := map snd sync_methods.

(** The event of a call that raised. *)
Definition raised_call (c : ComCall) : Event := EvCom c Raised.

(** A read-back event that shows a value within the tolerance of [t]. *)
Definition passes (t : float) (e : Event) : bool :=
  match e with
  | EvCom (CalibGetDoublePhysValue _) (Returned (Some v)) =>
      PyFloat.within_tolerance v t
  | _ => false
  end.

(** The start of a read attempt. *)
Definition is_read_attempt (e : Event) : bool :=
  match e with
  | EvCom (GetCalibrationValueInDevice _) _ => true
  | _ => false
  end.

(** The variable [verify_val] as the trace shows it: a read attempt sets it
    to [None] unless its [GetDoublePhysValue()] returns, and then to the
    value returned. *)
Definition track_read (verify_val : option float) (e : Event) : option float :=
  match e with
  | EvCom (GetCalibrationValueInDevice _) _ => None
  | EvCom (CalibGetDoublePhysValue _) (Returned v) => v
  | _ => verify_val
  end.

(** [verify_val] at the end of a trace that started with [init]. *)
Definition last_value_read (init : option float) (tr : list Event)
  : option float :=
  fold_left track_read tr init.

(** The row of a [writerow] event. *)
Definition row_of (e : Event) : option (list Cell) :=
  match e with EvWriteRow _ row _ => Some row | _ => None end.

(** The rows handed to the CSV writer, in order. *)
Fixpoint attempted_rows (tr : list Event) : list (list Cell) :=
  match tr with
  | [] => []
  | e :: tr' =>
      match row_of e with
      | Some row => row :: attempted_rows tr'
      | None => attempted_rows tr'
      end
  end.

(** An [open], a [writerow] or the writing out at [close] that raised. *)
Definition sink_failure (e : Event) : bool :=
  match e with
  | EvOpen _ _ false | EvWriteRow _ _ false | EvFlush _ false => true
  | _ => false
  end.

(** An [open] or a [close]. *)
Definition is_open_or_close (e : Event) : bool :=
  match e with
  | EvOpen _ _ _ | EvClose _ => true
  | _ => false
  end.

(** Events that do not touch the sink. *)
Definition off_sink (e : Event) : bool :=
  match e with
  | EvOpen _ _ _ | EvClose _ | EvWriteRow _ _ _ | EvRemove _ _
  | EvFlush _ _ => false
  | _ => true
  end.

(** A trace of COM calls only. *)
Definition only_com (tr : list Event) : Prop :=
  Forall (fun e => is_com e = true) tr.

(** What a channel's slot of the CSV row holds, by the result of its read. *)
Definition slot (value : option float) : Cell :=
  match value with
  | Some v => CFloat v
  | None => CStr "N/A"
  end.

(** The same for the console line. *)
Definition shown (value : option float) : string :=
  match value with
  | Some v => PyStr.rjust 15 (PyFloat.format_f 2 v)
  | None => PyStr.rjust 15 "N/A"
  end.

(** ** Reading the host *)

Section Observations.
Context {H : Type} `{Host H}.

(** The value [_read_measurement] returns; it never raises. *)
Definition measured (var_name : string) (h : H) : option float :=
  match res (_read_measurement var_name h) with
  | Ok v => v
  | Exc _ => None
  end.

(** The values read for the channels of the list, one after the other:
    each read starts from the host state the one before left. *)
Fixpoint read_each (var_names_list : list string) (h : H)
  : list (option float) :=
  match var_names_list with
  | [] => []
  | var_name :: rest =>
      measured var_name h
      :: read_each rest (final (_read_measurement var_name h))
  end.

(** The row of pass [i], given the time [dt] taken and the host state [hk]
    in which the channels are read. *)
Definition tick_row (var_names_list : list string) (interval : float)
                    (i : Z) (dt : DateTime) (hk : H) : list Cell :=
  ([CStr (PyFloat.format_f 1 (PyFloat.of_int (i + 1) * interval)%float);
    CStr (PyStr.drop_last3 (strftime dt))]
   ++ map slot (read_each var_names_list hk))%list.

(** What [is_file_writable] answers in a host state. *)
Definition available (path : string) (h : H) : bool :=
  match res (is_file_writable path h) with
  | Ok b => b
  | Exc _ => false
  end.

(** The host state after probing the paths one after the other. *)
Fixpoint after_probes (paths : list string) (h : H) : H :=
  match paths with
  | [] => h
  | p :: rest => after_probes rest (final (is_file_writable p h))
  end.

(** Probed one after the other, each path is found unavailable. *)
Fixpoint all_unavailable (paths : list string) (h : H) : bool :=
  match paths with
  | [] => true
  | p :: rest =>
      negb (available p h)
      && all_unavailable rest (final (is_file_writable p h))
  end.

(** [{stem}_1{ext}] ... [{stem}_k{ext}] *)
Definition candidates (filename : string) (k : nat) : list string :=
  map (numbered filename) (range 1 k).

End Observations.

(** ** The row format in the words of the spec *)

(** C3 as the spec has it: a channel's cell is text, the value to two
    decimals or the sentinel. *)
Definition two_decimal_cell (c : Cell) : Prop :=
  c = CStr "N/A" \/ exists v, c = CStr (PyFloat.format_f 2 v).

(** A data row all of whose channel cells are such text. *)
Definition spec_row_format (row : list Cell) : Prop :=
  exists elapsed timestamp cells,
    row = CStr elapsed :: CStr timestamp :: cells /\
    Forall two_decimal_cell cells.

(** ** Further observations *)

(** An [open] for writing (it creates or truncates) or a [remove]. *)
Definition destructive (e : Event) : bool :=
  match e with
  | EvOpen _ ModeW _ | EvRemove _ _ => true
  | _ => false
  end.

(** A look at the file system by [os.path.exists]. *)
Definition is_exists_probe (e : Event) : bool :=
  match e with EvExists _ _ => true | _ => false end.

Section FurtherObservations.
Context {H : Type} `{Host H}.

(** The first of the paths that [is_file_writable] accepts when they are
    probed one after the other. *)
Fixpoint first_available (paths : list string) (h : H) : option string :=
  match paths with
  | [] => None
  | p :: rest =>
      if available p h then Some p
      else first_available rest (final (is_file_writable p h))
  end.

End FurtherObservations.

(** ** Observations on strings and dicts *)

(** [d.get(key)] *)
Fixpoint dict_get (d : list (string * string)) (key : string)
  : option string :=
  match d with
  | [] => None
  | (k, v) :: d' => if String.eqb k key then Some v else dict_get d' key
  end.

(** The last of the names whose key is [key]. *)
Fixpoint last_with_key (key_of : string -> string) (names : list string)
                       (key : string) : option string :=
  match names with
  | [] => None
  | n :: rest =>
      match last_with_key key_of rest key with
      | Some m => Some m
      | None => if String.eqb (key_of n) key then Some n else None
      end
  end.

(** [c in s] *)
Fixpoint has_char (c : ascii) (s : string) : bool :=
  match s with
  | EmptyString => false
  | String x s' => Ascii.eqb x c || has_char c s'
  end.

(** [s[:1].isspace()] *)
Definition starts_with_space (s : string) : bool :=
  match s with
  | EmptyString => false
  | String c _ => PyStr.is_space c
  end.

(** [s[-1:].isspace()] *)
Definition ends_with_space (s : string) : bool :=
  starts_with_space (PyStr.rev s).

(** Every character is white space (so also for the empty string). *)
Fixpoint all_space (s : string) : bool :=
  match s with
  | EmptyString => true
  | String c s' => PyStr.is_space c && all_space s'
  end.

(** ** Observations on the calibration engine *)

(** A [time.sleep]. *)
Definition is_sleep (e : Event) : bool :=
  match e with EvSleep _ => true | _ => false end.

(** A [SetDoublePhysValue]. *)
Definition is_write (e : Event) : bool :=
  match e with EvCom (SetDoublePhysValue _ _) _ => true | _ => false end.

(** The retries of a list are such that the loop of
    [_verify_calibration] pauses after each but the last: every retry but
    the last is below 2 and the last is not. *)
Fixpoint pauses_between (retries : list Z) : bool :=
  match retries with
  | [] => true
  | [x] => negb (x <? 2)
  | x :: rest => (x <? 2) && pauses_between rest
  end.

(** What [_apply_single] may do for parameter [var_name] and target
    [new_value]: read it, write that value to it, synchronise, sleep. *)
Definition about_parameter (var_name : string) (new_value : float)
                           (e : Event) : Prop :=
  match e with
  | EvCom (GetCalibrationValueInDevice n) _ => n = var_name
  | EvCom (CalibGetDoublePhysValue n) _ => n = var_name
  | EvCom (SetDoublePhysValue n v) _ => n = var_name /\ v = new_value
  | EvCom Synchronize _ | EvCom DownloadWorkingPage _
  | EvCom SyncWorkingPageToEcu _ => True
  | EvSleep _ => True
  | _ => False
  end.

(** ** Observations on the sampling *)

(** A read of a measurement channel of the list. *)
Definition measure_read (var_names_list : list string) (e : Event) : Prop :=
  exists n r,
    In n var_names_list /\
    (e = EvCom (GetMeasurementValueInDevice n) r
     \/ e = EvCom (MeasGetDoublePhysValue n) r).

(** The lines printed, in order. *)
Fixpoint printed_lines (tr : list Event) : list string :=
  match tr with
  | [] => []
  | EvPrint line :: tr' => line :: printed_lines tr'
  | _ :: tr' => printed_lines tr'
  end.

(** How many of the values were read. *)
Definition readable (values : list (option float)) : Z :=
  Z.of_nat (List.length (filter (fun v => match v with
                                           | Some _ => true
                                           | None => false
                                           end) values)).

Section SamplingObservations.
Context {H : Type} `{Host H}.

(** The console line of pass [i], for channels read in host state [hk]. *)
Definition tick_line (var_names_list : list string) (interval : float)
                     (i : Z) (hk : H) : string :=
  PyStr.rjust 7 (PyFloat.format_f 1 (PyFloat.of_int (i + 1) * interval)%float)
  ++ "s " ++ join_spaces (map shown (read_each var_names_list hk)).

End SamplingObservations.

(** A [close]. *)
Definition is_close (e : Event) : bool :=
  match e with EvClose _ => true | _ => false end.

(** What [collect_and_save] may do for the channels of the list, the file
    [csv_filename] and the given [interval]: read these channels, take
    the time, open that file for writing, write rows to it and close it,
    show a line, sleep for [interval]. *)
Definition sampling_event (var_names_list : list string)
                          (csv_filename : string) (interval : float)
                          (e : Event) : Prop :=
  match e with
  | EvCom _ _ => measure_read var_names_list e
  | EvNow _ | EvPrint _ => True
  | EvSleep secs => secs = interval
  | EvOpen path mode _ => path = csv_filename /\ mode = ModeW
  | EvWriteRow path _ _ | EvClose path | EvFlush path _ =>
      path = csv_filename
  | EvExists _ _ | EvRemove _ _ => False
  end.

(** What [apply_all] may do for a mapping: what [_apply_single] may do
    for one of its entries. *)
Definition about_mapping (calib_dict : list (string * float))
                         (e : Event) : Prop :=
  exists var_name new_value,
    In (var_name, new_value) calib_dict /\
    about_parameter var_name new_value e.

(** A [StartMeasurement] or a [StopMeasurement]. *)
Definition is_session_call (e : Event) : bool :=
  match e with
  | EvCom StartMeasurement _ | EvCom StopMeasurement _ => true
  | _ => false
  end.

(** ** Observations on the loader *)

(** [d.get(key)] *)
Fixpoint calib_get (d : list (string * float)) (key : string)
  : option float :=
  match d with
  | [] => None
  | (k, v) :: d' => if String.eqb k key then Some v else calib_get d' key
  end.

(** The value of the last of the entries with name [key]. *)
Fixpoint last_value (entries : list (string * float)) (key : string)
  : option float :=
  match entries with
  | [] => None
  | (k, v) :: rest =>
      match last_value rest key with
      | Some w => Some w
      | None => if String.eqb k key then Some v else None
      end
  end.

(** The dict after the entries have been stored one after the other. *)
Definition stored (es : list (string * float)) (d : list (string * float))
  : list (string * float) :=
  fold_left (fun acc e => calib_set acc (fst e) (snd e)) es d.

(** The first cell of the row is empty. *)
Definition blank_name (row : list XlValue) : bool :=
  match nth_error row 0 with
  | Some XlNone => true
  | _ => false
  end.

Section LoaderObservations.
Variable float_repr : float -> string.
Variable float_of_str : string -> option float.

(** The entries that the rows give, one after the other, up to the first
    row with an empty first cell or the first row that raises. *)
Fixpoint entries (rows : list (list XlValue)) : list (string * float) :=
  match rows with
  | [] => []
  | row :: rest =>
      if blank_name row then []
      else
        match _parse_row float_repr float_of_str row with
        | XlOk (Some entry) => entry :: entries rest
        | XlOk None => entries rest
        | XlExc _ => []
        end
  end.

End LoaderObservations.

(** The keys of a dict filled with the given keys one after the other:
    each key where it first occurred. *)
Definition add_key (keys : list string) (key : string) : list string :=
  if existsb (String.eqb key) keys then keys else (keys ++ [key])%list.

Definition insertion_order (keys : list string) : list string :=
  fold_left add_key keys [].

(** * Properties *)

(** ** Reading traces *)

Lemma count_app p t1 t2 : count p (t1 ++ t2) = (count p t1 + count p t2)%nat.
Proof. unfold count. rewrite filter_app, List.length_app. reflexivity. Qed.

(** ** stop_measurement *)

Section StopMeasurementFacts.
Context {H : Type} `{Host H}.

Lemma stop_not_started (c : Controller) (h : H) :
  measurement_started c = false ->
  stop_measurement c h = mkRun (Ok (true, c)) h [].
Proof.
  intros Hs. unfold stop_measurement. rewrite Hs. reflexivity.
Qed.

(** What a call of [stop_measurement] on a started controller does,
    by the answers of the COM server. *)
Lemma stop_started (c : Controller) (h : H) :
  measurement_started c = true ->
  let (r, h1) := com_call StopMeasurement h in
  match r with
  | Raised =>
      stop_measurement c h
      = mkRun (Ok (false, c)) h1 [EvCom StopMeasurement Raised]
  | Returned v =>
      let msg := WriteToMonitor "측정이 중지되었습니다." in
      let (r2, h2) := com_call msg h1 in
      stop_measurement c h
      = mkRun (Ok (match r2 with Returned _ => true | Raised => false end,
                   mkController false (measurement_vars c)))
              h2 [EvCom StopMeasurement (Returned v); EvCom msg r2]
  end.
Proof.
  intros Hs. unfold stop_measurement. rewrite Hs. simpl.
  unfold bind, try_except, com, ret.
  destruct (com_call StopMeasurement h) as [r h1] eqn:E1.
  destruct r as [v|]; simpl.
  - destruct (com_call (WriteToMonitor _) h1) as [r2 h2] eqn:E2.
    destruct r2; reflexivity.
  - reflexivity.
Qed.

(** C10, as the code has it.  When no measurement has been started,
    [stop_measurement] returns [True] at once: no call reaches the device
    and neither the controller nor the host changes.  Whenever
    [StopMeasurement()] itself came back without raising, the flag
    [measurement_started] is false afterwards; in particular after a stop
    that returned [True].  A second [stop_measurement] right after the
    first does nothing if the first [StopMeasurement()] did not raise, so
    the two calls together issue [StopMeasurement] at most once.  But if
    the first [StopMeasurement()] raised, the first call answers [False]
    and leaves the flag set, and the second call issues
    [StopMeasurement] again: twice in all. *)
Theorem stop_measurement_guard_and_idempotence (c : Controller) (h : H) :
  let r1 := stop_measurement c h in
  (measurement_started c = false -> r1 = mkRun (Ok (true, c)) h []) /\
  exists (b : bool) (c1 : Controller),
    res r1 = Ok (b, c1) /\
    measurement_vars c1 = measurement_vars c /\
    (b = true -> measurement_started c1 = false) /\
    ((exists v, In (EvCom StopMeasurement (Returned v)) (trace r1)) ->
     measurement_started c1 = false) /\
    let r2 := stop_measurement c1 (final r1) in
    (measurement_started c1 = false ->
     r2 = mkRun (Ok (true, c1)) (final r1) []) /\
    (~ In (EvCom StopMeasurement Raised) (trace r1) ->
     r2 = mkRun (Ok (true, c1)) (final r1) [] /\
     (count is_stop_call (trace r1 ++ trace r2) <= 1)%nat) /\
    (In (EvCom StopMeasurement Raised) (trace r1) ->
     b = false /\ c1 = c /\ measurement_started c = true /\
     count is_stop_call (trace r1 ++ trace r2) = 2%nat).
Proof.
  cbv zeta. split; [apply stop_not_started|].
  destruct (measurement_started c) eqn:Hs.
  - pose proof (stop_started c h Hs) as P.
    destruct (com_call StopMeasurement h) as [r h1].
    destruct r as [v|].
    + cbv zeta in P.
      destruct (com_call (WriteToMonitor _) h1) as [r2 h2].
      rewrite P. cbn [res final trace].
      eexists _, _. split; [reflexivity|].
      rewrite (stop_not_started _ h2) by reflexivity.
      split; [reflexivity|]. split; [reflexivity|].
      split; [reflexivity|]. split; [reflexivity|].
      split.
      * intros _. split; [reflexivity|]. cbn. lia.
      * intros [E|[E|[]]]; discriminate E.
    + rewrite P. cbn [res final trace]. exists false, c.
      split; [reflexivity|]. split; [reflexivity|].
      split; [discriminate|].
      split; [intros [v [Hin|[]]]; discriminate|].
      split; [congruence|].
      split.
      * intros Hn. elim Hn. left. reflexivity.
      * intros _. split; [reflexivity|]. split; [reflexivity|].
        split; [reflexivity|].
        pose proof (stop_started c h1 Hs) as P2.
        destruct (com_call StopMeasurement h1) as [[v2|] h2].
        -- cbv zeta in P2.
           destruct (com_call (WriteToMonitor _) h2) as [r3 h3].
           rewrite P2. reflexivity.
        -- rewrite P2. reflexivity.
  - rewrite (stop_not_started c h Hs). cbn [res final trace].
    exists true, c.
    rewrite (stop_not_started c h Hs).
    split; [reflexivity|]. split; [reflexivity|].
    split; [intros _; exact Hs|]. split; [intros _; exact Hs|].
    split; [reflexivity|].
    split.
    + intros _. split; [reflexivity|]. cbn. lia.
    + intros [].
Qed.

End StopMeasurementFacts.

(** ** Running the primitives and the combinators *)

Section RunLemmas.
Context {H : Type} `{Host H}.

Lemma com_returned c h v h1 :
  com_call c h = (Returned v, h1) ->
  com c h = mkRun (Ok v) h1 [EvCom c (Returned v)].
Proof. intros E. unfold com. rewrite E. reflexivity. Qed.

Lemma com_raised c h h1 :
  com_call c h = (Raised, h1) ->
  com c h = mkRun (Exc ComError) h1 [EvCom c Raised].
Proof. intros E. unfold com. rewrite E. reflexivity. Qed.

Lemma sleep_run secs h :
  sleep_error secs = None ->
  sleep secs h = mkRun (Ok tt) (host_sleep secs h) [EvSleep secs].
Proof. intros E. unfold sleep. rewrite E. reflexivity. Qed.

Lemma sleep_refused secs x h :
  sleep_error secs = Some x ->
  sleep secs h = mkRun (Exc x) h [].
Proof. intros E. unfold sleep. rewrite E. reflexivity. Qed.

Lemma sleep_error_kinds secs x :
  sleep_error secs = Some x -> x = ValueError \/ x = OverflowError.
Proof.
  unfold sleep_error.
  destruct (PrimFloat.is_nan secs); [intros [= <-]; left; reflexivity|].
  destruct (_ || _)%bool; [intros [= <-]; right; reflexivity|].
  destruct (_ || _)%bool; [intros [= <-]; left; reflexivity | discriminate].
Qed.

Lemma bind_ok {A B} (m : M H A) (f : A -> M H B) h a h1 t :
  m h = mkRun (Ok a) h1 t ->
  bind m f h = mkRun (res (f a h1)) (final (f a h1)) (t ++ trace (f a h1)).
Proof. intros E. unfold bind. rewrite E. reflexivity. Qed.

Lemma bind_exc {A B} (m : M H A) (f : A -> M H B) h x h1 t :
  m h = mkRun (Exc x) h1 t ->
  bind m f h = mkRun (Exc x) h1 t.
Proof. intros E. unfold bind. rewrite E. reflexivity. Qed.

Lemma try_ok {A} (m : M H A) handler h a h1 t :
  m h = mkRun (Ok a) h1 t ->
  try_except m handler h = mkRun (Ok a) h1 t.
Proof. intros E. unfold try_except. rewrite E. reflexivity. Qed.

Lemma try_exc {A} (m : M H A) handler h x h1 t :
  m h = mkRun (Exc x) h1 t ->
  try_except m handler h
  = mkRun (res (handler x h1)) (final (handler x h1))
          (t ++ trace (handler x h1)).
Proof. intros E. unfold try_except. rewrite E. reflexivity. Qed.

Lemma run_eta {A} (r : Run H A) : mkRun (res r) (final r) (trace r) = r.
Proof. destruct r. reflexivity. Qed.

(** A [try] whose handler returns a constant lets no exception out. *)
Lemma try_ret_total {A} (m : M H A) (d : A) h :
  exists a, res (try_except m (fun _ => ret d) h) = Ok a.
Proof.
  unfold try_except. destruct (m h) as [[a|x] h1 t]; cbn; eauto.
Qed.

End RunLemmas.

(** ** Memory synchronisation and the write *)

Section WriteFacts.
Context {H : Type} `{Host H}.

(** The loop tries the methods in order, goes on after each one that
    raises and ends at the first one that returns. *)
Lemma sync_loop_run (methods : list (string * ComCall)) (h : H) :
  let r := sync_loop methods h in
  exists (b : bool) (k : nat),
    res r = Ok b /\
    if b then
      exists c v,
        nth_error (map snd methods) k = Some c /\
        trace r = (map raised_call (firstn k (map snd methods))
                   ++ [EvCom c (Returned v)])%list
    else trace r = map raised_call (map snd methods).
Proof.
  cbv zeta. revert h.
  induction methods as [|[name c] rest IH]; intros h.
  - exists false, O. split; reflexivity.
  - simpl sync_loop.
    destruct (com_call c h) as [[v|] h1] eqn:E.
    + rewrite (try_ok _ _ h true h1 [EvCom c (Returned v)]).
      * exists true, O. split; [reflexivity|].
        exists c, v. split; reflexivity.
      * rewrite (bind_ok _ _ h v h1 _ (com_returned _ _ _ _ E)).
        reflexivity.
    + rewrite (try_exc _ _ h ComError h1 [EvCom c Raised]).
      * destruct (IH h1) as (b & k & Hb & Ht).
        exists b. destruct b.
        -- exists (S k). split; [exact Hb|].
           destruct Ht as (c' & v & Hn & Ht).
           exists c', v. split; [exact Hn|].
           cbn [trace]. rewrite Ht. reflexivity.
        -- exists O. split; [exact Hb|].
           cbn [trace]. rewrite Ht. reflexivity.
      * exact (bind_exc _ _ h _ h1 _ (com_raised _ _ _ E)).
Qed.

Lemma sync_memory_total (h : H) : exists b, res (_sync_memory h) = Ok b.
Proof.
  destruct (sync_loop_run sync_methods h) as (b & _ & Hb & _).
  exists b. exact Hb.
Qed.

(** A write whose two COM calls return is reported as done, whatever the
    synchronisation did. *)
Lemma write_calibration_done var_name value (h : H) o1 h1 o2 h2 :
  com_call (GetCalibrationValueInDevice var_name) h = (Returned o1, h1) ->
  com_call (SetDoublePhysValue var_name value) h1 = (Returned o2, h2) ->
  let s := _sync_memory (host_sleep 0.1 h2) in
  _write_calibration var_name value h
  = mkRun (Ok true) (final s)
      ([EvCom (GetCalibrationValueInDevice var_name) (Returned o1);
        EvCom (SetDoublePhysValue var_name value) (Returned o2);
        EvSleep 0.1] ++ trace s).
Proof.
  intros E1 E2 s. unfold _write_calibration.
  destruct (sync_memory_total (host_sleep 0.1 h2)) as [b Hb].
  fold s in Hb.
  apply try_ok.
  rewrite (bind_ok _ _ h _ _ _ (com_returned _ _ _ _ E1)).
  rewrite (bind_ok _ _ h1 _ _ _ (com_returned _ _ _ _ E2)).
  rewrite (bind_ok _ _ h2 _ _ _ (sleep_run 0.1 h2 eq_refl)).
  rewrite (bind_ok _ _ _ b (final s) (trace s)).
  - cbn [res final trace ret]. rewrite app_nil_r. reflexivity.
  - rewrite <- Hb. symmetry. apply run_eta.
Qed.

(** A write fails exactly by one of its two COM calls raising, and then
    nothing else has been done. *)
Lemma write_calibration_failed var_name value (h : H) :
  res (_write_calibration var_name value h) = Ok false ->
  trace (_write_calibration var_name value h)
  = [EvCom (GetCalibrationValueInDevice var_name) Raised]
  \/ exists v,
      trace (_write_calibration var_name value h)
      = [EvCom (GetCalibrationValueInDevice var_name) (Returned v);
         EvCom (SetDoublePhysValue var_name value) Raised].
Proof.
  destruct (com_call (GetCalibrationValueInDevice var_name) h)
    as [[o1|] h1] eqn:E1.
  - destruct (com_call (SetDoublePhysValue var_name value) h1)
      as [[o2|] h2] eqn:E2.
    + rewrite (write_calibration_done _ _ _ _ _ _ _ E1 E2).
      discriminate.
    + intros _. right. exists o1. unfold _write_calibration.
      erewrite try_exc.
      2:{ rewrite (bind_ok _ _ h _ _ _ (com_returned _ _ _ _ E1)).
          rewrite (bind_exc _ _ h1 _ _ _ (com_raised _ _ _ E2)).
          reflexivity. }
      reflexivity.
  - intros _. left. unfold _write_calibration.
    erewrite try_exc.
    2:{ exact (bind_exc _ _ h _ _ _ (com_raised _ _ _ E1)). }
    reflexivity.
Qed.

Lemma write_calibration_total var_name value (h : H) :
  exists b, res (_write_calibration var_name value h) = Ok b.
Proof.
  apply try_ret_total.
Qed.

Lemma read_calibration_total var_name (h : H) :
  exists v, res (_read_calibration var_name h) = Ok v.
Proof.
  apply try_ret_total.
Qed.

End WriteFacts.

(** ** One parameter: read, write, verify *)

Section ApplySingleFacts.
Context {H : Type} `{Host H}.

Lemma bind_res_ok {A B} (m : M H A) (f : A -> M H B) h a :
  res (m h) = Ok a ->
  bind m f h
  = mkRun (res (f a (final (m h)))) (final (f a (final (m h))))
          (trace (m h) ++ trace (f a (final (m h)))).
Proof. intros E. unfold bind. rewrite E. reflexivity. Qed.

Lemma bind_res_exc {A B} (m : M H A) (f : A -> M H B) h x :
  res (m h) = Exc x ->
  bind m f h = mkRun (Exc x) (final (m h)) (trace (m h)).
Proof. intros E. unfold bind. rewrite E. reflexivity. Qed.

(** [_apply_single] is the diagnostic read, then the write, then, only
    if the write reported success, the verification. *)
Lemma apply_single_run var_name new_value (h : H) :
  let rd := _read_calibration var_name h in
  let wr := _write_calibration var_name new_value (final rd) in
  let vf := _verify_calibration var_name new_value (final wr) in
  (res wr = Ok false ->
   _apply_single var_name new_value h
   = mkRun (Ok false) (final wr) (trace rd ++ trace wr)) /\
  (res wr = Ok true ->
   _apply_single var_name new_value h
   = mkRun (res vf) (final vf) (trace rd ++ trace wr ++ trace vf)).
Proof.
  intros rd wr vf. unfold _apply_single.
  destruct (read_calibration_total var_name h) as [v Hv].
  rewrite (bind_res_ok _ _ h v Hv). fold rd.
  split; intros Hw.
  - rewrite (bind_res_ok _ _ (final rd) false Hw). fold wr.
    cbn [res final trace ret negb]. rewrite app_nil_r. reflexivity.
  - rewrite (bind_res_ok _ _ (final rd) true Hw). fold wr.
    cbn [res final trace negb]. fold vf. reflexivity.
Qed.

(** C5.  If the write fails, that is, [GetCalibrationValueInDevice] or
    [SetDoublePhysValue] raises inside [_write_calibration] and it returns
    [False], then [_apply_single] returns [False] right there: its run is
    the diagnostic read followed by the calls of the write up to the one
    that raised, and nothing else.  No settle delay, no synchronisation
    and no verification read follows a failed write. *)
Theorem failed_write_skips_verification var_name new_value (h : H) :
  let rd := _read_calibration var_name h in
  let wr := _write_calibration var_name new_value (final rd) in
  res wr = Ok false ->
  _apply_single var_name new_value h
  = mkRun (Ok false) (final wr) (trace rd ++ trace wr)
  /\ (trace wr = [EvCom (GetCalibrationValueInDevice var_name) Raised]
      \/ exists v,
          trace wr
          = [EvCom (GetCalibrationValueInDevice var_name) (Returned v);
             EvCom (SetDoublePhysValue var_name new_value) Raised]).
Proof.
  intros rd wr Hw. split.
  - apply (proj1 (apply_single_run var_name new_value h)). exact Hw.
  - apply write_calibration_failed. exact Hw.
Qed.

(** C6.  [_sync_memory] tries [Synchronize], [DownloadWorkingPage],
    [SyncWorkingPageToEcu] in this order, goes on to the next one only
    when the one before raised, and ends at the first one that returns:
    no later method is called.  It never raises.  A write whose COM calls
    returned is reported as done whatever the synchronisation did, also
    when all three methods raised, and [_apply_single] then goes on to
    the verification. *)
Theorem sync_first_success_and_write_proceeds var_name new_value (h : H) :
  sync_calls = [Synchronize; DownloadWorkingPage; SyncWorkingPageToEcu] /\
  (exists (b : bool) (k : nat),
     res (_sync_memory h) = Ok b /\
     if b then
       exists c v,
         nth_error sync_calls k = Some c /\
         trace (_sync_memory h)
         = (map raised_call (firstn k sync_calls)
            ++ [EvCom c (Returned v)])%list
     else trace (_sync_memory h) = map raised_call sync_calls) /\
  (forall o1 h1 o2 h2,
     com_call (GetCalibrationValueInDevice var_name) h = (Returned o1, h1) ->
     com_call (SetDoublePhysValue var_name new_value) h1
     = (Returned o2, h2) ->
     let s := _sync_memory (host_sleep 0.1 h2) in
     _write_calibration var_name new_value h
     = mkRun (Ok true) (final s)
         ([EvCom (GetCalibrationValueInDevice var_name) (Returned o1);
           EvCom (SetDoublePhysValue var_name new_value) (Returned o2);
           EvSleep 0.1] ++ trace s)) /\
  (let rd := _read_calibration var_name h in
   let wr := _write_calibration var_name new_value (final rd) in
   let vf := _verify_calibration var_name new_value (final wr) in
   res wr = Ok true ->
   _apply_single var_name new_value h
   = mkRun (res vf) (final vf) (trace rd ++ trace wr ++ trace vf)).
Proof.
  split; [reflexivity|]. split; [|split].
  - exact (sync_loop_run sync_methods h).
  - intros o1 h1 o2 h2 E1 E2. exact (write_calibration_done _ _ _ _ _ _ _ E1 E2).
  - exact (proj2 (apply_single_run var_name new_value h)).
Qed.

End ApplySingleFacts.

(** ** Verification by read-back *)

Section VerifyFacts.
Context {H : Type} `{Host H}.

(** The three ways a read can go. *)
Lemma read_calibration_cases var_name (h : H) :
  let get := GetCalibrationValueInDevice var_name in
  let rd := CalibGetDoublePhysValue var_name in
  (exists h1,
     _read_calibration var_name h = mkRun (Ok None) h1 [EvCom get Raised])
  \/ (exists o h1,
        _read_calibration var_name h
        = mkRun (Ok None) h1 [EvCom get (Returned o); EvCom rd Raised])
  \/ (exists o v h1,
        _read_calibration var_name h
        = mkRun (Ok v) h1
            [EvCom get (Returned o); EvCom rd (Returned v)]).
Proof.
  cbv zeta. unfold _read_calibration.
  destruct (com_call (GetCalibrationValueInDevice var_name) h)
    as [[o|] h1] eqn:E1.
  - destruct (com_call (CalibGetDoublePhysValue var_name) h1)
      as [[v|] h2] eqn:E2.
    + right. right. exists o, v, h2. apply try_ok.
      rewrite (bind_ok _ _ h _ _ _ (com_returned _ _ _ _ E1)).
      rewrite (com_returned _ _ _ _ E2). reflexivity.
    + right. left. exists o, h2. erewrite try_exc.
      2:{ rewrite (bind_ok _ _ h _ _ _ (com_returned _ _ _ _ E1)).
          rewrite (com_raised _ _ _ E2). reflexivity. }
      reflexivity.
  - left. exists h1. erewrite try_exc.
    2:{ exact (bind_exc _ _ h _ _ _ (com_raised _ _ _ E1)). }
    reflexivity.
Qed.

(** What a read contributes to the verdict: its value passes the test
    exactly when its trace shows a passing read-back, and it is one read
    attempt. *)
Lemma read_calibration_verdict var_name t (h : H) :
  exists v h1 tr,
    _read_calibration var_name h = mkRun (Ok v) h1 tr /\
    existsb (passes t) tr
    = match v with
      | Some x => PyFloat.within_tolerance x t
      | None => false
      end /\
    count is_read_attempt tr = 1%nat /\
    forall init, last_value_read init tr = v.
Proof.
  destruct (read_calibration_cases var_name h)
    as [[h1 E]|[(o & h1 & E)|(o & v & h1 & E)]];
    rewrite E; eexists _, _, _; (split; [reflexivity|]); split;
    try (split; reflexivity).
  cbn [existsb passes orb]. destruct v; rewrite ?orb_false_r; reflexivity.
Qed.

(** The retry loop returns [True] exactly when one of its read-backs
    showed a value within the tolerance; it makes at most one read per
    retry; and when no read-back passed it made all of them and ends in
    [False] if the last read gave a number, in a [TypeError] if the last
    read gave [None]: the warning formats [verify_val] with [.2f]. *)
Lemma verify_loop_run var_name t (retries : list Z) :
  forall (verify_val : option float) (h : H),
    let r := verify_loop var_name t retries verify_val h in
    (res r = Ok true <-> existsb (passes t) (trace r) = true) /\
    (count is_read_attempt (trace r) <= List.length retries)%nat /\
    (existsb (passes t) (trace r) = false ->
     count is_read_attempt (trace r) = List.length retries /\
     res r = match last_value_read verify_val (trace r) with
             | Some _ => Ok false
             | None => Exc TypeError
             end).
Proof.
  induction retries as [|retry rest IH]; intros verify_val h; cbv zeta.
  - cbn [verify_loop]. destruct verify_val as [x|]; cbn;
      repeat split; try discriminate; try lia.
  - cbn [verify_loop].
    destruct (read_calibration_verdict var_name t h)
      as (v & h1 & tr & E & Hp & Hc & Hl).
    rewrite (bind_ok _ _ h _ _ _ E). rewrite <- Hp.
    destruct (existsb (passes t) tr) eqn:Ep.
    + cbn [res final trace ret]. rewrite app_nil_r, Ep, Hc. cbn.
      repeat split; auto; try lia; discriminate.
    + set (pause := if retry <? 2 then sleep 0.5 else ret tt).
      assert (Hpause : exists h2 tp,
                 pause h1 = mkRun (Ok tt) h2 tp /\
                 existsb (passes t) tp = false /\
                 count is_read_attempt tp = O /\
                 forall init, last_value_read init tp = init).
      { unfold pause. destruct (retry <? 2).
        - rewrite (sleep_run 0.5 h1 eq_refl). eexists _, _.
          repeat split; reflexivity.
        - eexists _, _. repeat split; reflexivity. }
      destruct Hpause as (h2 & tp & Epause & Hpp & Hpc & Hpl).
      rewrite (bind_ok _ _ h1 _ _ _ Epause).
      cbn [res final trace].
      specialize (IH v h2). cbv zeta in IH.
      destruct IH as (IH1 & IH2 & IH3).
      rewrite !existsb_app, Ep, Hpp, !count_app, Hc, Hpc. cbn [orb].
      split; [exact IH1|]. split; [cbn; lia|].
      intros Hn. destruct (IH3 Hn) as (Hcount & Hres).
      split; [cbn; lia|].
      unfold last_value_read in *.
      rewrite !fold_left_app, Hl, Hpl. exact Hres.
Qed.

(** [_verify_calibration]: verified exactly when one of at most three
    read-backs showed a value within 0.01 of the expected one. *)
Lemma verify_calibration_run var_name t (h : H) :
  let r := _verify_calibration var_name t h in
  (res r = Ok true <-> existsb (passes t) (trace r) = true) /\
  (count is_read_attempt (trace r) <= 3)%nat /\
  (existsb (passes t) (trace r) = false ->
   count is_read_attempt (trace r) = 3%nat /\
   res r = match last_value_read None (trace r) with
           | Some _ => Ok false
           | None => Exc TypeError
           end).
Proof.
  cbv zeta. unfold _verify_calibration.
  rewrite (bind_ok _ _ h _ _ _ (sleep_run 0.3 h eq_refl)).
  cbn [res final trace].
  destruct (verify_loop_run var_name t (range 0 3) None (host_sleep 0.3 h))
    as (L1 & L2 & L3).
  change (List.length (range 0 3)) with 3%nat in *.
  rewrite existsb_app, count_app. cbn [existsb passes orb count filter
    is_read_attempt List.length Nat.add app].
  split; [exact L1|]. split; [exact L2|].
  intros Hn. destruct (L3 Hn) as (Hc & Hres).
  split; [exact Hc|]. exact Hres.
Qed.

End VerifyFacts.

(** ** Reading the channels *)

Section ReadFacts.
Context {H : Type} `{Host H}.

Lemma read_measurement_run var_name (h : H) :
  exists h1 tr,
    _read_measurement var_name h = mkRun (Ok (measured var_name h)) h1 tr
    /\ only_com tr.
Proof.
  unfold measured, _read_measurement.
  destruct (com_call (GetMeasurementValueInDevice var_name) h)
    as [[o|] h1] eqn:E1.
  - destruct (com_call (MeasGetDoublePhysValue var_name) h1)
      as [[v|] h2] eqn:E2.
    + erewrite try_ok.
      2:{ rewrite (bind_ok _ _ h _ _ _ (com_returned _ _ _ _ E1)).
          rewrite (com_returned _ _ _ _ E2). reflexivity. }
      eexists _, _. split; [reflexivity|]. repeat constructor.
    + erewrite try_exc.
      2:{ rewrite (bind_ok _ _ h _ _ _ (com_returned _ _ _ _ E1)).
          rewrite (com_raised _ _ _ E2). reflexivity. }
      eexists _, _. split; [reflexivity|]. repeat constructor.
  - erewrite try_exc.
    2:{ exact (bind_exc _ _ h _ _ _ (com_raised _ _ _ E1)). }
    eexists _, _. split; [reflexivity|]. repeat constructor.
Qed.

Lemma read_loop_run (var_names_list : list string) :
  forall (values : list Cell) (display_values : list string) (h : H),
  exists h1 tr,
    read_loop var_names_list values display_values h
    = mkRun (Ok (values ++ map slot (read_each var_names_list h),
                 display_values ++ map shown (read_each var_names_list h))%list)
            h1 tr
    /\ only_com tr.
Proof.
  induction var_names_list as [|var_name rest IH]; intros values dv h.
  - exists h, []. cbn. rewrite !app_nil_r. split; constructor.
  - cbn [read_loop read_each].
    destruct (read_measurement_run var_name h) as (h1 & tr & E & Hc).
    rewrite (bind_ok _ _ h _ _ _ E). rewrite E. cbn [final].
    destruct (measured var_name h) as [v|].
    + destruct (IH (values ++ [CFloat v])%list
                   (dv ++ [PyStr.rjust 15 (PyFloat.format_f 2 v)])%list h1)
        as (h2 & tr2 & E2 & Hc2).
      rewrite E2. cbn [res final trace map slot shown].
      rewrite <- !app_assoc. eexists _, _. split; [reflexivity|].
      apply Forall_app. split; assumption.
    + destruct (IH (values ++ [CStr "N/A"])%list
                   (dv ++ [PyStr.rjust 15 "N/A"])%list h1)
        as (h2 & tr2 & E2 & Hc2).
      rewrite E2. cbn [res final trace map slot shown].
      rewrite <- !app_assoc. eexists _, _. split; [reflexivity|].
      apply Forall_app. split; assumption.
Qed.

(** [_read_all_measurements] never raises and fills one slot per name of
    the list, in the order of the list, each by the result of the read
    of its own channel. *)
Lemma read_all_measurements_run (var_names_list : list string) (h : H) :
  exists h1 tr,
    _read_all_measurements var_names_list h
    = mkRun (Ok (map slot (read_each var_names_list h),
                 map shown (read_each var_names_list h))) h1 tr
    /\ only_com tr.
Proof. exact (read_loop_run var_names_list [] [] h). Qed.

Lemma read_each_length (var_names_list : list string) (h : H) :
  List.length (read_each var_names_list h) = List.length var_names_list.
Proof.
  revert h. induction var_names_list as [|n rest IH]; intros h; cbn;
    [reflexivity | rewrite IH; reflexivity].
Qed.

Lemma check_loop_run (var_names_list : list string) :
  forall (connection_ok : Z) (h : H),
  exists n h1 tr,
    check_loop var_names_list connection_ok h = mkRun (Ok n) h1 tr
    /\ only_com tr.
Proof.
  induction var_names_list as [|var_name rest IH]; intros k h.
  - exists k, h, []. split; constructor.
  - cbn [check_loop].
    destruct (read_measurement_run var_name h) as (h1 & tr & E & Hc).
    rewrite (bind_ok _ _ h _ _ _ E).
    destruct (IH (match measured var_name h with
                  | Some _ => k + 1 | None => k end) h1)
      as (n & h2 & tr2 & E2 & Hc2).
    rewrite E2. cbn [res final trace]. eexists _, _, _.
    split; [reflexivity|]. apply Forall_app. split; assumption.
Qed.

End ReadFacts.

(** ** The sampling loop *)

Lemma attempted_rows_app tr1 tr2 :
  attempted_rows (tr1 ++ tr2) = (attempted_rows tr1 ++ attempted_rows tr2)%list.
Proof.
  induction tr1 as [|e tr1 IH]; [reflexivity|].
  cbn. destruct (row_of e); cbn; rewrite IH; reflexivity.
Qed.

Lemma off_sink_rows tr :
  Forall (fun e => off_sink e = true) tr -> attempted_rows tr = [].
Proof.
  induction 1 as [|e tr He _ IH]; [reflexivity|].
  cbn. destruct e; cbn in *; try discriminate; exact IH.
Qed.

Lemma off_sink_no_failure tr :
  Forall (fun e => off_sink e = true) tr -> count sink_failure tr = O.
Proof.
  induction 1 as [|e tr He _ IH]; [reflexivity|].
  unfold count in *. cbn. destruct e; cbn in *; try discriminate; exact IH.
Qed.

Lemma off_sink_no_open_close tr :
  Forall (fun e => off_sink e = true) tr ->
  Forall (fun e => is_open_or_close e = false) tr.
Proof.
  intros F. eapply Forall_impl; [|exact F].
  intros e He. destruct e; cbn in *; congruence.
Qed.

Lemma only_com_off_sink tr :
  only_com tr -> Forall (fun e => off_sink e = true) tr.
Proof.
  intros F. eapply Forall_impl; [|exact F].
  intros e He. destruct e; cbn in *; congruence.
Qed.

Section SamplingFacts.
Context {H : Type} `{Host H}.

(** One pass: the clock, the reads, the write of the row; then, if the
    write went through, the console line and the sleep. *)
Lemma sample_tick_run csv_file var_names_list interval i (h : H) :
  exists dt hk tr0 ok h2 line,
    let row := tick_row var_names_list interval i dt hk in
    let pre := (tr0 ++ [EvWriteRow csv_file row ok])%list in
    Forall (fun e => off_sink e = true) tr0 /\
    sample_tick csv_file var_names_list interval i h
    = if ok then
        match sleep_error interval with
        | None => mkRun (Ok tt) (host_sleep interval h2)
                        (pre ++ [EvPrint line; EvSleep interval])
        | Some x => mkRun (Exc x) h2 (pre ++ [EvPrint line])
        end
      else mkRun (Exc OSError) h2 pre.
Proof.
  unfold sample_tick.
  destruct (datetime_now h) as [dt hk] eqn:En.
  destruct (read_all_measurements_run var_names_list hk)
    as (h1 & tr & Er & Hc).
  destruct (file_writerow csv_file
              (tick_row var_names_list interval i dt hk) h1)
    as [ok h2] eqn:Ew.
  exists dt, hk, (EvNow dt :: tr), ok, h2.
  eexists. cbv zeta. split.
  { constructor; [reflexivity | apply only_com_off_sink, Hc]. }
  assert (Enow : now h = mkRun (Ok dt) hk [EvNow dt]).
  { unfold now. rewrite En. reflexivity. }
  rewrite (bind_ok _ _ h _ _ _ Enow).
  rewrite (bind_ok _ _ hk _ _ _ Er). cbn [fst snd].
  fold (tick_row var_names_list interval i dt hk).
  assert (Ewr : writerow csv_file (tick_row var_names_list interval i dt hk) h1
                = mkRun (if ok then Ok tt else Exc OSError) h2
                    [EvWriteRow csv_file
                       (tick_row var_names_list interval i dt hk) ok]).
  { unfold writerow. rewrite Ew. reflexivity. }
  destruct ok.
  - rewrite (bind_ok _ _ h1 _ _ _ Ewr).
    unfold print at 1.
    erewrite (bind_ok _ _ h2 tt h2); [|reflexivity].
    unfold sleep. destruct (sleep_error interval);
      cbn [res final trace app]; rewrite <- ?app_assoc; reflexivity.
  - rewrite (bind_exc _ _ h1 _ _ _ Ewr).
    cbn [res final trace app]. reflexivity.
Qed.

(** The loop.  Its rows are those of the passes, in order.  It uses
    neither [open] nor [close].  It ends in one of three ways: after all
    passes; at a write of a row that failed; or, for an [interval] that
    [time.sleep] refuses, after the first row, with the error of
    [time.sleep]. *)
Lemma sample_loop_run csv_file var_names_list interval (n : nat) :
  forall (i : Z) (h : H),
    let r := sample_loop csv_file var_names_list interval n i h in
    (forall k row,
        nth_error (attempted_rows (trace r)) k = Some row ->
        exists dt hk,
          row = tick_row var_names_list interval (i + Z.of_nat k) dt hk) /\
    Forall (fun e => is_open_or_close e = false) (trace r) /\
    ((res r = Ok tt /\
      List.length (attempted_rows (trace r)) = n /\
      count sink_failure (trace r) = O)
     \/ (res r = Exc OSError /\
         exists tr' row,
           trace r = (tr' ++ [EvWriteRow csv_file row false])%list)
     \/ (exists x,
           res r = Exc x /\
           sleep_error interval = Some x /\ (0 < n)%nat)).
Proof.
  induction n as [|n IH]; intros i h; cbv zeta.
  - cbn. split; [|split].
    + intros [|k] row E; discriminate.
    + constructor.
    + left. repeat split.
  - cbn [sample_loop].
    destruct (sample_tick_run csv_file var_names_list interval i h)
      as (dt & hk & tr0 & ok & h2 & line & Hoff & Et).
    cbv zeta in Et.
    pose proof (off_sink_rows _ Hoff) as Hrows0.
    pose proof (off_sink_no_failure _ Hoff) as Hfail0.
    pose proof (off_sink_no_open_close _ Hoff) as Hoc0.
    destruct ok; [destruct (sleep_error interval) as [x|] eqn:Ei|].
    + rewrite (bind_exc _ _ h _ _ _ Et). cbn [res final trace].
      rewrite !attempted_rows_app, Hrows0. cbn [attempted_rows row_of app].
      split; [|split].
      * intros [|[|k]] row E; cbn [nth_error] in E; try discriminate.
        injection E as E. subst row. exists dt, hk.
        rewrite Z.add_0_r. reflexivity.
      * rewrite <- !app_assoc. apply Forall_app. split; [exact Hoc0|].
        repeat constructor.
      * right. right. exists x. repeat split. lia.
    + rewrite (bind_ok _ _ h _ _ _ Et).
      specialize (IH (i + 1) (host_sleep interval h2)). cbv zeta in IH.
      destruct IH as (IHrows & IHoc & IHend).
      cbn [res final trace].
      set (r' := sample_loop csv_file var_names_list interval n (i + 1)
                   (host_sleep interval h2)) in *.
      rewrite !attempted_rows_app, Hrows0. cbn [attempted_rows row_of app].
      split; [|split].
      * intros [|k] row E.
        -- cbn [nth_error] in E. injection E as E. subst row.
           exists dt, hk. rewrite Z.add_0_r. reflexivity.
        -- cbn [nth_error] in E.
           destruct (IHrows k row E) as (dt' & hk' & ->).
           exists dt', hk'. f_equal. lia.
      * rewrite <- !app_assoc. apply Forall_app. split; [exact Hoc0|].
        cbn [app]. repeat (constructor; [reflexivity|]). exact IHoc.
      * destruct IHend as [(Hres & Hlen & Hcnt)|[(Hres & tr' & row & Htr)
                                                |(y & _ & Hbad & _)]].
        -- left. split; [exact Hres|]. split; [cbn; lia|].
           rewrite !count_app, Hfail0, Hcnt. reflexivity.
        -- right. left. split; [exact Hres|].
           eexists _, row. rewrite Htr, !app_assoc. reflexivity.
        -- congruence.
    + rewrite (bind_exc _ _ h _ _ _ Et). cbn [res final trace].
      rewrite !attempted_rows_app, Hrows0. cbn [attempted_rows row_of app].
      split; [|split].
      * intros [|[|k]] row E; cbn [nth_error] in E; try discriminate.
        injection E as E. subst row. exists dt, hk.
        rewrite Z.add_0_r. reflexivity.
      * apply Forall_app. split; [exact Hoc0|]. repeat constructor.
      * right. left. split; [reflexivity|]. eexists _, _. reflexivity.
Qed.

End SamplingFacts.

(** ** The timestamp *)

Lemma string_length_app (a b : string) :
  String.length (a ++ b) = (String.length a + String.length b)%nat.
Proof. induction a as [|c a IH]; cbn; [reflexivity | rewrite IH; reflexivity]. Qed.

Lemma string_app_assoc (a b c : string) : (a ++ b) ++ c = a ++ (b ++ c).
Proof. induction a as [|x a IH]; cbn; [reflexivity | rewrite IH; reflexivity]. Qed.

Lemma substring_prefix (a b : string) :
  substring 0 (String.length a) (a ++ b) = a.
Proof.
  induction a as [|c a IH]; cbn.
  - destruct b; reflexivity.
  - rewrite IH. reflexivity.
Qed.

Lemma digits_fixed_length (w : nat) : forall n,
  String.length (PyStr.digits_fixed w n) = w.
Proof.
  induction w as [|w IH]; intros n; cbn; [reflexivity|].
  rewrite string_length_app, IH. cbn. lia.
Qed.

Lemma digits_fixed_split (a b : nat) : forall n,
  PyStr.digits_fixed (a + b) n
  = PyStr.digits_fixed a (n / 10 ^ Z.of_nat b) ++ PyStr.digits_fixed b n.
Proof.
  induction b as [|b IH]; intros n.
  - rewrite Nat.add_0_r. cbn [PyStr.digits_fixed Z.of_nat].
    rewrite Z.pow_0_r, Z.div_1_r.
    induction (PyStr.digits_fixed a n) as [|c s IHs]; cbn;
      [reflexivity | rewrite <- IHs; reflexivity].
  - rewrite Nat.add_succ_r. cbn [PyStr.digits_fixed].
    rewrite IH, string_app_assoc. f_equal. f_equal.
    rewrite Nat2Z.inj_succ, Z.pow_succ_r by lia.
    rewrite Z.div_div by lia. reflexivity.
Qed.

(** The timestamp of a row has millisecond precision: date and time to the
    second, a dot, and the three digits of [microsecond // 1000]. *)
Lemma timestamp_milliseconds (dt : DateTime) :
  PyStr.drop_last3 (strftime dt)
  = PyStr.digits_fixed 4 (year dt) ++ "-" ++ PyStr.digits_fixed 2 (month dt)
    ++ "-" ++ PyStr.digits_fixed 2 (day dt) ++ " "
    ++ PyStr.digits_fixed 2 (hour dt) ++ ":"
    ++ PyStr.digits_fixed 2 (minute dt) ++ ":"
    ++ PyStr.digits_fixed 2 (second dt) ++ "."
    ++ PyStr.digits_fixed 3 (microsecond dt / 1000).
Proof.
  unfold strftime.
  change (PyStr.digits_fixed 6 (microsecond dt))
    with (PyStr.digits_fixed (3 + 3) (microsecond dt)).
  rewrite (digits_fixed_split 3 3 (microsecond dt)).
  change (10 ^ Z.of_nat 3) with 1000.
  set (ms := PyStr.digits_fixed 3 (microsecond dt / 1000)).
  set (us := PyStr.digits_fixed 3 (microsecond dt)).
  rewrite <- !string_app_assoc.
  match goal with
  | |- PyStr.drop_last3 (?x ++ us) = _ => set (p := x)
  end.
  unfold PyStr.drop_last3. rewrite string_length_app.
  replace (String.length p + String.length us - 3)%nat with (String.length p).
  - apply substring_prefix.
  - unfold us. rewrite digits_fixed_length. lia.
Qed.

(** ** int() and floor *)

Lemma to_int_floor (q : float) (f : Z) :
  PyFloat.floor q = Ok f ->
  exists n,
    PyFloat.to_int q = Ok n /\
    Z.to_nat n = Z.to_nat f /\
    (0 <= f -> n = f).
Proof.
  unfold PyFloat.floor, PyFloat.to_int, PyFloat.magnitude, PyFloat.signed.
  destruct (Prim2SF q) as [s|s| |s m e]; try discriminate.
  - intros [= <-]. exists 0. repeat split.
  - destruct (0 <=? e) eqn:Ee.
    + intros [= <-]. eexists. repeat split.
    + destruct s.
      * intros E.
        assert (Ef : f = - ((Z.pos m + 2 ^ (- e) - 1) / 2 ^ (- e)))
          by congruence.
        clear E. subst f. eexists. split; [reflexivity|].
        assert (Hd : 0 < 2 ^ (- e)) by (apply Z.pow_pos_nonneg; lia).
        assert (H1 : 0 <= Z.pos m / 2 ^ (- e)) by (apply Z.div_pos; lia).
        assert (H2 : 1 <= (Z.pos m + 2 ^ (- e) - 1) / 2 ^ (- e))
          by (apply Z.div_le_lower_bound; lia).
        split; lia.
      * intros [= <-]. eexists. repeat split.
Qed.

(** ** collect_and_save *)

Section CollectFacts.
Context {H : Type} `{Host H}.

(** Opening the sink: [open] fails, or the header cannot be written (the
    file object is then dropped without [close]), or the file is returned
    with its header written. *)
Lemma open_csv_file_run csv_filename var_names_list (h : H) :
  let header := csv_header var_names_list in
  (exists h1,
     _open_csv_file csv_filename var_names_list h
     = mkRun (Exc OSError) h1 [EvOpen csv_filename ModeW false])
  \/ (exists h1,
        _open_csv_file csv_filename var_names_list h
        = mkRun (Exc OSError) h1
            [EvOpen csv_filename ModeW true;
             EvWriteRow csv_filename header false])
  \/ (exists h1,
        _open_csv_file csv_filename var_names_list h
        = mkRun (Ok csv_filename) h1
            [EvOpen csv_filename ModeW true;
             EvWriteRow csv_filename header true]).
Proof.
  cbv zeta. unfold _open_csv_file.
  destruct (file_open csv_filename ModeW h) as [ok h1] eqn:Eo.
  assert (Eopen : open_file csv_filename ModeW h
                  = mkRun (if ok then Ok tt else Exc OSError) h1
                      [EvOpen csv_filename ModeW ok]).
  { unfold open_file. rewrite Eo. reflexivity. }
  destruct ok.
  - destruct (file_writerow csv_filename (csv_header var_names_list) h1)
      as [ok2 h2] eqn:Ew.
    assert (Ewr : writerow csv_filename (csv_header var_names_list) h1
                  = mkRun (if ok2 then Ok tt else Exc OSError) h2
                      [EvWriteRow csv_filename (csv_header var_names_list)
                         ok2]).
    { unfold writerow. rewrite Ew. reflexivity. }
    destruct ok2.
    + right. right. exists h2. apply try_ok.
      rewrite (bind_ok _ _ h _ _ _ Eopen).
      rewrite (bind_ok _ _ h1 _ _ _ Ewr). reflexivity.
    + right. left. exists h2. erewrite try_exc.
      2:{ rewrite (bind_ok _ _ h _ _ _ Eopen).
          rewrite (bind_exc _ _ h1 _ _ _ Ewr). reflexivity. }
      reflexivity.
  - left. exists h1. erewrite try_exc.
    2:{ exact (bind_exc _ _ h _ _ _ Eopen). }
    reflexivity.
Qed.

(** [collect_and_save] once the number of samples is known: the
    connection check, the opening of the sink and, if that returned the
    file, the loop inside [try ... finally: csv_file.close()].  An error
    of [close] replaces the result of the loop. *)
Lemma collect_and_save_run (c : Controller) duration interval csv_filename
      (h : H) (num_samples : Z) :
  sample_count duration interval = Ok num_samples ->
  let names := dict_values (measurement_vars c) in
  let chk := _check_connections names h in
  let opn := _open_csv_file csv_filename names (final chk) in
  let smp := _collect_samples csv_filename names num_samples interval
               (final opn) in
  let r := collect_and_save c duration interval csv_filename h in
  only_com (trace chk) /\
  (forall x, res opn = Exc x ->
             r = mkRun (Exc x) (final opn) (trace chk ++ trace opn)) /\
  (res opn = Ok csv_filename ->
   let flushed := file_flush csv_filename (final smp) in
   r = mkRun (if fst flushed then res smp else Exc OSError)
         (file_close csv_filename (snd flushed))
         (trace chk ++ trace opn ++ trace smp
          ++ [EvFlush csv_filename (fst flushed); EvClose csv_filename])).
Proof.
  intros En names chk opn smp r.
  destruct (check_loop_run names 0 h) as (k & h1 & tr & Ec & Hc).
  assert (Hk : res (_check_connections names h) = Ok k)
    by (unfold _check_connections; rewrite Ec; reflexivity).
  assert (Htr : tr = trace chk)
    by (unfold chk, _check_connections; rewrite Ec; reflexivity).
  subst tr.
  split; [exact Hc|].
  unfold r, collect_and_save. rewrite En.
  rewrite (bind_res_ok (_check_connections names) _ h k Hk).
  fold names. fold chk. cbn [res final trace].
  split.
  - intros x Hx.
    rewrite (bind_res_exc (_open_csv_file csv_filename names) _
               (final chk) x Hx).
    reflexivity.
  - intros Hok.
    rewrite (bind_res_ok (_open_csv_file csv_filename names) _
               (final chk) csv_filename Hok).
    fold opn. unfold try_finally, flush_and_close. fold smp.
    destruct (file_flush csv_filename (final smp)) as [ok hf].
    cbn [res final trace fst snd]. destruct ok; reflexivity.
Qed.

End CollectFacts.

(** ** The sampling claims *)

Lemma count_zero_app p (t1 t2 : list Event) :
  count p (t1 ++ t2) = O -> count p t1 = O /\ count p t2 = O.
Proof. rewrite count_app. lia. Qed.

Section SamplingClaims.
Context {H : Type} `{Host H}.

(** C7, as the code has it.  With [q = duration / interval] and [f] its
    floor, [int(q)] is the number of samples: it is [f] whenever [f] is
    not negative, and in any case the loop makes [max(f, 0)] passes.  If
    no operation on the sink fails during the run, neither [open] nor a
    [writerow] nor the writing out at [close], and if [time.sleep] accepts
    [interval] when there is a pass at all, [collect_and_save] returns
    normally and the rows written are the header followed by exactly that
    many data rows; for [f <= 0] this is the header alone. *)
Theorem sample_count_gives_the_rows (c : Controller) duration interval
        csv_filename (h : H) (q : float) (f : Z) :
  PyFloat.truediv duration interval = Ok q ->
  PyFloat.floor q = Ok f ->
  (f <= 0 \/ sleep_error interval = None) ->
  let r := collect_and_save c duration interval csv_filename h in
  count sink_failure (trace r) = O ->
  exists (num_samples : Z) (data : list (list Cell)),
    sample_count duration interval = Ok num_samples /\
    Z.to_nat num_samples = Z.to_nat f /\
    (0 <= f -> num_samples = f) /\
    res r = Ok tt /\
    attempted_rows (trace r)
    = csv_header (dict_values (measurement_vars c)) :: data /\
    List.length data = Z.to_nat f.
Proof.
  intros Eq Ef Hint r Hclean.
  destruct (to_int_floor q f Ef) as (n & En & Hnat & Hnn).
  assert (Esc : sample_count duration interval = Ok n)
    by (unfold sample_count; rewrite Eq; exact En).
  destruct (collect_and_save_run c duration interval csv_filename h n Esc)
    as (Hchk & Hfail & Hopen).
  set (names := dict_values (measurement_vars c)) in *.
  set (chk := _check_connections names h) in *.
  fold r in Hfail, Hopen.
  pose proof (only_com_off_sink _ Hchk) as Hoff.
  destruct (open_csv_file_run csv_filename names (final chk))
    as [[h1 Eo]|[[h1 Eo]|[h1 Eo]]]; cbv zeta in Eo.
  - exfalso. rewrite (Hfail OSError) in Hclean by (rewrite Eo; reflexivity).
    cbn [trace] in Hclean. apply count_zero_app in Hclean.
    rewrite Eo in Hclean. destruct Hclean as [_ Hc]. discriminate Hc.
  - exfalso. rewrite (Hfail OSError) in Hclean by (rewrite Eo; reflexivity).
    cbn [trace] in Hclean. apply count_zero_app in Hclean.
    rewrite Eo in Hclean. destruct Hclean as [_ Hc]. discriminate Hc.
  - assert (Hok : res (_open_csv_file csv_filename names (final chk))
                  = Ok csv_filename) by (rewrite Eo; reflexivity).
    specialize (Hopen Hok). cbv zeta in Hopen.
    rewrite Eo in Hopen. cbn [final trace] in Hopen.
    set (smp := _collect_samples csv_filename names n interval h1) in *.
    rewrite Hopen in Hclean. cbn [trace] in Hclean.
    apply count_zero_app in Hclean. destruct Hclean as [_ Hclean].
    apply count_zero_app in Hclean. destruct Hclean as [_ Hclean].
    apply count_zero_app in Hclean. destruct Hclean as [Hsmp Hflush].
    assert (Hfl : fst (file_flush csv_filename (final smp)) = true).
    { destruct (fst (file_flush csv_filename (final smp)));
        [reflexivity | discriminate Hflush]. }
    rewrite Hfl in Hopen.
    destruct (sample_loop_run csv_filename names interval (Z.to_nat n) 0 h1)
      as (_ & _ & Hend).
    fold (_collect_samples csv_filename names n interval h1) in Hend.
    fold smp in Hend.
    destruct Hend as [(Hres & Hlen & _)|[(_ & tr' & row & Htr)
                                        |(x & _ & Hbad & Hpos)]].
    + exists n, (attempted_rows (trace smp)).
      split; [exact Esc|]. split; [exact Hnat|]. split; [exact Hnn|].
      rewrite Hopen. cbn [res trace]. split; [exact Hres|].
      rewrite !attempted_rows_app, (off_sink_rows _ Hoff).
      cbn [attempted_rows row_of app]. rewrite app_nil_r.
      split; [reflexivity | lia].
    + exfalso. rewrite Htr in Hsmp. apply count_zero_app in Hsmp.
      destruct Hsmp as [_ Hc]. discriminate Hc.
    + exfalso. destruct Hint as [Hf|Hi]; [lia | congruence].
Qed.

(** C3, as the code has it.  The row that pass [k] (from 0) hands to the
    CSV writer is: the elapsed time [(k + 1) * interval] formatted with
    [.1f]; the timestamp with millisecond precision; then one cell per
    channel, in order, which is the value read itself, a float that the
    writer prints in full, or the text [N/A].  The two-decimal form of a
    value goes to the console line only. *)
Theorem csv_row_holds_elapsed_timestamp_and_raw_values
        csv_file (var_names_list : list string) (num_samples : Z)
        interval (h : H) (k : nat) (row : list Cell) :
  let smp := _collect_samples csv_file var_names_list num_samples interval h
  in
  nth_error (attempted_rows (trace smp)) k = Some row ->
  exists (dt : DateTime) (hk : H),
    row
    = ([CStr (PyFloat.format_f 1
                (PyFloat.of_int (Z.of_nat k + 1) * interval)%float);
        CStr (PyStr.digits_fixed 4 (year dt) ++ "-"
              ++ PyStr.digits_fixed 2 (month dt) ++ "-"
              ++ PyStr.digits_fixed 2 (day dt) ++ " "
              ++ PyStr.digits_fixed 2 (hour dt) ++ ":"
              ++ PyStr.digits_fixed 2 (minute dt) ++ ":"
              ++ PyStr.digits_fixed 2 (second dt) ++ "."
              ++ PyStr.digits_fixed 3 (microsecond dt / 1000))]
       ++ map slot (read_each var_names_list hk))%list /\
    List.length (read_each var_names_list hk) = List.length var_names_list /\
    (forall v, slot (Some v) = CFloat v) /\
    slot None = CStr "N/A" /\
    exists h1 tr,
      _read_all_measurements var_names_list hk
      = mkRun (Ok (map slot (read_each var_names_list hk),
                   map shown (read_each var_names_list hk))) h1 tr /\
      (forall v,
          shown (Some v) = PyStr.rjust 15 (PyFloat.format_f 2 v)).
Proof.
  intros smp Hrow.
  destruct (sample_loop_run csv_file var_names_list interval
              (Z.to_nat num_samples) 0 h) as (Hrows & _ & _).
  fold (_collect_samples csv_file var_names_list num_samples interval h)
    in Hrows.
  destruct (Hrows k row Hrow) as (dt & hk & ->).
  exists dt, hk. unfold tick_row.
  rewrite timestamp_milliseconds, Z.add_0_l.
  split; [reflexivity|]. split; [apply read_each_length|].
  split; [reflexivity|]. split; [reflexivity|].
  destruct (read_all_measurements_run var_names_list hk)
    as (h1 & tr & E & _).
  exists h1, tr. split; [exact E | reflexivity].
Qed.

End SamplingClaims.

(** ** Registering the channels *)

Section RegisterFacts.
Variable str_lower : string -> string.

Lemma dict_set_fresh (d : list (string * string)) (key value : string) :
  ~ In key (map fst d) -> dict_set d key value = (d ++ [(key, value)])%list.
Proof.
  induction d as [|[k v] d IH]; intros Hn; [reflexivity|].
  cbn [dict_set]. destruct (String.eqb_spec k key) as [->|Hne].
  - exfalso. apply Hn. left. reflexivity.
  - rewrite IH; [reflexivity|]. intros Hin. apply Hn. right. exact Hin.
Qed.

(** Names whose keys are new and pairwise different are appended, each
    under its own key. *)
Lemma register_vars_fresh (var_names : list string) :
  forall d : list (string * string),
    NoDup (map (var_key str_lower) var_names) ->
    (forall n, In n var_names ->
               ~ In (var_key str_lower n) (map fst d)) ->
    register_vars str_lower var_names d
    = (d ++ map (fun n => (var_key str_lower n, n)) var_names)%list.
Proof.
  induction var_names as [|n rest IH]; intros d Hnd Hnew.
  - cbn. rewrite app_nil_r. reflexivity.
  - cbn [register_vars map]. inversion Hnd as [|? ? Hnotin Hnd']; subst.
    rewrite dict_set_fresh by (apply Hnew; left; reflexivity).
    rewrite IH.
    + rewrite <- app_assoc. reflexivity.
    + exact Hnd'.
    + intros m Hm Hin. rewrite map_app, in_app_iff in Hin.
      destruct Hin as [Hin|[Hin|[]]].
      * apply (Hnew m); [right; exact Hm | exact Hin].
      * cbn in Hin. apply Hnotin. rewrite Hin.
        apply in_map. exact Hm.
Qed.

Lemma register_vars_distinct_keys (var_names : list string) :
  NoDup (map (var_key str_lower) var_names) ->
  dict_values (register_vars str_lower var_names []) = var_names.
Proof.
  intros Hnd. rewrite register_vars_fresh; [|exact Hnd|intros n _ []].
  cbn [app]. unfold dict_values. rewrite map_map. cbn [snd].
  apply map_id.
Qed.

(** A second name with the key of an earlier one takes over its entry. *)
Lemma dict_set_same_key (d : list (string * string)) (key v1 v2 : string) :
  dict_set (dict_set d key v1) key v2 = dict_set d key v2.
Proof.
  induction d as [|[k v] d IH]; cbn [dict_set].
  - rewrite String.eqb_refl. reflexivity.
  - destruct (String.eqb k key) eqn:E; cbn [dict_set]; rewrite E;
      [reflexivity | rewrite IH; reflexivity].
Qed.

End RegisterFacts.

Section ChannelOrder.
Context {H : Type} `{Host H}.

(** Slot [j] of a row is filled by the read of channel [j], made in the
    host state that the reads of the channels before it left. *)
Lemma read_each_nth (var_names_list : list string) :
  forall (h : H) (j : nat) (name : string),
    nth_error var_names_list j = Some name ->
    exists hj,
      nth_error (map slot (read_each var_names_list h)) j
      = Some (slot (measured name hj)).
Proof.
  induction var_names_list as [|n rest IH]; intros h j name Hj.
  - destruct j; discriminate.
  - destruct j as [|j].
    + cbn in Hj. injection Hj as ->. exists h. reflexivity.
    + cbn [nth_error] in Hj. cbn [read_each map nth_error].
      exact (IH _ j name Hj).
Qed.

(** C2, as the code has it.  Take the channel names given to
    [set_measurement_vars] on a controller that has no measurement
    variables yet, and let their keys (lower-cased, underscores removed) be
    pairwise different.  Then the list sampled is the list given, in its
    order; every row handed to the CSV writer has, after the elapsed time
    and the timestamp, exactly one slot per channel in that order; and
    slot [j] holds what the read of channel [j] gave, the sentinel exactly
    when that read failed, whatever the other reads did. *)
Theorem distinct_keys_give_one_slot_per_channel
        (str_lower : string -> string) (var_names_str : string)
        (c0 c : Controller) csv_file (num_samples : Z) interval (h : H) :
  measurement_vars c0 = [] ->
  set_measurement_vars str_lower var_names_str c0 = (true, c) ->
  let var_names := parse_var_names var_names_str in
  NoDup (map (var_key str_lower) var_names) ->
  let names := dict_values (measurement_vars c) in
  let smp := _collect_samples csv_file names num_samples interval h in
  names = var_names /\
  (forall k row,
      nth_error (attempted_rows (trace smp)) k = Some row ->
      exists elapsed timestamp hk,
        row = ([CStr elapsed; CStr timestamp]
               ++ map slot (read_each var_names hk))%list /\
        List.length (map slot (read_each var_names hk))
        = List.length var_names /\
        forall j name,
          nth_error var_names j = Some name ->
          exists hj,
            nth_error (map slot (read_each var_names hk)) j
            = Some (slot (measured name hj))) /\
  (forall v, slot v = CStr "N/A" <-> v = None).
Proof.
  intros Hempty Hset var_names Hnd names smp.
  assert (En : names = var_names).
  { unfold names. unfold set_measurement_vars in Hset.
    destruct (PyStr.is_empty var_names_str
              || PyStr.is_empty (PyStr.strip var_names_str));
      [discriminate|].
    fold var_names in Hset.
    destruct var_names as [|n rest] eqn:Ev; [discriminate|].
    injection Hset as <-. cbn [measurement_vars]. rewrite Hempty.
    exact (register_vars_distinct_keys str_lower (n :: rest) Hnd). }
  split; [exact En|]. split.
  - intros k row Hrow.
    destruct (sample_loop_run csv_file names interval
                (Z.to_nat num_samples) 0 h) as (Hrows & _ & _).
    fold (_collect_samples csv_file names num_samples interval h) in Hrows.
    fold smp in Hrows.
    destruct (Hrows k row Hrow) as (dt & hk & ->).
    unfold tick_row. rewrite En. eexists _, _, hk.
    split; [reflexivity|]. split.
    + rewrite length_map. apply read_each_length.
    + intros j name Hj. exact (read_each_nth var_names hk j name Hj).
  - intros [v|]; cbn; split; intros E; congruence.
Qed.

End ChannelOrder.

(** ** The file-name resolver *)

Lemma map_seq_from {A} (f : nat -> A) (k : nat) : forall m,
  map f (seq m k) = map (fun j => f (m + j)%nat) (seq 0 k).
Proof.
  induction k as [|k IH]; intros m; [reflexivity|].
  cbn [seq map]. rewrite Nat.add_0_r. f_equal.
  rewrite IH, <- seq_shift, map_map. apply map_ext.
  intros j. f_equal. lia.
Qed.

Lemma range_app (a : Z) (m k : nat) :
  range a (m + k) = (range a m ++ range (a + Z.of_nat m) k)%list.
Proof.
  unfold range. rewrite seq_app, map_app. f_equal.
  cbn [Nat.add]. rewrite map_seq_from. apply map_ext. intros j. lia.
Qed.

Section ResolverFacts.
Context {H : Type} `{Host H}.

Lemma is_file_writable_total (path : string) (h : H) :
  res (is_file_writable path h) = Ok (available path h).
Proof.
  unfold available.
  assert (T : exists b, res (is_file_writable path h) = Ok b).
  { unfold is_file_writable.
    destruct (path_exists path h) as [found h1] eqn:E.
    assert (Ex : os_path_exists path h = mkRun (Ok found) h1
                                           [EvExists path found]).
    { unfold os_path_exists. rewrite E. reflexivity. }
    rewrite (bind_ok _ _ h _ _ _ Ex). cbn [res].
    destruct (negb found); apply try_ret_total. }
  destruct T as [b ->]. reflexivity.
Qed.

Lemma search_numbered_skip filename (pre post : list Z) :
  forall h : H,
    all_unavailable (map (numbered filename) pre) h = true ->
    res (search_numbered filename (pre ++ post) h)
    = res (search_numbered filename post
             (after_probes (map (numbered filename) pre) h)).
Proof.
  induction pre as [|c pre IH]; intros h Hall; [reflexivity|].
  cbn [map all_unavailable] in Hall.
  apply andb_true_iff in Hall. destruct Hall as [Hc Hrest].
  apply negb_true_iff in Hc.
  cbn [app search_numbered map after_probes].
  rewrite (bind_res_ok _ _ h false)
    by (rewrite is_file_writable_total, Hc; reflexivity).
  cbn [res]. apply IH. exact Hrest.
Qed.

Lemma search_numbered_hit filename (c : Z) (post : list Z) (h : H) :
  available (numbered filename c) h = true ->
  res (search_numbered filename (c :: post) h)
  = Ok (Some (numbered filename c)).
Proof.
  intros Hc. cbn [search_numbered].
  rewrite (bind_res_ok _ _ h true)
    by (rewrite is_file_writable_total, Hc; reflexivity).
  reflexivity.
Qed.

(** C8.  If the desired path is available it is returned as it is.  If the
    desired path and the numbered names 1 to [n - 1], probed in this order,
    are all unavailable and number [n] (between 1 and 100) is available
    when its turn comes, the result is [{stem}_{n}{ext}].  If the desired
    path and all hundred numbered names are unavailable, the result is
    [None]. *)
Theorem first_available_numbered_name (filename : string) (h : H) :
  (available filename h = true ->
   res (get_available_filename filename h) = Ok (Some filename)) /\
  (forall n : nat,
      (1 <= n <= 100)%nat ->
      all_unavailable (filename :: candidates filename (n - 1)) h = true ->
      available (numbered filename (Z.of_nat n))
        (after_probes (filename :: candidates filename (n - 1)) h) = true ->
      res (get_available_filename filename h)
      = Ok (Some (numbered filename (Z.of_nat n)))) /\
  (all_unavailable (filename :: candidates filename 100) h = true ->
   res (get_available_filename filename h) = Ok None).
Proof.
  split; [|split].
  - intros Ha. unfold get_available_filename.
    rewrite (bind_res_ok _ _ h true)
      by (rewrite is_file_writable_total, Ha; reflexivity).
    reflexivity.
  - intros n Hn Hall Hfree.
    cbn [all_unavailable after_probes] in Hall, Hfree.
    apply andb_true_iff in Hall. destruct Hall as [Hd Hrest].
    apply negb_true_iff in Hd.
    unfold get_available_filename.
    rewrite (bind_res_ok _ _ h false)
      by (rewrite is_file_writable_total, Hd; reflexivity).
    cbn [res].
    replace 100%nat with ((n - 1) + (1 + (100 - n)))%nat by lia.
    rewrite range_app.
    rewrite (search_numbered_skip _ _ _ _ Hrest).
    change (range (1 + Z.of_nat (n - 1)) (1 + (100 - n)))
      with ((1 + Z.of_nat (n - 1) + 0)
            :: map (fun k => 1 + Z.of_nat (n - 1) + Z.of_nat k)
                   (seq 1 (100 - n))).
    replace (1 + Z.of_nat (n - 1) + 0) with (Z.of_nat n) by lia.
    apply search_numbered_hit. exact Hfree.
  - intros Hall. cbn [all_unavailable] in Hall.
    apply andb_true_iff in Hall. destruct Hall as [Hd Hrest].
    apply negb_true_iff in Hd.
    unfold get_available_filename.
    rewrite (bind_res_ok _ _ h false)
      by (rewrite is_file_writable_total, Hd; reflexivity).
    cbn [res].
    rewrite <- (app_nil_r (range 1 100)).
    rewrite (search_numbered_skip _ _ _ _ Hrest). reflexivity.
Qed.

End ResolverFacts.

(** ** The batch *)

Section BatchFacts.
Context {H : Type} `{Host H}.

(** Whenever the batch loop returns, each item has been counted once, as
    a success or as a failure. *)
Lemma apply_loop_counts (items : list (string * float)) :
  forall (success_count fail_count : Z) (h : H) (s f : Z),
    res (apply_loop items success_count fail_count h) = Ok (s, f) ->
    s + f = success_count + fail_count + Z.of_nat (List.length items)
    /\ success_count <= s /\ fail_count <= f.
Proof.
  induction items as [|[var_name new_value] rest IH];
    intros sc fc h s f E.
  - cbn in E. injection E as <- <-. cbn. lia.
  - cbn [apply_loop] in E. unfold bind in E.
    destruct (res (_apply_single var_name new_value h)) as [[|]|x];
      cbn [res] in E; try discriminate;
      apply IH in E; cbn [List.length]; lia.
Qed.

End BatchFacts.

(** * Scenarios on the scripted host *)

Import Scripted.

(** The diagnostic read answers, then [GetCalibrationValueInDevice] raises
    inside the write: [_apply_single] ends there and the answers left in
    the script are never asked for. *)
Lemma failed_write_skips_verification_witness :
  let h := device [ok; value 0; Raised; ok; value 1] in
  res (_write_calibration "P" 1 (final (_read_calibration "P" h))) = Ok false
  /\ _apply_single "P" 1 h
     = mkRun (Ok false) (device [ok; value 1])
         [EvCom (GetCalibrationValueInDevice "P") (Returned None);
          EvCom (CalibGetDoublePhysValue "P") (Returned (Some 0%float));
          EvCom (GetCalibrationValueInDevice "P") Raised].
Proof.
  cbv zeta.
  assert (Hw : res (_write_calibration "P" 1
                      (final (_read_calibration "P"
                                (device [ok; value 0; Raised; ok; value 1]))))
               = Ok false) by reflexivity.
  split; [exact Hw|].
  rewrite (proj1 (failed_write_skips_verification "P" 1 _ Hw)).
  reflexivity.
Defined.

(** All three synchronisation methods raise after a write whose calls
    returned: the write still reports success and the verification runs
    (here the first read-back shows the value written). *)
Lemma sync_first_success_and_write_proceeds_witness :
  let h := device [ok; value 0; ok; ok; Raised; Raised; Raised;
                   ok; value 1] in
  res (_write_calibration "P" 1 (final (_read_calibration "P" h))) = Ok true
  /\ res (_apply_single "P" 1 h) = Ok true.
Proof.
  cbv zeta.
  assert (Hw : res (_write_calibration "P" 1
                      (final (_read_calibration "P"
                                (device [ok; value 0; ok; ok;
                                         Raised; Raised; Raised;
                                         ok; value 1]))))
               = Ok true) by reflexivity.
  split; [exact Hw|].
  rewrite (proj2 (proj2 (proj2
             (sync_first_success_and_write_proceeds "P" 1 _))) Hw).
  reflexivity.
Defined.

(** A started controller: the first stop issues [StopMeasurement] and
    clears the flag, the second one does nothing. *)
Lemma stop_measurement_guard_and_idempotence_witness :
  let c := mkController true [("a", "A")] in
  let h := device [ok; ok] in
  exists b c1,
    res (stop_measurement c h) = Ok (b, c1) /\
    measurement_started c1 = false /\
    trace (stop_measurement c1 (final (stop_measurement c h))) = [].
Proof.
  cbv zeta.
  destruct (proj2 (stop_measurement_guard_and_idempotence
                     (mkController true [("a", "A")]) (device [ok; ok])))
    as (b & c1 & Hres & _ & _ & Hflag & Hnoop & _).
  exists b, c1. split; [exact Hres|].
  assert (Hf : measurement_started c1 = false).
  { apply Hflag. exists None. left. reflexivity. }
  split; [exact Hf|]. rewrite (Hnoop Hf). reflexivity.
Defined.

(** C10 at a refuting input.  A started controller whose first
    [StopMeasurement()] raises: the first [stop_measurement] answers
    [False] and leaves the flag set, so the second one, right after it,
    issues [StopMeasurement] again. *)
Theorem second_stop_repeats_a_failed_stop :
  let c := mkController true [("a", "A")] in
  let h := device [Raised; ok; ok] in
  let r1 := stop_measurement c h in
  let r2 := stop_measurement c (final r1) in
  res r1 = Ok (false, c) /\
  (trace r1 ++ trace r2)%list
  = [EvCom StopMeasurement Raised;
     EvCom StopMeasurement (Returned None);
     EvCom (WriteToMonitor "측정이 중지되었습니다.") (Returned None)] /\
  count is_stop_call (trace r1 ++ trace r2) = 2%nat.
Proof. cbv zeta. repeat split. Qed.

(** C7 at a refuting input.  Duration 2e10 s and interval 1e10 s, both
    positive: two samples are due and no operation on the sink fails, but
    after the first row [time.sleep(1e10)] raises [OverflowError], so
    [collect_and_save] raises with one data row written instead of
    two. *)
Theorem long_interval_raises_after_the_first_row :
  let c := mkController false [("a", "A")] in
  let r := collect_and_save c 2e10 1e10 "out.csv" (device []) in
  sample_count 2e10 1e10 = Ok 2 /\
  PyFloat.floor (2e10 / 1e10)%float = Ok 2 /\
  count sink_failure (trace r) = O /\
  res r = Exc OverflowError /\
  attempted_rows (trace r)
  = [csv_header ["A"];
     [CStr "10000000000.0"; CStr "2025-10-22 12:00:01.123"; CStr "N/A"]] /\
  count is_close (trace r) = 1%nat.
Proof. cbv zeta. repeat split; vm_compute; reflexivity. Qed.


(** C1 at a failing input.  Two parameters; for the first one the write
    goes through and then every read-back raises.  [apply_all] does not
    return a summary: the [TypeError] of the warning after the third retry
    leaves it, and the second parameter is never touched. *)
Theorem apply_all_raises_when_read_back_fails :
  let h := device [ok; value 0; ok; ok; ok] in
  let r := apply_all [("P", 1%float); ("Q", 2%float)] h in
  res r = Exc TypeError /\
  trace r
  = [EvCom (GetCalibrationValueInDevice "P") (Returned None);
     EvCom (CalibGetDoublePhysValue "P") (Returned (Some 0%float));
     EvCom (GetCalibrationValueInDevice "P") (Returned None);
     EvCom (SetDoublePhysValue "P" 1) (Returned None);
     EvSleep 0.1; EvCom Synchronize (Returned None);
     EvSleep 0.3;
     EvCom (GetCalibrationValueInDevice "P") Raised; EvSleep 0.5;
     EvCom (GetCalibrationValueInDevice "P") Raised; EvSleep 0.5;
     EvCom (GetCalibrationValueInDevice "P") Raised].
Proof. cbv zeta. split; reflexivity. Qed.

(** C4 at a failing input.  Target 100.0; two read-backs show 99.98 and
    the third one raises.  All three fail the test, and [_apply_single]
    does not return [False]: it raises [TypeError]. *)
Theorem verification_raises_when_last_read_back_fails :
  let h := device [ok; value 0; ok; ok; ok;
                   ok; value 99.98; ok; value 99.98; Raised] in
  let r := _apply_single "P" 100 h in
  res r = Exc TypeError /\
  existsb (passes 100) (trace r) = false /\
  count is_read_attempt (trace (_verify_calibration "P" 100
     (final (_write_calibration "P" 100
               (final (_read_calibration "P" h)))))) = 3%nat.
Proof. cbv zeta. repeat split; reflexivity. Qed.

(** The two values of the spec: 99.995 is within the tolerance of 100.0
    and verifies at the first read-back; 99.98 is not, and three such
    read-backs give [False]. *)
Example tolerance_of_the_spec :
  PyFloat.within_tolerance 99.995 100 = true /\
  PyFloat.within_tolerance 99.98 100 = false /\
  res (_apply_single "P" 100
         (device [ok; value 0; ok; ok; ok; ok; value 99.995])) = Ok true /\
  res (_apply_single "P" 100
         (device [ok; value 0; ok; ok; ok;
                  ok; value 99.98; ok; value 99.98; ok; value 99.98]))
  = Ok false.
Proof. repeat split; reflexivity. Qed.

(** C2 at a failing input: two channels whose names differ in case and
    underscore only.  They share one key, so one entry of the dict, and
    every sample row has one slot where the channel set has two names. *)
Lemma case_variant_channels_share_one_slot :
  let c := snd (set_measurement_vars PyStr.ascii_lower "A_1,a1"
                  (mkController false [])) in
  let r := collect_and_save c 0.2 0.2 "out.csv"
             (device [ok; value 1; ok; value 2]) in
  parse_var_names "A_1,a1" = ["A_1"; "a1"] /\
  measurement_vars c = [("a1", "a1")] /\
  attempted_rows (trace r)
  = [[CStr "시간(초)"; CStr "타임스탬프"; CStr "a1"];
     [CStr "0.2"; CStr "2025-10-22 12:00:01.123"; CFloat 2]] /\
  ~ (forall row, In row (tl (attempted_rows (trace r))) ->
                 List.length (skipn 2 row) = List.length ["A_1"; "a1"]).
Proof.
  cbv zeta. split; [reflexivity|]. split; [reflexivity|].
  split; [reflexivity|].
  intros Hall.
  specialize (Hall [CStr "0.2"; CStr "2025-10-22 12:00:01.123"; CFloat 2]
                (or_introl eq_refl)).
  discriminate Hall.
Qed.

(** C3 at a failing input: the channel reads 1.23456 and the row handed
    to the CSV writer holds that float, not the text [1.23]. *)
Lemma csv_row_holds_raw_float :
  let c := mkController false [("a", "A")] in
  let r := collect_and_save c 0.2 0.2 "out.csv"
             (device [ok; value 1.23456; ok; value 1.23456]) in
  res r = Ok tt /\
  attempted_rows (trace r)
  = [csv_header ["A"];
     [CStr "0.2"; CStr "2025-10-22 12:00:01.123"; CFloat 1.23456]] /\
  PyFloat.format_f 2 1.23456 = "1.23" /\
  ~ (forall row, In row (tl (attempted_rows (trace r))) ->
                 spec_row_format row).
Proof.
  cbv zeta. split; [reflexivity|]. split; [reflexivity|].
  split; [reflexivity|].
  intros Hall.
  destruct (Hall [CStr "0.2"; CStr "2025-10-22 12:00:01.123";
                  CFloat 1.23456] (or_introl eq_refl))
    as (e & t & cells & Erow & Hcells).
  injection Erow as _ _ <-.
  inversion Hcells as [|? ? Hc _]; subst.
  destruct Hc as [Hc|[v Hc]]; discriminate Hc.
Qed.

(** [duration = 10], [interval = 0.2]: the quotient is 50.0 and the run
    writes the header and exactly 50 data rows. *)
Lemma sample_count_gives_the_rows_witness :
  let c := mkController false [("a", "A")] in
  let r := collect_and_save c 10 0.2 "out.csv" (device []) in
  PyFloat.truediv 10 0.2 = Ok 50%float /\
  PyFloat.floor 50 = Ok 50 /\
  sleep_error 0.2 = None /\
  count sink_failure (trace r) = O /\
  res r = Ok tt /\
  exists data,
    attempted_rows (trace r) = csv_header ["A"] :: data /\
    List.length data = 50%nat.
Proof.
  cbv zeta.
  assert (Eq : PyFloat.truediv 10 0.2 = Ok 50%float) by reflexivity.
  assert (Ef : PyFloat.floor 50 = Ok 50) by reflexivity.
  assert (Ei : sleep_error 0.2 = None) by reflexivity.
  assert (Ec : count sink_failure
                 (trace (collect_and_save (mkController false [("a", "A")])
                           10 0.2 "out.csv" (device []))) = O)
    by (vm_compute; reflexivity).
  destruct (sample_count_gives_the_rows (mkController false [("a", "A")])
              10 0.2 "out.csv" (device []) 50%float 50 Eq Ef (or_intror Ei) Ec)
    as (n & data & _ & _ & _ & Hres & Hrows & Hlen).
  split; [exact Eq|]. split; [exact Ef|]. split; [exact Ei|].
  split; [exact Ec|]. split; [exact Hres|].
  exists data. split; assumption.
Defined.

(** [duration = 0.05], [interval = 0.2]: no data row, the header is
    written and the call returns normally. *)
Example short_run_writes_the_header_only :
  let c := mkController false [("a", "A")] in
  let r := collect_and_save c 0.05 0.2 "out.csv" (device []) in
  sample_count 0.05 0.2 = Ok 0 /\
  sample_count 10 0.2 = Ok 50 /\
  res r = Ok tt /\
  attempted_rows (trace r) = [csv_header ["A"]].
Proof. cbv zeta. repeat split; reflexivity. Qed.

(** The desired name and [result_1.csv] are locked by another program,
    [result_2.csv] is free. *)
Lemma first_available_numbered_name_witness :
  let busy := ["result.csv"; "result_1.csv"] in
  let h := mkScript [] busy busy 0 noon in
  all_unavailable ("result.csv" :: candidates "result.csv" (2 - 1)) h = true
  /\ available (numbered "result.csv" 2)
       (after_probes ("result.csv" :: candidates "result.csv" (2 - 1)) h)
     = true
  /\ numbered (H := Script) "result.csv" 2 = "result_2.csv"
  /\ res (get_available_filename "result.csv" h) = Ok (Some "result_2.csv").
Proof.
  cbv zeta.
  assert (E1 : all_unavailable
                 ("result.csv" :: candidates "result.csv" (2 - 1))
                 (mkScript [] ["result.csv"; "result_1.csv"]
                    ["result.csv"; "result_1.csv"] 0 noon) = true)
    by reflexivity.
  assert (E2 : available (numbered "result.csv" (Z.of_nat 2))
                 (after_probes
                    ("result.csv" :: candidates "result.csv" (2 - 1))
                    (mkScript [] ["result.csv"; "result_1.csv"]
                       ["result.csv"; "result_1.csv"] 0 noon)) = true)
    by reflexivity.
  assert (Hn : (1 <= 2 <= 100)%nat) by lia.
  split; [exact E1|]. split; [exact E2|]. split; [reflexivity|].
  exact (proj1 (proj2 (first_available_numbered_name "result.csv" _))
           2%nat Hn E1 E2).
Defined.

(** Channels A, B, C with B unreadable: three slots in order, the
    sentinel in the middle one only. *)
Lemma distinct_keys_give_one_slot_per_channel_witness :
  let c0 := mkController false [] in
  let c := snd (set_measurement_vars PyStr.ascii_lower "A, B,C" c0) in
  let h := device [ok; value 1; Raised; ok; value 3] in
  let smp := _collect_samples "out.csv" (dict_values (measurement_vars c))
               1 0.2 h in
  measurement_vars c0 = [] /\
  set_measurement_vars PyStr.ascii_lower "A, B,C" c0 = (true, c) /\
  NoDup (map (var_key PyStr.ascii_lower) (parse_var_names "A, B,C")) /\
  dict_values (measurement_vars c) = ["A"; "B"; "C"] /\
  attempted_rows (trace smp)
  = [[CStr "0.2"; CStr "2025-10-22 12:00:01.123";
      CFloat 1; CStr "N/A"; CFloat 3]].
Proof.
  cbv zeta.
  assert (Hnd : NoDup (map (var_key PyStr.ascii_lower)
                         (parse_var_names "A, B,C"))).
  { change (NoDup ["a"; "b"; "c"]).
    repeat constructor; cbn; intuition discriminate. }
  split; [reflexivity|]. split; [reflexivity|]. split; [exact Hnd|].
  split; [|reflexivity].
  exact (proj1 (distinct_keys_give_one_slot_per_channel PyStr.ascii_lower
                  "A, B,C" (mkController false []) _ "out.csv" 1 0.2
                  (device [ok; value 1; Raised; ok; value 3])
                  eq_refl eq_refl Hnd)).
Defined.

(** The first data row of a run with one readable and one unreadable
    channel. *)
Lemma csv_row_holds_elapsed_timestamp_and_raw_values_witness :
  let h := device [ok; value 1.23456; Raised] in
  let smp := _collect_samples "out.csv" ["A"; "B"] 1 0.2 h in
  let row := [CStr "0.2"; CStr "2025-10-22 12:00:01.123";
              CFloat 1.23456; CStr "N/A"] in
  nth_error (attempted_rows (trace smp)) 0 = Some row /\
  exists (dt : DateTime) (hk : Script),
    row = ([CStr (PyFloat.format_f 1 (PyFloat.of_int (Z.of_nat 0 + 1) * 0.2)%float);
            CStr (PyStr.digits_fixed 4 (year dt) ++ "-"
                  ++ PyStr.digits_fixed 2 (month dt) ++ "-"
                  ++ PyStr.digits_fixed 2 (day dt) ++ " "
                  ++ PyStr.digits_fixed 2 (hour dt) ++ ":"
                  ++ PyStr.digits_fixed 2 (minute dt) ++ ":"
                  ++ PyStr.digits_fixed 2 (second dt) ++ "."
                  ++ PyStr.digits_fixed 3 (microsecond dt / 1000))]
           ++ map slot (read_each ["A"; "B"] hk))%list.
Proof.
  cbv zeta.
  assert (E : nth_error
                (attempted_rows
                   (trace (_collect_samples "out.csv" ["A"; "B"] 1 0.2
                             (device [ok; value 1.23456; Raised])))) 0
              = Some [CStr "0.2"; CStr "2025-10-22 12:00:01.123";
                      CFloat 1.23456; CStr "N/A"]) by reflexivity.
  split; [exact E|].
  destruct (csv_row_holds_elapsed_timestamp_and_raw_values
              "out.csv" ["A"; "B"] 1 0.2
              (device [ok; value 1.23456; Raised]) 0 _ E)
    as (dt & hk & Hrow & _).
  exists dt, hk. exact Hrow.
Defined.

(** * Further properties of the code *)

(** ** FileValidator *)

Section ResolverMore.
Context {H : Type} `{Host H}.

Lemma close_file_run (path : string) (h : H) :
  close_file path h = mkRun (Ok tt) (file_close path h) [EvClose path].
Proof. reflexivity. Qed.

(** X1.  A path that exists is only opened for appending and closed
    again: [is_file_writable] never opens it for writing (which would
    truncate it) and never removes it, and it answers whether the open
    went through. *)
Theorem existing_file_is_only_opened_for_append (path : string) (h : H) :
  fst (path_exists path h) = true ->
  let h1 := snd (path_exists path h) in
  let ok := fst (file_open path ModeA h1) in
  let r := is_file_writable path h in
  res r = Ok ok /\
  trace r = ([EvExists path true; EvOpen path ModeA ok]
             ++ if ok then [EvClose path] else [])%list /\
  Forall (fun e => destructive e = false) (trace r).
Proof.
  intros Hex h1 ok r. unfold r, is_file_writable.
  destruct (path_exists path h) as [found hx] eqn:E.
  cbn [fst snd] in *. subst found. subst h1.
  assert (Ex : os_path_exists path h = mkRun (Ok true) hx [EvExists path true]).
  { unfold os_path_exists. rewrite E. reflexivity. }
  rewrite (bind_ok _ _ h _ _ _ Ex). cbn [negb].
  destruct (file_open path ModeA hx) as [ok' h2] eqn:Eo.
  cbn [fst] in ok. subst ok.
  assert (Eopen : open_file path ModeA hx
                  = mkRun (if ok' then Ok tt else Exc OSError) h2
                      [EvOpen path ModeA ok']).
  { unfold open_file. rewrite Eo. reflexivity. }
  destruct ok'.
  - erewrite try_ok.
    2:{ rewrite (bind_ok _ _ hx _ _ _ Eopen).
        rewrite (bind_ok _ _ h2 _ _ _ (close_file_run path h2)).
        reflexivity. }
    cbn [res final trace app]. repeat split. repeat constructor.
  - erewrite try_exc.
    2:{ exact (bind_exc _ _ hx _ _ _ Eopen). }
    cbn [res final trace app ret]. repeat split. repeat constructor.
Qed.

(** The ways a probe of a path that does not exist can go. *)
Lemma missing_file_probe_cases (path : string) (h : H) :
  fst (path_exists path h) = false ->
  let dir := os_path_dirname path in
  let r := is_file_writable path h in
  (exists tr,
      res r = Ok true /\
      trace r = (tr ++ [EvOpen path ModeW true; EvClose path;
                        EvRemove path true])%list /\
      Forall (fun e => is_exists_probe e = true) tr)
  \/ (res r = Ok false /\
      PyStr.is_empty dir = false /\
      trace r = [EvExists path false; EvExists dir false])
  \/ (exists tr,
        res r = Ok false /\
        trace r = (tr ++ [EvOpen path ModeW false])%list /\
        Forall (fun e => is_exists_probe e = true) tr)
  \/ (exists tr,
        res r = Ok false /\
        trace r = (tr ++ [EvOpen path ModeW true; EvClose path;
                          EvRemove path false])%list /\
        Forall (fun e => is_exists_probe e = true) tr).
Proof.
  intros Hex dir r. unfold r, is_file_writable. fold dir.
  destruct (path_exists path h) as [found hx] eqn:E.
  cbn [fst] in Hex. subst found.
  assert (Ex : os_path_exists path h
               = mkRun (Ok false) hx [EvExists path false]).
  { unfold os_path_exists. rewrite E. reflexivity. }
  rewrite (bind_ok _ _ h _ _ _ Ex). cbn [negb].
  assert (Hdir : exists missing hd td,
             (if PyStr.is_empty dir then ret false
              else bind (os_path_exists dir) (fun d => ret (negb d))) hx
             = mkRun (Ok missing) hd td /\
             Forall (fun e => is_exists_probe e = true) td /\
             (missing = true ->
              PyStr.is_empty dir = false /\ td = [EvExists dir false])).
  { destruct (PyStr.is_empty dir).
    - exists false, hx, []. repeat split; try constructor; discriminate.
    - destruct (path_exists dir hx) as [d hd] eqn:Ed.
      exists (negb d), hd, [EvExists dir d].
      split.
      + unfold bind, os_path_exists. rewrite Ed. reflexivity.
      + split; [repeat constructor|].
        destruct d; [discriminate|]. intros _. split; reflexivity. }
  destruct Hdir as (missing & hd & td & Edir & Htd & Hmiss).
  destruct missing.
  - right. left. destruct (Hmiss eq_refl) as [Hne ->].
    erewrite try_ok.
    2:{ rewrite (bind_ok _ _ hx _ _ _ Edir). reflexivity. }
    cbn [res trace app]. repeat split; assumption.
  - destruct (file_open path ModeW hd) as [ok h2] eqn:Eo.
    assert (Eopen : open_file path ModeW hd
                    = mkRun (if ok then Ok tt else Exc OSError) h2
                        [EvOpen path ModeW ok]).
    { unfold open_file. rewrite Eo. reflexivity. }
    destruct ok.
    + destruct (file_remove path (file_close path h2)) as [ok2 h3] eqn:Er.
      assert (Erem : os_remove path (file_close path h2)
                     = mkRun (if ok2 then Ok tt else Exc OSError) h3
                         [EvRemove path ok2]).
      { unfold os_remove. rewrite Er. reflexivity. }
      destruct ok2.
      * left. exists (EvExists path false :: td).
        erewrite try_ok.
        2:{ rewrite (bind_ok _ _ hx _ _ _ Edir).
            rewrite (bind_ok _ _ hd _ _ _ Eopen).
            rewrite (bind_ok _ _ h2 _ _ _ (close_file_run path h2)).
            rewrite (bind_ok _ _ _ _ _ _ Erem). reflexivity. }
        cbn [res trace app ret]. rewrite ?app_nil_r, <- ?app_assoc; cbn [app]; rewrite ?app_nil_r.
        split; [reflexivity|]. split; [reflexivity|].
        constructor; [reflexivity | exact Htd].
      * right. right. right. exists (EvExists path false :: td).
        erewrite try_exc.
        2:{ rewrite (bind_ok _ _ hx _ _ _ Edir).
            rewrite (bind_ok _ _ hd _ _ _ Eopen).
            rewrite (bind_ok _ _ h2 _ _ _ (close_file_run path h2)).
            rewrite (bind_exc _ _ _ _ _ _ Erem). reflexivity. }
        cbn [res trace app ret]. rewrite ?app_nil_r, <- ?app_assoc; cbn [app]; rewrite ?app_nil_r.
        split; [reflexivity|]. split; [reflexivity|].
        constructor; [reflexivity | exact Htd].
    + right. right. left. exists (EvExists path false :: td).
      erewrite try_exc.
      2:{ rewrite (bind_ok _ _ hx _ _ _ Edir).
          rewrite (bind_exc _ _ hd _ _ _ Eopen). reflexivity. }
      cbn [res trace app ret]. rewrite ?app_nil_r, <- ?app_assoc; cbn [app]; rewrite ?app_nil_r.
      split; [reflexivity|]. split; [reflexivity|].
      constructor; [reflexivity | exact Htd].
Qed.

End ResolverMore.

Section ResolverMore2.
Context {H : Type} `{Host H}.

(** When the parent directory of a missing path is itself missing, the
    probe ends after the two looks at the file system. *)
Lemma missing_directory_probe (path : string) (h : H) :
  fst (path_exists path h) = false ->
  let dir := os_path_dirname path in
  PyStr.is_empty dir = false ->
  fst (path_exists dir (snd (path_exists path h))) = false ->
  let r := is_file_writable path h in
  res r = Ok false /\
  trace r = [EvExists path false; EvExists dir false].
Proof.
  intros Hex dir Hne Hd r. unfold r, is_file_writable. fold dir.
  destruct (path_exists path h) as [found hx] eqn:E.
  cbn [fst snd] in *. subst found.
  assert (Ex : os_path_exists path h
               = mkRun (Ok false) hx [EvExists path false]).
  { unfold os_path_exists. rewrite E. reflexivity. }
  rewrite (bind_ok _ _ h _ _ _ Ex). cbn [negb]. rewrite Hne.
  destruct (path_exists dir hx) as [d hd] eqn:Ed.
  cbn [fst] in Hd. subst d.
  assert (Exd : os_path_exists dir hx
                = mkRun (Ok false) hd [EvExists dir false]).
  { unfold os_path_exists. rewrite Ed. reflexivity. }
  erewrite try_ok.
  2:{ erewrite (bind_ok _ _ hx true hd [EvExists dir false]).
      - reflexivity.
      - rewrite (bind_ok _ _ hx _ _ _ Exd). reflexivity. }
  cbn [res trace app]. split; reflexivity.
Qed.

(** X2.  For a path that does not exist, [is_file_writable] answers
    [True] exactly when it created the probe file, closed it and removed
    it again, and these are then the last things it did, after looks at
    the file system only.  A file it has opened it closes.  When the
    parent directory is missing it creates nothing. *)
Theorem probe_file_is_removed_again (path : string) (h : H) :
  fst (path_exists path h) = false ->
  let dir := os_path_dirname path in
  let r := is_file_writable path h in
  (res r = Ok true <-> In (EvRemove path true) (trace r)) /\
  (res r = Ok true ->
   exists tr,
     trace r = (tr ++ [EvOpen path ModeW true; EvClose path;
                       EvRemove path true])%list /\
     Forall (fun e => is_exists_probe e = true) tr) /\
  (In (EvOpen path ModeW true) (trace r) -> In (EvClose path) (trace r)) /\
  (PyStr.is_empty dir = false ->
   fst (path_exists dir (snd (path_exists path h))) = false ->
   res r = Ok false /\ count destructive (trace r) = O).
Proof.
  intros Hex dir r.
  assert (Hprobe : forall tr e,
             Forall (fun e => is_exists_probe e = true) tr ->
             In e tr -> is_exists_probe e = true).
  { intros tr e F. rewrite Forall_forall in F. apply F. }
  destruct (missing_file_probe_cases path h Hex)
    as [(tr & Hres & Htr & Hp)|[(Hres & Hne & Htr)|[(tr & Hres & Htr & Hp)
                                                   |(tr & Hres & Htr & Hp)]]];
    fold dir in Htr; fold r in Htr, Hres; rewrite Hres, Htr.
  - split; [|split; [|split]].
    + split; [intros _|reflexivity].
      apply in_or_app. right. right. right. left. reflexivity.
    + intros _. exists tr. split; [reflexivity | exact Hp].
    + intros _. apply in_or_app. right. right. left. reflexivity.
    + intros Hne Hd.
      destruct (missing_directory_probe path h Hex Hne Hd) as [Hr _].
      fold r in Hr. congruence.
  - split; [|split; [|split]].
    + split; [discriminate|]. intros [Hin|[Hin|[]]]; discriminate.
    + discriminate.
    + intros [Hin|[Hin|[]]]; discriminate.
    + intros _ _. split; reflexivity.
  - split; [|split; [|split]].
    + split; [discriminate|]. intros Hin. apply in_app_or in Hin.
      destruct Hin as [Hin|[Hin|[]]]; [|discriminate].
      apply (Hprobe _ _ Hp) in Hin. discriminate.
    + discriminate.
    + intros Hin. apply in_app_or in Hin.
      destruct Hin as [Hin|[Hin|[]]]; [|discriminate].
      apply (Hprobe _ _ Hp) in Hin. discriminate.
    + intros Hne Hd.
      destruct (missing_directory_probe path h Hex Hne Hd) as [_ Ht].
      fold r dir in Ht. rewrite Htr in Ht. exfalso.
      destruct tr as [|e [|e' tr']]; cbn in Ht; try discriminate Ht.
      destruct tr'; discriminate Ht.
  - split; [|split; [|split]].
    + split; [discriminate|]. intros Hin. apply in_app_or in Hin.
      destruct Hin as [Hin|[Hin|[Hin|[Hin|[]]]]]; try discriminate.
      apply (Hprobe _ _ Hp) in Hin. discriminate.
    + discriminate.
    + intros _. apply in_or_app. right. right. left. reflexivity.
    + intros Hne Hd.
      destruct (missing_directory_probe path h Hex Hne Hd) as [_ Ht].
      fold r dir in Ht. rewrite Htr in Ht.
      apply (f_equal (@List.length Event)) in Ht.
      rewrite List.length_app in Ht. cbn in Ht. lia.
Qed.

End ResolverMore2.

(** A scratch name that does not exist yet: the probe creates it, removes
    it and leaves no file behind. *)
Lemma probe_file_is_removed_again_witness :
  let h := device [] in
  let r := is_file_writable "new.csv" h in
  fst (path_exists "new.csv" h) = false /\
  In (EvRemove "new.csv" true) (trace r) /\
  existing (final r) = [].
Proof.
  cbv zeta.
  assert (Hex : fst (path_exists "new.csv" (device [])) = false)
    by reflexivity.
  split; [exact Hex|]. split; [|reflexivity].
  apply (proj1 (proj1 (probe_file_is_removed_again "new.csv" (device [])
                         Hex))).
  reflexivity.
Defined.

(** A file that exists and is locked by another program: the answer is
    [False] and the file is still there. *)
Lemma existing_file_is_only_opened_for_append_witness :
  let h := mkScript [] ["result.csv"] ["result.csv"] 0 noon in
  let r := is_file_writable "result.csv" h in
  fst (path_exists "result.csv" h) = true /\
  res r = Ok false /\
  existing (final r) = ["result.csv"].
Proof.
  cbv zeta.
  assert (Hex : fst (path_exists "result.csv"
                       (mkScript [] ["result.csv"] ["result.csv"] 0 noon))
                = true) by reflexivity.
  split; [exact Hex|]. split; [|reflexivity].
  rewrite (proj1 (existing_file_is_only_opened_for_append "result.csv"
                    (mkScript [] ["result.csv"] ["result.csv"] 0 noon)
                    Hex)).
  reflexivity.
Defined.

Section ResolverMore3.
Context {H : Type} `{Host H}.

Lemma search_numbered_first filename (counters : list Z) :
  forall h : H,
    res (search_numbered filename counters h)
    = Ok (first_available (map (numbered filename) counters) h).
Proof.
  induction counters as [|c rest IH]; intros h; [reflexivity|].
  cbn [search_numbered map first_available].
  rewrite (bind_res_ok _ _ h (available (numbered filename c) h))
    by apply is_file_writable_total.
  cbn [res]. destruct (available (numbered filename c) h);
    [reflexivity | apply IH].
Qed.

Lemma first_available_none (paths : list string) :
  forall h : H,
    first_available paths h = None <-> all_unavailable paths h = true.
Proof.
  induction paths as [|p rest IH]; intros h; cbn.
  - split; reflexivity.
  - destruct (available p h); cbn.
    + split; discriminate.
    + apply IH.
Qed.

Lemma first_available_some (paths : list string) :
  forall (h : H) (p : string),
    first_available paths h = Some p ->
    exists pre post,
      paths = (pre ++ p :: post)%list /\
      all_unavailable pre h = true /\
      available p (after_probes pre h) = true.
Proof.
  induction paths as [|q rest IH]; intros h p E; [discriminate|].
  cbn in E. destruct (available q h) eqn:Eq.
  - injection E as <-. exists [], rest. repeat split. exact Eq.
  - destruct (IH _ p E) as (pre & post & -> & Hall & Hav).
    exists (q :: pre), post. split; [reflexivity|].
    cbn. rewrite Eq. split; assumption.
Qed.

(** X3.  [get_available_filename] never raises and returns the first of
    the desired path and [{stem}_1{ext}] ... [{stem}_100{ext}] that
    [is_file_writable] accepts when they are probed in this order.  So a
    name it returns is one of these 101, was found available in its own
    probe, and every name before it was found unavailable; and [None] is
    returned only when all 101 were found unavailable. *)
Theorem resolver_returns_first_available (filename : string) (h : H) :
  let paths := filename :: candidates filename 100 in
  let r := get_available_filename filename h in
  res r = Ok (first_available paths h) /\
  List.length paths = 101%nat /\
  (res r = Ok None <-> all_unavailable paths h = true) /\
  (forall p,
      res r = Ok (Some p) ->
      exists pre post,
        paths = (pre ++ p :: post)%list /\
        all_unavailable pre h = true /\
        available p (after_probes pre h) = true).
Proof.
  intros paths r.
  assert (E : res r = Ok (first_available paths h)).
  { unfold r, get_available_filename, paths, candidates.
    rewrite (bind_res_ok _ _ h (available filename h))
      by apply is_file_writable_total.
    cbn [res first_available].
    destruct (available filename h); [reflexivity|].
    apply search_numbered_first. }
  split; [exact E|]. split.
  - unfold paths, candidates, range. cbn [List.length].
    rewrite !length_map, length_seq. reflexivity.
  - rewrite E. split.
    + rewrite <- first_available_none. split; congruence.
    + intros p Hp. apply first_available_some. congruence.
Qed.

End ResolverMore3.

(** ** set_measurement_vars *)

Lemma rev_acc_app (s acc : string) :
  PyStr.rev_acc s acc = PyStr.rev_acc s EmptyString ++ acc.
Proof.
  revert acc. induction s as [|c s IH]; intros acc; cbn; [reflexivity|].
  rewrite IH, (IH (String c EmptyString)), string_app_assoc. reflexivity.
Qed.

Lemma rev_acc_rev_acc (s acc : string) :
  PyStr.rev_acc (PyStr.rev_acc s acc) EmptyString
  = PyStr.rev_acc acc EmptyString ++ s.
Proof.
  revert acc. induction s as [|c s IH]; intros acc; cbn.
  - induction (PyStr.rev_acc acc EmptyString) as [|x t IHt]; cbn;
      [reflexivity | rewrite <- IHt; reflexivity].
  - rewrite IH. cbn. rewrite (rev_acc_app acc), string_app_assoc.
    reflexivity.
Qed.

Lemma rev_involutive (s : string) : PyStr.rev (PyStr.rev s) = s.
Proof. unfold PyStr.rev. rewrite rev_acc_rev_acc. reflexivity. Qed.

Lemma all_space_rev_acc (s acc : string) :
  all_space (PyStr.rev_acc s acc) = all_space s && all_space acc.
Proof.
  revert acc. induction s as [|c s IH]; intros acc; cbn; [reflexivity|].
  rewrite IH. cbn. destruct (PyStr.is_space c), (all_space s); reflexivity.
Qed.

Lemma all_space_rev (s : string) : all_space (PyStr.rev s) = all_space s.
Proof. unfold PyStr.rev. rewrite all_space_rev_acc. apply andb_true_r. Qed.

Lemma lstrip_empty (s : string) :
  PyStr.is_empty (PyStr.lstrip s) = all_space s.
Proof.
  induction s as [|c s IH]; cbn; [reflexivity|].
  destruct (PyStr.is_space c); [exact IH | reflexivity].
Qed.

Lemma lstrip_starts (s : string) : starts_with_space (PyStr.lstrip s) = false.
Proof.
  induction s as [|c s IH]; cbn; [reflexivity|].
  destruct (PyStr.is_space c) eqn:E; [exact IH | cbn; exact E].
Qed.

Lemma all_space_lstrip (s : string) :
  all_space (PyStr.lstrip s) = all_space s.
Proof.
  induction s as [|c s IH]; cbn; [reflexivity|].
  destruct (PyStr.is_space c) eqn:E; [exact IH | cbn; rewrite E; reflexivity].
Qed.

Lemma is_empty_rev (s : string) :
  PyStr.is_empty (PyStr.rev s) = PyStr.is_empty s.
Proof.
  destruct s as [|c s]; [reflexivity|]. unfold PyStr.rev. cbn.
  rewrite rev_acc_app. destruct (PyStr.rev_acc s EmptyString); reflexivity.
Qed.

(** A string strips to nothing exactly when it is all white space. *)
Lemma strip_empty (s : string) :
  PyStr.is_empty (PyStr.strip s) = all_space s.
Proof.
  unfold PyStr.strip.
  rewrite is_empty_rev, lstrip_empty, all_space_rev, all_space_lstrip.
  reflexivity.
Qed.

Lemma all_space_no_comma (s : string) :
  all_space s = true -> has_char "," s = false.
Proof.
  induction s as [|c s IH]; cbn; [reflexivity|].
  intros E. apply andb_true_iff in E. destruct E as [Ec Es].
  rewrite (IH Es), orb_false_r.
  destruct (Ascii.eqb_spec c ","); [subst c; discriminate Ec | reflexivity].
Qed.

Lemma split_comma_acc_no_comma (s cur : string) :
  has_char "," s = false ->
  PyStr.split_comma_acc s cur = [PyStr.rev (PyStr.rev_acc s cur)].
Proof.
  revert cur. induction s as [|c s IH]; intros cur E; cbn in *;
    [reflexivity|].
  apply orb_false_iff in E. destruct E as [Ec Es].
  rewrite Ec. apply IH, Es.
Qed.

Lemma blank_has_no_names (s : string) :
  all_space s = true -> parse_var_names s = [].
Proof.
  intros E. unfold parse_var_names, PyStr.split_comma.
  rewrite split_comma_acc_no_comma by (apply all_space_no_comma, E).
  cbn [filter]. fold (PyStr.rev s).
  rewrite strip_empty, !all_space_rev, E. reflexivity.
Qed.

Section MeasurementVarsMore.
Variable str_lower : string -> string.

(** X4.  [set_measurement_vars] fails exactly when the string holds no
    name, that is, no piece between commas other than white space; then
    the controller is left as it was.  Otherwise it registers the names on
    top of what the controller already holds.  It never changes
    [measurement_started]. *)
Theorem set_measurement_vars_outcome (var_names_str : string)
        (c : Controller) :
  let r := set_measurement_vars str_lower var_names_str c in
  (parse_var_names var_names_str = [] -> r = (false, c)) /\
  (parse_var_names var_names_str <> [] ->
   r = (true,
        mkController (measurement_started c)
          (register_vars str_lower (parse_var_names var_names_str)
             (measurement_vars c)))) /\
  measurement_started (snd r) = measurement_started c.
Proof.
  cbv zeta. unfold set_measurement_vars.
  destruct (PyStr.is_empty var_names_str
            || PyStr.is_empty (PyStr.strip var_names_str)) eqn:G.
  - assert (Hnil : parse_var_names var_names_str = []).
    { apply blank_has_no_names.
      apply orb_true_iff in G. destruct G as [G|G].
      - destruct var_names_str; [reflexivity | discriminate G].
      - rewrite <- strip_empty. exact G. }
    rewrite Hnil. repeat split. intros Hne. contradiction.
  - destruct (parse_var_names var_names_str) as [|n rest] eqn:Ep.
    + repeat split. intros Hne. contradiction.
    + repeat split. discriminate.
Qed.

End MeasurementVarsMore.

Lemma dict_get_set_same (d : list (string * string)) (k v : string) :
  dict_get (dict_set d k v) k = Some v.
Proof.
  induction d as [|[k' v'] d IH]; cbn.
  - rewrite String.eqb_refl. reflexivity.
  - destruct (String.eqb k' k) eqn:E; cbn; rewrite E; [reflexivity | exact IH].
Qed.

Lemma dict_get_set_other (d : list (string * string)) (k v k2 : string) :
  k <> k2 -> dict_get (dict_set d k v) k2 = dict_get d k2.
Proof.
  intros Hne. induction d as [|[k' v'] d IH]; cbn.
  - destruct (String.eqb_spec k k2); [contradiction | reflexivity].
  - destruct (String.eqb_spec k' k) as [->|Hk]; cbn.
    + destruct (String.eqb_spec k k2); [contradiction | reflexivity].
    + destruct (String.eqb k' k2); [reflexivity | exact IH].
Qed.

Lemma dict_set_keys (d : list (string * string)) (k v : string) :
  (In k (map fst d) /\ map fst (dict_set d k v) = map fst d)
  \/ (~ In k (map fst d)
      /\ map fst (dict_set d k v) = (map fst d ++ [k])%list).
Proof.
  induction d as [|[k' v'] d IH]; cbn.
  - right. split; [intros [] | reflexivity].
  - destruct (String.eqb_spec k' k) as [->|Hk]; cbn.
    + left. split; [left; reflexivity | reflexivity].
    + destruct IH as [[Hin E]|[Hnin E]]; rewrite E.
      * left. split; [right; exact Hin | reflexivity].
      * right. split; [|reflexivity].
        intros [Heq|Hin]; [exact (Hk Heq) | exact (Hnin Hin)].
Qed.

Lemma dict_get_in (d : list (string * string)) (k v : string) :
  dict_get d k = Some v -> In v (dict_values d).
Proof.
  induction d as [|[k' v'] d IH]; cbn; [discriminate|].
  destruct (String.eqb k' k).
  - intros [= ->]. left. reflexivity.
  - intros E. right. exact (IH E).
Qed.

Section RegisterMore.
Variable str_lower : string -> string.

Lemma last_with_key_key (names : list string) (k m : string) :
  last_with_key (var_key str_lower) names k = Some m ->
  In m names /\ var_key str_lower m = k.
Proof.
  induction names as [|n rest IH]; cbn; [discriminate|].
  destruct (last_with_key (var_key str_lower) rest k) as [m'|].
  - intros [= ->]. destruct (IH eq_refl) as [Hin Hk].
    split; [right; exact Hin | exact Hk].
  - destruct (String.eqb_spec (var_key str_lower n) k) as [E|E];
      [|discriminate].
    intros [= ->]. split; [left; reflexivity | exact E].
Qed.

Lemma last_with_key_present (names : list string) (n : string) :
  In n names ->
  exists m, last_with_key (var_key str_lower) names (var_key str_lower n)
            = Some m.
Proof.
  induction names as [|x rest IH]; intros Hin; [destruct Hin|].
  cbn. destruct Hin as [->|Hin].
  - destruct (last_with_key _ rest _) as [m|]; [exists m; reflexivity|].
    rewrite String.eqb_refl. exists n. reflexivity.
  - destruct (IH Hin) as [m ->]. exists m. reflexivity.
Qed.

(** X5.  Registering names on a dict that has one entry per key keeps it
    so.  Afterwards each key holds the last name given with that key, and
    the keys not given hold what they held; the entries present before
    stay where they were, new keys follow them; and every name given is
    represented by a registered name with the same key.  So the channels
    sampled are the distinct keys, not the names: there are at most as
    many new ones as names given. *)
Theorem registered_channels_one_per_key (var_names : list string)
        (d : list (string * string)) :
  NoDup (map fst d) ->
  let d' := register_vars str_lower var_names d in
  NoDup (map fst d') /\
  (forall k,
      dict_get d' k
      = match last_with_key (var_key str_lower) var_names k with
        | Some n => Some n
        | None => dict_get d k
        end) /\
  (exists new_keys,
      map fst d' = (map fst d ++ new_keys)%list /\
      (List.length new_keys <= List.length var_names)%nat) /\
  (forall n, In n var_names ->
             exists m, In m (dict_values d') /\ In m var_names /\
                       var_key str_lower m = var_key str_lower n).
Proof.
  intros Hnd d'.
  assert (Hget : forall names d0 k,
             dict_get (register_vars str_lower names d0) k
             = match last_with_key (var_key str_lower) names k with
               | Some n => Some n
               | None => dict_get d0 k
               end).
  { induction names as [|n rest IH]; intros d0 k; [reflexivity|].
    cbn [register_vars last_with_key]. rewrite IH.
    destruct (last_with_key (var_key str_lower) rest k); [reflexivity|].
    destruct (String.eqb_spec (var_key str_lower n) k) as [<-|Hne].
    - apply dict_get_set_same.
    - apply dict_get_set_other. exact Hne. }
  assert (Hkeys : forall names d0,
             NoDup (map fst d0) ->
             NoDup (map fst (register_vars str_lower names d0)) /\
             exists new_keys,
               map fst (register_vars str_lower names d0)
               = (map fst d0 ++ new_keys)%list /\
               (List.length new_keys <= List.length names)%nat).
  { induction names as [|n rest IH]; intros d0 Hd0.
    - split; [exact Hd0|]. exists []. rewrite app_nil_r.
      split; [reflexivity | cbn; lia].
    - cbn [register_vars].
      destruct (dict_set_keys d0 (var_key str_lower n) n)
        as [[Hin E]|[Hnin E]].
      + destruct (IH (dict_set d0 (var_key str_lower n) n)) as (N & ks & Ek & L).
        { rewrite E. exact Hd0. }
        split; [exact N|]. exists ks. rewrite Ek, E.
        split; [reflexivity | cbn; lia].
      + destruct (IH (dict_set d0 (var_key str_lower n) n)) as (N & ks & Ek & L).
        { rewrite E. apply NoDup_app; [exact Hd0 | repeat constructor; intros [] |].
          intros x Hx [<-|[]]. exact (Hnin Hx). }
        split; [exact N|]. exists (var_key str_lower n :: ks).
        rewrite Ek, E, <- app_assoc. split; [reflexivity | cbn; lia]. }
  destruct (Hkeys var_names d Hnd) as (N & P).
  split; [exact N|]. split; [intros k; apply Hget|]. split; [exact P|].
  intros n Hin.
  destruct (last_with_key_present var_names n Hin) as [m Hm].
  destruct (last_with_key_key _ _ _ Hm) as [Hmin Hmk].
  exists m. split; [|split; assumption].
  apply (dict_get_in d' (var_key str_lower n)).
  unfold d'. rewrite Hget, Hm. reflexivity.
Qed.

End RegisterMore.

(** ["a_1"] and ["A1"] have one key: one channel is registered, under the
    spelling given last, and ["B"] follows it. *)
Lemma registered_channels_one_per_key_witness :
  let d := register_vars PyStr.ascii_lower ["a_1"; "B"; "A1"] [] in
  NoDup (map fst ([] : list (string * string))) /\
  d = [("a1", "A1"); ("b", "B")] /\
  NoDup (map fst d).
Proof.
  cbv zeta.
  assert (Hnd : NoDup (map fst ([] : list (string * string))))
    by constructor.
  split; [exact Hnd|]. split; [reflexivity|].
  exact (proj1 (registered_channels_one_per_key PyStr.ascii_lower
                  ["a_1"; "B"; "A1"] [] Hnd)).
Defined.

(** ** The names parsed from the command line *)

Lemma has_char_rev_acc (c : ascii) (s acc : string) :
  has_char c (PyStr.rev_acc s acc) = has_char c s || has_char c acc.
Proof.
  revert acc. induction s as [|x s IH]; intros acc; cbn; [reflexivity|].
  rewrite IH. cbn.
  destruct (Ascii.eqb x c), (has_char c s), (has_char c acc); reflexivity.
Qed.

Lemma has_char_rev (c : ascii) (s : string) :
  has_char c (PyStr.rev s) = has_char c s.
Proof. unfold PyStr.rev. rewrite has_char_rev_acc. apply orb_false_r. Qed.

Lemma has_char_lstrip (c : ascii) (s : string) :
  has_char c s = false -> has_char c (PyStr.lstrip s) = false.
Proof.
  induction s as [|x s IH]; cbn; [reflexivity|].
  intros E. apply orb_false_iff in E. destruct E as [Ex Es].
  destruct (PyStr.is_space x); [exact (IH Es)|].
  cbn. rewrite Ex, Es. reflexivity.
Qed.

Lemma has_char_strip (c : ascii) (s : string) :
  has_char c s = false -> has_char c (PyStr.strip s) = false.
Proof.
  intros E. unfold PyStr.strip.
  rewrite has_char_rev. apply has_char_lstrip.
  rewrite has_char_rev. apply has_char_lstrip. exact E.
Qed.

Lemma split_comma_acc_pieces (s cur : string) :
  has_char "," cur = false ->
  Forall (fun p => has_char "," p = false) (PyStr.split_comma_acc s cur).
Proof.
  revert cur. induction s as [|c s IH]; intros cur E; cbn.
  - constructor; [rewrite has_char_rev; exact E | constructor].
  - destruct (Ascii.eqb c ",") eqn:Ec.
    + constructor; [rewrite has_char_rev; exact E|].
      apply IH. reflexivity.
    + apply IH. cbn. rewrite Ec, E. reflexivity.
Qed.

(** The last character of what [lstrip] leaves is the last character of
    the string. *)
Lemma lstrip_keeps_end (s : string) :
  PyStr.is_empty (PyStr.lstrip s) = false ->
  ends_with_space (PyStr.lstrip s) = ends_with_space s.
Proof.
  unfold ends_with_space, PyStr.rev.
  induction s as [|c s IH]; cbn; [reflexivity|].
  destruct (PyStr.is_space c) eqn:E; [|reflexivity].
  intros Hne. rewrite (IH Hne).
  rewrite (rev_acc_app s (String c EmptyString)).
  assert (Hs : PyStr.is_empty s = false).
  { destruct s; [discriminate Hne | reflexivity]. }
  assert (Hr : PyStr.is_empty (PyStr.rev_acc s EmptyString) = false).
  { fold (PyStr.rev s). rewrite is_empty_rev. exact Hs. }
  destruct (PyStr.rev_acc s EmptyString); [discriminate Hr | reflexivity].
Qed.

(** What [strip] returns neither starts nor ends with white space. *)
Lemma strip_is_stripped (s : string) :
  starts_with_space (PyStr.strip s) = false /\
  ends_with_space (PyStr.strip s) = false.
Proof.
  unfold PyStr.strip.
  set (x := PyStr.lstrip s). set (y := PyStr.lstrip (PyStr.rev x)).
  split.
  - (* the first character of the result is the last one of [y] *)
    change (ends_with_space y = false).
    destruct (PyStr.is_empty y) eqn:Ey.
    + destruct y; [reflexivity | discriminate Ey].
    + unfold y. rewrite lstrip_keeps_end by exact Ey.
      unfold ends_with_space. rewrite rev_involutive.
      apply lstrip_starts.
  - unfold ends_with_space. rewrite rev_involutive. apply lstrip_starts.
Qed.

(** X6.  Every name that [set_measurement_vars] takes from its argument
    is non-empty, contains no comma, and neither starts nor ends with
    white space. *)
Theorem parsed_names_are_clean (var_names_str : string) :
  Forall (fun n =>
            PyStr.is_empty n = false /\
            has_char "," n = false /\
            starts_with_space n = false /\
            ends_with_space n = false)
         (parse_var_names var_names_str).
Proof.
  unfold parse_var_names, PyStr.split_comma.
  pose proof (split_comma_acc_pieces var_names_str EmptyString eq_refl) as P.
  induction P as [|p ps Hp _ IH]; cbn [filter map]; [constructor|].
  destruct (PyStr.is_empty (PyStr.strip p)) eqn:E; cbn [negb map].
  - exact IH.
  - constructor; [|exact IH].
    split; [exact E|]. split; [apply has_char_strip, Hp|].
    apply strip_is_stripped.
Qed.

(** ** start_measurement and stop_measurement *)

Section StartStop.
Context {H : Type} `{Host H}.

(** What [start_measurement] does, by the answers of the COM server. *)
Lemma start_measurement_run (c : Controller) (h : H) :
  let (r, h1) := com_call StartMeasurement h in
  match r with
  | Raised =>
      start_measurement c h
      = mkRun (Ok (false, c)) h1 [EvCom StartMeasurement Raised]
  | Returned v =>
      let msg := WriteToMonitor "측정이 시작되었습니다." in
      let (r2, h2) := com_call msg h1 in
      start_measurement c h
      = mkRun (Ok (match r2 with Returned _ => true | Raised => false end,
                   mkController true (measurement_vars c)))
              h2 [EvCom StartMeasurement (Returned v); EvCom msg r2]
  end.
Proof.
  unfold start_measurement, bind, try_except, com, ret.
  destruct (com_call StartMeasurement h) as [r h1] eqn:E1.
  destruct r as [v|]; cbn.
  - destruct (com_call (WriteToMonitor _) h1) as [r2 h2] eqn:E2.
    destruct r2; reflexivity.
  - reflexivity.
Qed.

Lemma stop_measurement_outcome (c : Controller) (h : H) :
  exists (b : bool) (c' : Controller),
    res (stop_measurement c h) = Ok (b, c') /\
    measurement_vars c' = measurement_vars c /\
    ((exists v, In (EvCom StopMeasurement (Returned v))
                   (trace (stop_measurement c h))) ->
     measurement_started c' = false).
Proof.
  destruct (measurement_started c) eqn:Hs.
  - pose proof (stop_started c h Hs) as P.
    destruct (com_call StopMeasurement h) as [[v|] h1].
    + cbv zeta in P. destruct (com_call (WriteToMonitor _) h1) as [r2 h2].
      rewrite P. eexists _, _. repeat split.
    + rewrite P. exists false, c. repeat split.
      intros [v [Hin|[]]]. discriminate Hin.
  - rewrite (stop_not_started c h Hs). exists true, c. repeat split.
    intros _. exact Hs.
Qed.

(** X7.  [start_measurement] never raises.  It sets
    [measurement_started] as soon as [StartMeasurement()] has returned,
    also when it then answers [False] because [WriteToMonitor] raised; it
    leaves the flag alone when [StartMeasurement()] raised.  A
    [stop_measurement] right after it, whose [StopMeasurement()] returns,
    clears the flag again.  Neither touches the measurement variables. *)
Theorem start_then_stop (c : Controller) (h : H) :
  exists (b1 : bool) (c1 : Controller) (b2 : bool) (c2 : Controller),
    let r1 := start_measurement c h in
    let r2 := stop_measurement c1 (final r1) in
    res r1 = Ok (b1, c1) /\
    res r2 = Ok (b2, c2) /\
    measurement_vars c2 = measurement_vars c /\
    (b1 = true -> measurement_started c1 = true) /\
    ((exists v, In (EvCom StartMeasurement (Returned v)) (trace r1)) ->
     measurement_started c1 = true) /\
    (In (EvCom StartMeasurement Raised) (trace r1) ->
     b1 = false /\ c1 = c) /\
    ((exists v, In (EvCom StopMeasurement (Returned v)) (trace r2)) ->
     measurement_started c2 = false) /\
    (measurement_started c1 = false -> trace r2 = []).
Proof.
  pose proof (start_measurement_run c h) as P.
  destruct (com_call StartMeasurement h) as [[v|] h1].
  - cbv zeta in P.
    destruct (com_call (WriteToMonitor _) h1) as [r2 h2].
    set (c1 := mkController true (measurement_vars c)).
    destruct (stop_measurement_outcome c1 h2)
      as (b2 & c2 & Hres2 & Hvars & Hflag).
    eexists _, c1, b2, c2. cbv zeta. rewrite P. cbn [res final trace].
    split; [reflexivity|]. split; [exact Hres2|].
    split; [exact Hvars|]. split; [reflexivity|]. split; [reflexivity|].
    split.
    { intros [Hin|[Hin|[]]]; [discriminate Hin|].
      destruct r2; discriminate Hin. }
    split; [exact Hflag|]. discriminate.
  - destruct (stop_measurement_outcome c h1)
      as (b2 & c2 & Hres2 & Hvars & Hflag).
    exists false, c, b2, c2. cbv zeta. rewrite P. cbn [res final trace].
    split; [reflexivity|]. split; [exact Hres2|].
    split; [exact Hvars|]. split; [discriminate|].
    split; [intros [v [Hin|[]]]; discriminate Hin|].
    split; [intros _; split; reflexivity|].
    split; [exact Hflag|].
    intros Hs. rewrite (stop_not_started c h1 Hs). reflexivity.
Qed.

End StartStop.

(** ** The verification, in full *)

Section VerifyMore.
Context {H : Type} `{Host H}.

(** A read is one attempt without sleeps or writes; when its value passes
    the test, the passing read-back is the last event of its trace. *)
Lemma read_calibration_shape var_name t (h : H) :
  exists v h1 tr,
    _read_calibration var_name h = mkRun (Ok v) h1 tr /\
    existsb (passes t) tr
    = match v with
      | Some x => PyFloat.within_tolerance x t
      | None => false
      end /\
    count is_read_attempt tr = 1%nat /\
    filter is_sleep tr = [] /\
    count is_write tr = O /\
    (forall new_value : float,
        Forall (about_parameter var_name new_value) tr) /\
    (existsb (passes t) tr = true ->
     exists tr0 x,
       tr = (tr0 ++ [EvCom (CalibGetDoublePhysValue var_name)
                       (Returned (Some x))])%list /\
       PyFloat.within_tolerance x t = true /\
       existsb (passes t) tr0 = false).
Proof.
  destruct (read_calibration_cases var_name h)
    as [[h1 E]|[(o & h1 & E)|(o & v & h1 & E)]];
    rewrite E; eexists _, _, _; (split; [reflexivity|]).
  - repeat split; try discriminate.
    intros nv. repeat constructor.
  - repeat split; try discriminate.
    intros nv. repeat constructor.
  - split.
    { cbn [existsb passes orb]. destruct v; rewrite ?orb_false_r; reflexivity. }
    split; [reflexivity|]. split; [reflexivity|]. split; [reflexivity|].
    split; [intros nv; repeat constructor|].
    cbn [existsb passes orb]. destruct v as [x|]; [|discriminate].
    rewrite orb_false_r. intros Hp.
    exists [EvCom (GetCalibrationValueInDevice var_name) (Returned o)], x.
    repeat split. exact Hp.
Qed.

Lemma verify_loop_shape var_name t (retries : list Z) :
  forall (verify_val : option float) (h : H),
    pauses_between retries = true ->
    let r := verify_loop var_name t retries verify_val h in
    filter is_sleep (trace r)
    = repeat (EvSleep 0.5) (count is_read_attempt (trace r) - 1) /\
    (retries <> [] -> (1 <= count is_read_attempt (trace r))%nat) /\
    count is_write (trace r) = O /\
    (forall new_value : float,
        Forall (about_parameter var_name new_value) (trace r)) /\
    (res r = Ok true ->
     exists tr0 x,
       trace r = (tr0 ++ [EvCom (CalibGetDoublePhysValue var_name)
                            (Returned (Some x))])%list /\
       PyFloat.within_tolerance x t = true /\
       existsb (passes t) tr0 = false).
Proof.
  induction retries as [|retry rest IH]; intros verify_val h Hp; cbv zeta.
  - cbn [verify_loop]. destruct verify_val; cbn;
      repeat split; try constructor; try discriminate;
      intros E; contradiction.
  - cbn [verify_loop].
    destruct (read_calibration_shape var_name t h)
      as (v & h1 & tr & E & Hpass & Hc & Hs & Hw & Hab & Hlast).
    rewrite (bind_ok _ _ h _ _ _ E). rewrite <- Hpass.
    destruct (existsb (passes t) tr) eqn:Ep.
    + cbn [res final trace ret]. rewrite app_nil_r, Hs, Hc, Hw.
      split; [reflexivity|]. split; [lia|]. split; [reflexivity|].
      split; [intros nv; apply (Hab nv)|].
      intros _. exact (Hlast eq_refl).
    + assert (Hrest : pauses_between rest = true /\
                      ((retry <? 2) = true /\ rest <> []
                       \/ (retry <? 2) = false /\ rest = [])).
      { cbn [pauses_between] in Hp. destruct rest as [|x rest'].
        - split; [reflexivity|]. right.
          split; [apply negb_true_iff, Hp | reflexivity].
        - apply andb_true_iff in Hp. destruct Hp as [Hlt Hr].
          split; [exact Hr|]. left. split; [exact Hlt | discriminate]. }
      destruct Hrest as [Hpr Hcase].
      specialize (IH v).
      destruct Hcase as [[Hlt Hne]|[Hge ->]].
      * rewrite Hlt.
        rewrite (bind_ok _ _ h1 _ _ _ (sleep_run 0.5 h1 eq_refl)).
        cbn [res final trace].
        specialize (IH (host_sleep 0.5 h1) Hpr). cbv zeta in IH.
        destruct IH as (IHs & IHc & IHw & IHab & IHlast).
        specialize (IHc Hne).
        rewrite !filter_app, !count_app, Hs, Hc, Hw, IHs. cbn [filter is_sleep app].
        split.
        { replace (1 + (0 + count is_read_attempt
                         (trace (verify_loop var_name t rest v
                                   (host_sleep 0.5 h1)))) - 1)%nat
            with (S (count is_read_attempt
                       (trace (verify_loop var_name t rest v
                                 (host_sleep 0.5 h1))) - 1)) by lia.
          reflexivity. }
        split; [intros _; lia|].
        split.
        { rewrite IHw. reflexivity. }
        split.
        { intros nv. apply Forall_app. split; [apply (Hab nv)|].
          constructor; [exact I | apply IHab]. }
        intros Hres. destruct (IHlast Hres) as (tr0 & x & Et & Hx & Hn).
        exists (tr ++ EvSleep 0.5 :: tr0)%list, x.
        rewrite Et, <- app_assoc. split; [reflexivity|].
        split; [exact Hx|].
        rewrite existsb_app, Ep. cbn. exact Hn.
      * rewrite Hge. cbn [verify_loop].
        erewrite (bind_ok _ _ h1 tt h1 []); [|reflexivity].
        cbn [res final trace app].
        rewrite !filter_app, !count_app, Hs, Hc, Hw.
        destruct v as [x|]; cbn [format_2f bind ret raise res final trace
                                   filter count app List.length Nat.add Nat.sub];
          rewrite ?app_nil_r.
        -- split; [reflexivity|]. split; [intros _; cbn; lia|].
           split; [reflexivity|].
           split; [intros nv; apply (Hab nv)|]. discriminate.
        -- split; [reflexivity|]. split; [intros _; cbn; lia|].
           split; [reflexivity|].
           split; [intros nv; apply (Hab nv)|]. discriminate.
Qed.

End VerifyMore.

Section EngineMore.
Context {H : Type} `{Host H}.

(** X8.  [_verify_calibration] in full.  It answers [True] exactly when a
    read-back within the tolerance occurs, and then that read-back is the
    last thing it did: it stops at the first one.  It makes between one and
    three read attempts.  It sleeps 0.3 s before the first and 0.5 s
    between two attempts, never after the last.  When no read-back passes
    it has made all three attempts and answers [False] if the last one
    gave a number; if the last one failed, formatting the warning raises
    [TypeError]. *)
Theorem verification_outcome var_name t (h : H) :
  let r := _verify_calibration var_name t h in
  (res r = Ok true <-> existsb (passes t) (trace r) = true) /\
  (1 <= count is_read_attempt (trace r) <= 3)%nat /\
  filter is_sleep (trace r)
  = EvSleep 0.3
    :: repeat (EvSleep 0.5) (count is_read_attempt (trace r) - 1) /\
  (res r = Ok true ->
   exists tr0 x,
     trace r = (tr0 ++ [EvCom (CalibGetDoublePhysValue var_name)
                          (Returned (Some x))])%list /\
     PyFloat.within_tolerance x t = true /\
     existsb (passes t) tr0 = false) /\
  (existsb (passes t) (trace r) = false ->
   count is_read_attempt (trace r) = 3%nat /\
   res r = match last_value_read None (trace r) with
           | Some _ => Ok false
           | None => Exc TypeError
           end).
Proof.
  cbv zeta.
  destruct (verify_calibration_run var_name t h) as (V1 & V2 & V3).
  split; [exact V1|].
  destruct (verify_loop_shape var_name t (range 0 3) None
              (host_sleep 0.3 h) eq_refl) as (S1 & S2 & _ & _ & S5).
  assert (Hne : range 0 3 <> []) by discriminate.
  specialize (S2 Hne).
  assert (E : _verify_calibration var_name t h
              = mkRun (res (verify_loop var_name t (range 0 3) None
                              (host_sleep 0.3 h)))
                      (final (verify_loop var_name t (range 0 3) None
                                (host_sleep 0.3 h)))
                      (EvSleep 0.3
                       :: trace (verify_loop var_name t (range 0 3) None
                                   (host_sleep 0.3 h)))).
  { unfold _verify_calibration.
    rewrite (bind_ok _ _ h _ _ _ (sleep_run 0.3 h eq_refl)). reflexivity. }
  rewrite E in *. cbn [res trace] in *.
  assert (Hcount : forall tr, count is_read_attempt (EvSleep 0.3 :: tr)
                              = count is_read_attempt tr) by reflexivity.
  rewrite Hcount in *.
  split; [lia|]. split.
  { cbn [filter is_sleep]. rewrite S1. reflexivity. }
  split.
  { intros Hres. destruct (S5 Hres) as (tr0 & x & Et & Hx & Hn).
    exists (EvSleep 0.3 :: tr0), x. rewrite Et.
    split; [reflexivity|]. split; [exact Hx | exact Hn]. }
  exact V3.
Qed.

Lemma sync_loop_events (methods : list (string * ComCall)) :
  forall h : H,
    Forall (fun e => exists c r, e = EvCom c r /\ In c (map snd methods))
           (trace (sync_loop methods h)).
Proof.
  induction methods as [|[name c] rest IH]; intros h; [constructor|].
  cbn [sync_loop].
  destruct (com_call c h) as [[v|] h1] eqn:E.
  - rewrite (try_ok _ _ h true h1 [EvCom c (Returned v)]).
    + constructor; [|constructor]. exists c, (Returned v).
      split; [reflexivity | left; reflexivity].
    + rewrite (bind_ok _ _ h v h1 _ (com_returned _ _ _ _ E)). reflexivity.
  - rewrite (try_exc _ _ h ComError h1 [EvCom c Raised]).
    + cbn [trace]. constructor.
      * exists c, Raised. split; [reflexivity | left; reflexivity].
      * eapply Forall_impl; [|apply IH].
        intros e (c' & r & -> & Hin). exists c', r.
        split; [reflexivity | right; exact Hin].
    + exact (bind_exc _ _ h _ h1 _ (com_raised _ _ _ E)).
Qed.

Lemma sync_memory_about var_name new_value (h : H) :
  Forall (about_parameter var_name new_value) (trace (_sync_memory h)) /\
  count is_write (trace (_sync_memory h)) = O.
Proof.
  pose proof (sync_loop_events sync_methods h) as F.
  fold (_sync_memory h) in F.
  induction F as [|e tr He _ IH]; [split; constructor|].
  destruct IH as [IH1 IH2].
  destruct He as (c & r & -> & Hin).
  cbn in Hin. destruct Hin as [<-|[<-|[<-|[]]]];
    (split; [constructor; [exact I | exact IH1] | exact IH2]).
Qed.

(** The write: at most one [SetDoublePhysValue], of the target to the
    parameter; it reports success only if that call returned. *)
Lemma write_calibration_about var_name new_value (h : H) :
  let r := _write_calibration var_name new_value h in
  Forall (about_parameter var_name new_value) (trace r) /\
  (count is_write (trace r) <= 1)%nat /\
  (res r = Ok true ->
   exists o, In (EvCom (SetDoublePhysValue var_name new_value) (Returned o))
                (trace r)).
Proof.
  cbv zeta.
  destruct (com_call (GetCalibrationValueInDevice var_name) h)
    as [[o1|] h1] eqn:E1.
  - destruct (com_call (SetDoublePhysValue var_name new_value) h1)
      as [[o2|] h2] eqn:E2.
    + rewrite (write_calibration_done _ _ _ _ _ _ _ E1 E2).
      cbn [res trace].
      destruct (sync_memory_about var_name new_value (host_sleep 0.1 h2))
        as [F C].
      split; [|split].
      * repeat (constructor; [cbn; auto|]). exact F.
      * rewrite count_app, C. cbn. lia.
      * intros _. exists o2. right. left. reflexivity.
    + destruct (write_calibration_total var_name new_value h) as [b Hb].
      destruct b.
      * exfalso. revert Hb. unfold _write_calibration.
        erewrite try_exc.
        2:{ rewrite (bind_ok _ _ h _ _ _ (com_returned _ _ _ _ E1)).
            rewrite (bind_exc _ _ h1 _ _ _ (com_raised _ _ _ E2)).
            reflexivity. }
        discriminate.
      * destruct (write_calibration_failed var_name new_value h Hb)
          as [Ht|[v Ht]]; rewrite Ht, Hb.
        -- split; [repeat constructor|]. split; [cbn; lia | discriminate].
        -- split; [repeat constructor|]. split; [cbn; lia | discriminate].
  - destruct (write_calibration_total var_name new_value h) as [b Hb].
    destruct b.
    + exfalso. revert Hb. unfold _write_calibration.
      erewrite try_exc.
      2:{ exact (bind_exc _ _ h _ _ _ (com_raised _ _ _ E1)). }
      discriminate.
    + destruct (write_calibration_failed var_name new_value h Hb)
        as [Ht|[v Ht]]; rewrite Ht, Hb.
      * split; [repeat constructor|]. split; [cbn; lia | discriminate].
      * split; [repeat constructor|]. split; [cbn; lia | discriminate].
Qed.


End EngineMore.

Section BatchMore.
Context {H : Type} `{Host H}.

Lemma apply_single_result var_name new_value (h : H) :
  let r := _apply_single var_name new_value h in
  (exists b, res r = Ok b) \/ res r = Exc TypeError.
Proof.
  cbv zeta.
  destruct (apply_single_run var_name new_value h) as [Rf Rt].
  cbv zeta in Rf, Rt.
  set (rd := _read_calibration var_name h) in *.
  destruct (write_calibration_total var_name new_value (final rd)) as [b Hb].
  destruct b.
  - rewrite (Rt Hb). cbn [res].
    set (vf := _verify_calibration var_name new_value _).
    destruct (verify_calibration_run var_name new_value
                (final (_write_calibration var_name new_value (final rd))))
      as (V1 & _ & V3).
    fold vf in V1, V3.
    destruct (existsb (passes new_value) (trace vf)) eqn:Ep.
    + left. exists true. apply V1. reflexivity.
    + destruct (V3 eq_refl) as [_ Hres]. rewrite Hres.
      destruct (last_value_read None (trace vf));
        [left; exists false | right]; reflexivity.
  - rewrite (Rf Hb). left. exists false. reflexivity.
Qed.

Lemma apply_single_starts_with_read var_name new_value (h : H) :
  exists resp tr,
    trace (_apply_single var_name new_value h)
    = EvCom (GetCalibrationValueInDevice var_name) resp :: tr.
Proof.
  unfold _apply_single, bind.
  destruct (read_calibration_cases var_name h)
    as [[? E]|[(? & ? & E)|(? & ? & ? & E)]]; rewrite E; cbn [res final trace];
    match goal with
    | |- context [res ?w] => destruct (res w) as [[|]|]
    end; cbn [res final trace negb app]; eexists _, _; reflexivity.
Qed.

Lemma apply_loop_outcome (items : list (string * float)) :
  forall (success_count fail_count : Z) (h : H),
    let r := apply_loop items success_count fail_count h in
    res r = Exc TypeError
    \/ exists s f,
        res r = Ok (s, f) /\
        success_count <= s /\ fail_count <= f /\
        s + f = success_count + fail_count + Z.of_nat (List.length items) /\
        forall name v,
          In (name, v) items ->
          exists resp,
            In (EvCom (GetCalibrationValueInDevice name) resp) (trace r).
Proof.
  induction items as [|[var_name new_value] rest IH]; intros sc fc h;
    cbv zeta.
  - right. exists sc, fc. cbn. repeat split; try lia; intros ? ? [].
  - cbn [apply_loop].
    destruct (apply_single_starts_with_read var_name new_value h)
      as (resp & tr & Et).
    destruct (apply_single_result var_name new_value h) as [[b Hb]|Hx].
    + rewrite (bind_res_ok _ _ h b Hb). cbn [res trace].
      set (h1 := final (_apply_single var_name new_value h)).
      assert (Hstep : forall sc' fc',
                 sc' + fc' = sc + fc + 1 -> sc <= sc' -> fc <= fc' ->
                 let r := apply_loop rest sc' fc' h1 in
                 res r = Exc TypeError
                 \/ exists s f,
                     res r = Ok (s, f) /\ sc <= s /\ fc <= f /\
                     s + f = sc + fc
                             + Z.of_nat (List.length
                                           ((var_name, new_value) :: rest)) /\
                     forall name v,
                       In (name, v) ((var_name, new_value) :: rest) ->
                       exists resp0,
                         In (EvCom (GetCalibrationValueInDevice name) resp0)
                            (trace (_apply_single var_name new_value h)
                             ++ trace r)).
      { intros sc' fc' Hsum Hs Hf. cbv zeta.
        destruct (IH sc' fc' h1) as [Hx|(s & f & Hr & Hs' & Hf' & Hsum' & Hin)];
          [left; exact Hx|].
        right. exists s, f. split; [exact Hr|].
        split; [lia|]. split; [lia|].
        split; [cbn [List.length]; lia|].
        intros name v [Heq|Hin'].
        - injection Heq as <- <-. exists resp. apply in_or_app. left.
          rewrite Et. left. reflexivity.
        - destruct (Hin name v Hin') as [resp0 Hr0].
          exists resp0. apply in_or_app. right. exact Hr0. }
      destruct b; apply Hstep; lia.
    + left. rewrite (bind_res_exc _ _ h _ Hx). reflexivity.
Qed.

(** X10.  [apply_all] either returns or raises the [TypeError] of the
    unverified-parameter warning; no COM error leaves it.  When it
    returns, both counts are non-negative, they add up to the number of
    entries, and every entry has been processed: the diagnostic read of
    each parameter is in the trace, whatever happened to the ones before
    it.  An empty mapping gives (0, 0) without any call. *)
Theorem batch_outcome (calib_dict : list (string * float)) (h : H) :
  let r := apply_all calib_dict h in
  (res r = Exc TypeError
   \/ exists s f,
       res r = Ok (s, f) /\ 0 <= s /\ 0 <= f /\
       s + f = Z.of_nat (List.length calib_dict) /\
       forall name v,
         In (name, v) calib_dict ->
         exists resp,
           In (EvCom (GetCalibrationValueInDevice name) resp) (trace r)) /\
  (calib_dict = [] -> r = mkRun (Ok (0, 0)) h []).
Proof.
  cbv zeta. split.
  - destruct (apply_loop_outcome calib_dict 0 0 h)
      as [Hx|(s & f & Hr & Hs & Hf & Hsum & Hin)];
      [left; exact Hx|].
    right. exists s, f. repeat split; try assumption; lia.
  - intros ->. reflexivity.
Qed.

End BatchMore.

(** ** The collector, in full *)

Section CollectorMore.
Context {H : Type} `{Host H}.

Lemma read_measurement_reads var_name (h : H) :
  Forall (measure_read [var_name]) (trace (_read_measurement var_name h)).
Proof.
  assert (Hin : In var_name [var_name]) by (left; reflexivity).
  unfold _read_measurement.
  destruct (com_call (GetMeasurementValueInDevice var_name) h)
    as [[o|] h1] eqn:E1.
  - destruct (com_call (MeasGetDoublePhysValue var_name) h1)
      as [[v|] h2] eqn:E2.
    + erewrite try_ok.
      2:{ rewrite (bind_ok _ _ h _ _ _ (com_returned _ _ _ _ E1)).
          rewrite (com_returned _ _ _ _ E2). reflexivity. }
      cbn [trace app].
      repeat constructor; eexists _, _; (split; [exact Hin|]);
        [left | right]; reflexivity.
    + erewrite try_exc.
      2:{ rewrite (bind_ok _ _ h _ _ _ (com_returned _ _ _ _ E1)).
          rewrite (com_raised _ _ _ E2). reflexivity. }
      cbn [trace app ret].
      repeat constructor; eexists _, _; (split; [exact Hin|]);
        [left | right]; reflexivity.
  - erewrite try_exc.
    2:{ exact (bind_exc _ _ h _ _ _ (com_raised _ _ _ E1)). }
    cbn [trace app ret].
    repeat constructor; eexists _, _; (split; [exact Hin|]);
      left; reflexivity.
Qed.

Lemma measure_read_weaken (l1 l2 : list string) (e : Event) :
  (forall n, In n l1 -> In n l2) -> measure_read l1 e -> measure_read l2 e.
Proof.
  intros Hsub (n & r & Hin & He). exists n, r. split; [apply Hsub, Hin | exact He].
Qed.

(** The reads of [read_loop] and of [check_loop] are the same: those of
    the channels, one after the other. *)
Lemma read_loop_trace (var_names_list : list string) :
  forall (values : list Cell) (display_values : list string) (k : Z) (h : H),
    let r := read_loop var_names_list values display_values h in
    let c := check_loop var_names_list k h in
    trace c = trace r /\ final c = final r /\
    res c = Ok (k + readable (read_each var_names_list h)) /\
    Forall (measure_read var_names_list) (trace r).
Proof.
  induction var_names_list as [|var_name rest IH];
    intros values dv k h; cbv zeta.
  - cbn. unfold readable. cbn. rewrite Z.add_0_r. repeat split. constructor.
  - cbn [read_loop check_loop read_each].
    destruct (read_measurement_run var_name h) as (h1 & tr & E & _).
    pose proof (read_measurement_reads var_name h) as Hr.
    rewrite E in Hr. cbn [trace] in Hr.
    rewrite !(bind_ok _ _ h _ _ _ E). rewrite E. cbn [final].
    assert (Hsub : forall l, Forall (measure_read rest) l ->
                             Forall (measure_read (var_name :: rest)) l).
    { intros l F. eapply Forall_impl; [|exact F].
      intros e. apply measure_read_weaken. intros n Hn. right. exact Hn. }
    assert (Hhead : Forall (measure_read (var_name :: rest)) tr).
    { eapply Forall_impl; [|exact Hr].
      intros e. apply measure_read_weaken.
      intros n [<-|[]]. left. reflexivity. }
    destruct (measured var_name h) as [v|].
    + destruct (IH (values ++ [CFloat v])%list
                   (dv ++ [PyStr.rjust 15 (PyFloat.format_f 2 v)])%list
                   (k + 1) h1) as (It & If & Ir & IF).
      cbn [res final trace]. rewrite It, If, Ir.
      split; [reflexivity|]. split; [reflexivity|]. split.
      * f_equal. unfold readable. cbn [filter List.length].
        rewrite Nat2Z.inj_succ. lia.
      * apply Forall_app. split; [exact Hhead | apply Hsub, IF].
    + destruct (IH (values ++ [CStr "N/A"])%list
                   (dv ++ [PyStr.rjust 15 "N/A"])%list k h1)
        as (It & If & Ir & IF).
      cbn [res final trace]. rewrite It, If, Ir.
      split; [reflexivity|]. split; [reflexivity|]. split.
      * reflexivity.
      * apply Forall_app. split; [exact Hhead | apply Hsub, IF].
Qed.

(** X11.  [_check_connections] makes exactly the reads of one sampling
    pass, in the same order and with the same effect on the host, and
    returns how many of the channels could be read: a number between 0 and
    the number of channels.  It never raises. *)
Theorem connection_check_counts_readable_channels
        (var_names_list : list string) (h : H) :
  let c := _check_connections var_names_list h in
  let r := _read_all_measurements var_names_list h in
  res c = Ok (readable (read_each var_names_list h)) /\
  0 <= readable (read_each var_names_list h)
    <= Z.of_nat (List.length var_names_list) /\
  trace c = trace r /\
  final c = final r /\
  Forall (measure_read var_names_list) (trace c).
Proof.
  cbv zeta.
  destruct (read_loop_trace var_names_list [] [] 0 h) as (Et & Ef & Er & F).
  cbv zeta in *.
  fold (_check_connections var_names_list h) in Et, Ef, Er.
  fold (_read_all_measurements var_names_list h) in Et, Ef, F.
  split; [rewrite Er; reflexivity|]. split.
  - unfold readable. rewrite <- (read_each_length var_names_list h).
    pose proof (filter_length_le
                  (fun v : option float =>
                     match v with Some _ => true | None => false end)
                  (read_each var_names_list h)). lia.
  - split; [exact Et|]. split; [exact Ef|]. rewrite Et. exact F.
Qed.

End CollectorMore.

(** ** The sampling loop, event by event *)

Lemma printed_lines_app tr1 tr2 :
  printed_lines (tr1 ++ tr2) = (printed_lines tr1 ++ printed_lines tr2)%list.
Proof.
  induction tr1 as [|e tr1 IH]; [reflexivity|].
  destruct e; cbn [app printed_lines]; rewrite IH; reflexivity.
Qed.

Lemma measure_read_is_com names e : measure_read names e -> is_com e = true.
Proof. intros (n & r & _ & [-> | ->]); reflexivity. Qed.

Lemma measure_read_sampling names csv interval e :
  measure_read names e -> sampling_event names csv interval e.
Proof.
  intros Hm. pose proof (measure_read_is_com _ _ Hm) as Hc.
  destruct e; try discriminate. exact Hm.
Qed.

(** Reads of channels show in none of the observations on the sink, the
    console or the clock. *)
Lemma reads_are_silent names tr :
  Forall (measure_read names) tr ->
  printed_lines tr = [] /\ attempted_rows tr = [] /\
  count is_sleep tr = O /\ count is_close tr = O /\
  count is_stop_call tr = O.
Proof.
  induction 1 as [|e tr He _ IH]; [repeat split|].
  destruct IH as (I1 & I2 & I3 & I4 & I5).
  destruct He as (n & r & _ & [-> | ->]); cbn in *; repeat split; assumption.
Qed.

Section SamplingEvents.
Context {H : Type} `{Host H}.

(** One pass, with its reads and its console line. *)
Lemma sample_tick_events csv_file var_names_list interval i (h : H) :
  exists dt hk trr ok h2,
    let row := tick_row var_names_list interval i dt hk in
    let line := tick_line var_names_list interval i hk in
    let pre := (EvNow dt :: trr ++ [EvWriteRow csv_file row ok])%list in
    Forall (measure_read var_names_list) trr /\
    sample_tick csv_file var_names_list interval i h
    = if ok then
        match sleep_error interval with
        | None => mkRun (Ok tt) (host_sleep interval h2)
                        (pre ++ [EvPrint line; EvSleep interval])
        | Some x => mkRun (Exc x) h2 (pre ++ [EvPrint line])
        end
      else mkRun (Exc OSError) h2 pre.
Proof.
  unfold sample_tick.
  destruct (datetime_now h) as [dt hk] eqn:En.
  destruct (read_all_measurements_run var_names_list hk)
    as (h1 & tr & Er & _).
  destruct (read_loop_trace var_names_list [] [] 0 hk) as (_ & _ & _ & F).
  fold (_read_all_measurements var_names_list hk) in F.
  rewrite Er in F. cbn [trace] in F.
  destruct (file_writerow csv_file
              (tick_row var_names_list interval i dt hk) h1)
    as [ok h2] eqn:Ew.
  exists dt, hk, tr, ok, h2. cbv zeta. split; [exact F|].
  assert (Enow : now h = mkRun (Ok dt) hk [EvNow dt]).
  { unfold now. rewrite En. reflexivity. }
  rewrite (bind_ok _ _ h _ _ _ Enow).
  rewrite (bind_ok _ _ hk _ _ _ Er). cbn [fst snd].
  fold (tick_row var_names_list interval i dt hk).
  fold (tick_line var_names_list interval i hk).
  assert (Ewr : writerow csv_file (tick_row var_names_list interval i dt hk) h1
                = mkRun (if ok then Ok tt else Exc OSError) h2
                    [EvWriteRow csv_file
                       (tick_row var_names_list interval i dt hk) ok]).
  { unfold writerow. rewrite Ew. reflexivity. }
  destruct ok.
  - rewrite (bind_ok _ _ h1 _ _ _ Ewr).
    unfold print at 1.
    erewrite (bind_ok _ _ h2 tt h2); [|reflexivity].
    unfold sleep. destruct (sleep_error interval);
      cbn [res final trace app]; rewrite <- ?app_assoc; reflexivity.
  - rewrite (bind_exc _ _ h1 _ _ _ Ewr).
    cbn [res final trace app]. reflexivity.
Qed.

(** The loop, event by event. *)
Lemma sample_loop_events csv_file var_names_list interval (n : nat) :
  forall (i : Z) (h : H),
    let r := sample_loop csv_file var_names_list interval n i h in
    let lines := printed_lines (trace r) in
    let rows := attempted_rows (trace r) in
    Forall (sampling_event var_names_list csv_file interval) (trace r) /\
    count is_close (trace r) = O /\
    count is_stop_call (trace r) = O /\
    (forall k line,
        nth_error lines k = Some line ->
        exists dt hk,
          line = tick_line var_names_list interval (i + Z.of_nat k) hk /\
          nth_error rows k
          = Some (tick_row var_names_list interval (i + Z.of_nat k) dt hk)) /\
    (List.length lines <= List.length rows <= S (List.length lines))%nat /\
    (List.length rows <= n)%nat /\
    (res r = Ok tt ->
     List.length lines = n /\ List.length rows = n) /\
    (sleep_error interval = None ->
     res r = Ok tt \/ res r = Exc OSError) /\
    (forall x,
        sleep_error interval = Some x ->
        count is_sleep (trace r) = O /\
        List.length rows = Nat.min n 1 /\
        ((0 < n)%nat -> res r = Exc x \/ res r = Exc OSError)).
Proof.
  induction n as [|n IH]; intros i h; cbv zeta.
  - cbn. split; [constructor|]. split; [reflexivity|].
    split; [reflexivity|]. split.
    { intros [|k] line E; discriminate. }
    split; [lia|]. split; [lia|]. split; [intros _; split; reflexivity|].
    split; [intros _; left; reflexivity|].
    intros x _. split; [reflexivity|]. split; [reflexivity|]. lia.
  - cbn [sample_loop].
    destruct (sample_tick_events csv_file var_names_list interval i h)
      as (dt & hk & trr & ok & h2 & F & Et).
    cbv zeta in Et.
    destruct (reads_are_silent _ _ F) as (Rp & Rr & Rs & Rc & Rst).
    assert (Fs : Forall (sampling_event var_names_list csv_file interval)
                        (EvNow dt :: trr)).
    { constructor; [exact I|].
      eapply Forall_impl; [|exact F].
      intros e. apply measure_read_sampling. }
    destruct ok; [destruct (sleep_error interval) as [x|] eqn:Ei|].
    + rewrite (bind_exc _ _ h _ _ _ Et). cbn [res final trace].
      cbn [app]. rewrite <- !app_assoc. cbn [app].
      cbn [printed_lines attempted_rows row_of].
      rewrite !printed_lines_app, !attempted_rows_app, Rp, Rr.
      cbn [app printed_lines attempted_rows row_of List.length].
      unfold count in *. cbn [filter is_close is_stop_call is_sleep].
      rewrite !filter_app. cbn [filter is_close is_stop_call is_sleep].
      rewrite !List.length_app. rewrite Rc, Rst, Rs.
      split; [|split; [reflexivity|split; [reflexivity|]]].
      { inversion Fs as [|? ? _ Fs']; subst.
        constructor; [exact I|]. apply Forall_app. split; [exact Fs'|].
        constructor; [reflexivity|]. constructor; [exact I|]. constructor. }
      split.
      { intros [|[|k]] line E; cbn [nth_error] in E; try discriminate.
        injection E as E. subst line.
        exists dt, hk. rewrite Z.add_0_r. split; reflexivity. }
      split; [lia|]. split; [lia|]. split; [discriminate|].
      split; [discriminate|].
      intros y [= <-]. split; [reflexivity|]. split; [cbn; lia|].
      intros _. left. reflexivity.
    + rewrite (bind_ok _ _ h _ _ _ Et).
      specialize (IH (i + 1) (host_sleep interval h2)). cbv zeta in IH.
      cbn [res final trace].
      set (r' := sample_loop csv_file var_names_list interval n (i + 1)
                   (host_sleep interval h2)) in *.
      destruct IH as (IF & ICl & ISt & IL & ILen & IN & IOk & IGood & _).
      cbn [app]. rewrite <- !app_assoc. cbn [app].
      cbn [printed_lines attempted_rows row_of].
      rewrite !printed_lines_app, !attempted_rows_app, Rp, Rr.
      cbn [app printed_lines attempted_rows row_of List.length].
      unfold count in *. cbn [filter is_close is_stop_call].
      rewrite !filter_app. cbn [filter is_close is_stop_call].
      rewrite !List.length_app. rewrite Rc, Rst, ICl, ISt.
      split; [|split; [reflexivity|split; [reflexivity|]]].
      { inversion Fs as [|? ? _ Fs']; subst.
        constructor; [exact I|]. apply Forall_app. split; [exact Fs'|].
        constructor; [reflexivity|]. constructor; [exact I|].
        constructor; [reflexivity|]. exact IF. }
      split.
      { intros [|k] line E.
        - cbn [nth_error] in E. injection E as E. subst line.
          exists dt, hk. rewrite Z.add_0_r. split; reflexivity.
        - cbn [nth_error] in E.
          destruct (IL k line E) as (dt' & hk' & -> & Er).
          exists dt', hk'.
          replace (i + Z.of_nat (S k)) with (i + 1 + Z.of_nat k) by lia.
          split; [reflexivity|]. cbn [nth_error]. exact Er. }
      split; [lia|]. split; [lia|]. split.
      { intros Hr. destruct (IOk Hr). lia. }
      split.
      { intros _. exact (IGood eq_refl). }
      intros; discriminate.
    + rewrite (bind_exc _ _ h _ _ _ Et). cbn [res final trace].
      cbn [app]. cbn [printed_lines attempted_rows row_of].
      rewrite !printed_lines_app, !attempted_rows_app, Rp, Rr.
      cbn [app printed_lines attempted_rows row_of List.length].
      unfold count in *. cbn [filter is_close is_stop_call is_sleep].
      rewrite !filter_app. cbn [filter is_close is_stop_call is_sleep].
      rewrite !List.length_app. rewrite Rc, Rst, Rs.
      split; [|split; [reflexivity|split; [reflexivity|]]].
      { inversion Fs as [|? ? _ Fs']; subst.
        constructor; [exact I|]. apply Forall_app. split; [exact Fs'|].
        constructor; [reflexivity|]. constructor. }
      split.
      { intros [|k] line E; discriminate. }
      split; [lia|]. split; [lia|]. split; [discriminate|].
      split; [intros _; right; reflexivity|].
      intros y _. split; [reflexivity|]. split; [cbn; lia|].
      intros _. right. reflexivity.
Qed.

End SamplingEvents.

(** ** [collect_and_save], event by event *)

Section CollectEvents.
Context {H : Type} `{Host H}.

Lemma connection_check_reads (var_names_list : list string) (h : H) :
  Forall (measure_read var_names_list)
         (trace (_check_connections var_names_list h)).
Proof.
  destruct (read_loop_trace var_names_list [] [] 0 h) as (Et & _ & _ & F).
  cbv zeta in Et. fold (_check_connections var_names_list h) in Et.
  rewrite Et. exact F.
Qed.

(** The three ways through [collect_and_save] once the number of samples
    is known. *)
Lemma collect_and_save_shape (c : Controller) duration interval csv_filename
      (h : H) (num_samples : Z) :
  sample_count duration interval = Ok num_samples ->
  let names := dict_values (measurement_vars c) in
  let header := csv_header names in
  let chk := _check_connections names h in
  let r := collect_and_save c duration interval csv_filename h in
  Forall (measure_read names) (trace chk) /\
  ((res r = Exc OSError /\
    trace r = (trace chk ++ [EvOpen csv_filename ModeW false])%list)
   \/ (res r = Exc OSError /\
       trace r = (trace chk ++ [EvOpen csv_filename ModeW true;
                                EvWriteRow csv_filename header false])%list)
   \/ (exists hs (flushed : bool),
          let smp := _collect_samples csv_filename names num_samples interval
                       hs in
          res r = (if flushed then res smp else Exc OSError) /\
          trace r = (trace chk
                     ++ [EvOpen csv_filename ModeW true;
                         EvWriteRow csv_filename header true]
                     ++ trace smp
                     ++ [EvFlush csv_filename flushed;
                         EvClose csv_filename])%list)).
Proof.
  intros En names header chk r.
  destruct (collect_and_save_run c duration interval csv_filename h
              num_samples En) as (_ & Hexc & Hok).
  cbv zeta in Hexc, Hok. fold names in Hexc, Hok. fold chk in Hexc, Hok.
  fold r in Hexc, Hok.
  split.
  { exact (connection_check_reads names h). }
  destruct (open_csv_file_run csv_filename names (final chk))
    as [(h1 & Eo)|[(h1 & Eo)|(h1 & Eo)]].
  - left. rewrite (Hexc OSError) by (rewrite Eo; reflexivity).
    rewrite Eo. cbn [res trace]. split; reflexivity.
  - right. left. rewrite (Hexc OSError) by (rewrite Eo; reflexivity).
    rewrite Eo. cbn [res trace]. split; reflexivity.
  - right. right. rewrite Hok by (rewrite Eo; reflexivity).
    rewrite Eo. cbn [res final trace].
    exists h1, (fst (file_flush csv_filename
                       (final (_collect_samples csv_filename names
                                 num_samples interval h1)))).
    cbv zeta. split; reflexivity.
Qed.

Lemma sampling_event_counts names csv interval tr :
  Forall (sampling_event names csv interval) tr ->
  count is_write tr = O /\ count is_stop_call tr = O.
Proof.
  induction 1 as [|e tr He _ (I1 & I2)]; [split; reflexivity|].
  destruct e as [cc r| | | | | | | | |];
    try (split; [exact I1 | exact I2]).
  destruct He as (n & r' & _ & [E | E]); injection E as -> _;
    (split; [exact I1 | exact I2]).
Qed.

(** Every event of [collect_and_save] is one of those it is meant to
    produce. *)
Lemma collect_and_save_events
      (c : Controller) duration interval csv_filename (h : H) :
  Forall (sampling_event (dict_values (measurement_vars c))
            csv_filename interval)
         (trace (collect_and_save c duration interval csv_filename h)).
Proof.
  destruct (sample_count duration interval) as [n|x] eqn:En.
  - destruct (collect_and_save_shape c duration interval csv_filename h n
                En) as (Fc & Hs).
    cbv zeta in Fc, Hs.
    assert (Fc' : Forall (sampling_event (dict_values (measurement_vars c))
                            csv_filename interval)
                         (trace (_check_connections
                                   (dict_values (measurement_vars c)) h))).
    { eapply Forall_impl; [|exact Fc].
      intros e. apply measure_read_sampling. }
    destruct Hs as [(_ & ->)|[(_ & ->)|(hs & flushed & _ & ->)]].
    + apply Forall_app. split; [exact Fc'|].
      constructor; [split; reflexivity|constructor].
    + apply Forall_app. split; [exact Fc'|].
      constructor; [split; reflexivity|].
      constructor; [reflexivity|constructor].
    + apply Forall_app. split; [exact Fc'|].
      cbn [app]. constructor; [split; reflexivity|].
      constructor; [reflexivity|].
      apply Forall_app. split.
      * unfold _collect_samples.
        exact (proj1 (sample_loop_events csv_filename _ interval _ 0 hs)).
      * constructor; [reflexivity|].
        constructor; [reflexivity|constructor].
  - unfold collect_and_save. rewrite En. constructor.
Qed.

(** X12.  Sampling does not change the device.  Every COM call that
    [collect_and_save] makes is a read of one of the registered
    measurement channels: it writes no calibration value and neither
    starts nor stops the measurement.  The only file it touches is the
    output file, which it opens for writing; it removes nothing and it
    only sleeps for [interval]. *)
Theorem sampling_only_reads_the_device
        (c : Controller) duration interval csv_filename (h : H) :
  let names := dict_values (measurement_vars c) in
  let r := collect_and_save c duration interval csv_filename h in
  Forall (sampling_event names csv_filename interval) (trace r) /\
  count is_write (trace r) = O /\
  count is_stop_call (trace r) = O /\
  (forall var_name value resp,
      ~ In (EvCom (SetDoublePhysValue var_name value) resp) (trace r)) /\
  (forall resp, ~ In (EvCom StartMeasurement resp) (trace r)) /\
  (forall path ok, ~ In (EvRemove path ok) (trace r)).
Proof.
  cbv zeta.
  pose proof (collect_and_save_events c duration interval csv_filename h)
    as F.
  split; [exact F|].
  destruct (sampling_event_counts _ _ _ _ F) as [Cw Cs].
  split; [exact Cw|]. split; [exact Cs|].
  rewrite Forall_forall in F.
  split; [|split].
  - intros n v resp Hin. destruct (F _ Hin) as (m & r' & _ & [E | E]);
      discriminate E.
  - intros resp Hin. destruct (F _ Hin) as (m & r' & _ & [E | E]);
      discriminate E.
  - intros path ok Hin. exact (F _ Hin).
Qed.

(** X13.  The console line of a pass shows what its CSV row holds: the
    same elapsed time, and for each channel the same reading, here with
    two decimals in a field of 15.  A line is shown only after its row has
    been written, so there is never a line without its row, and at most
    one row without its line: the last one, when the write or the sleep
    raised. *)
Theorem console_line_shows_the_row
        csv_file (var_names_list : list string) num_samples interval (h : H) :
  let r := _collect_samples csv_file var_names_list num_samples interval h in
  let lines := printed_lines (trace r) in
  let rows := attempted_rows (trace r) in
  (forall k line,
      nth_error lines k = Some line ->
      exists dt hk,
        let elapsed :=
          PyFloat.format_f 1
            (PyFloat.of_int (Z.of_nat k + 1) * interval)%float in
        let values := read_each var_names_list hk in
        line = PyStr.rjust 7 elapsed ++ "s "
               ++ join_spaces (map shown values) /\
        nth_error rows k
        = Some ([CStr elapsed; CStr (PyStr.drop_last3 (strftime dt))]
                ++ map slot values)%list) /\
  (List.length lines <= List.length rows <= S (List.length lines))%nat /\
  (res r = Ok tt -> List.length lines = List.length rows).
Proof.
  cbv zeta. unfold _collect_samples.
  destruct (sample_loop_events csv_file var_names_list interval
              (Z.to_nat num_samples) 0 h)
    as (_ & _ & _ & HL & Hlen & _ & Hok & _).
  cbv zeta in HL, Hlen, Hok.
  split; [|split; [exact Hlen|]].
  - intros k line E. destruct (HL k line E) as (dt & hk & -> & Er).
    exists dt, hk. rewrite Er. unfold tick_line, tick_row.
    rewrite Z.add_0_l. split; reflexivity.
  - intros Hr. destruct (Hok Hr) as (-> & ->). reflexivity.
Qed.

Lemma sample_count_errors duration interval x :
  sample_count duration interval = Exc x ->
  x = ZeroDivisionError \/ x = ValueError \/ x = OverflowError.
Proof.
  unfold sample_count, PyFloat.truediv.
  destruct (PrimFloat.is_zero interval).
  - intros [= <-]. left. reflexivity.
  - unfold PyFloat.to_int.
    destruct (Prim2SF (duration / interval)); intros E; try discriminate;
      injection E as <-; [right; right | right; left]; reflexivity.
Qed.

(** X14.  What [collect_and_save] does to the output file.  When
    [int(duration / interval)] raises (a zero, NaN or infinite quotient),
    it raises that error before touching anything.  Otherwise it checks
    the connections and opens the file once.  If the open fails nothing
    else happens.  If the header cannot be written the error leaves the
    method with the file opened and not closed.  If the header is written
    the file is closed exactly once, as the last action, however the
    sampling ended; the sampling itself neither opens nor closes, and
    hands at most [num_samples] rows to the writer. *)
Theorem output_file_is_closed_once_its_header_is_written
        (c : Controller) duration interval csv_filename (h : H) :
  let names := dict_values (measurement_vars c) in
  let header := csv_header names in
  let chk := _check_connections names h in
  let r := collect_and_save c duration interval csv_filename h in
  match sample_count duration interval with
  | Exc x =>
      r = mkRun (Exc x) h [] /\
      (x = ZeroDivisionError \/ x = ValueError \/ x = OverflowError)
  | Ok num_samples =>
      exists tr,
        trace r = (trace chk ++ tr)%list /\
        count is_open_or_close (trace chk) = O /\
        ((tr = [EvOpen csv_filename ModeW false] /\ res r = Exc OSError)
         \/ (tr = [EvOpen csv_filename ModeW true;
                   EvWriteRow csv_filename header false] /\
             res r = Exc OSError)
         \/ (exists body,
                tr = ([EvOpen csv_filename ModeW true;
                       EvWriteRow csv_filename header true]
                      ++ body ++ [EvClose csv_filename])%list /\
                count is_open_or_close body = O /\
                (List.length (attempted_rows body)
                 <= Z.to_nat num_samples)%nat))
  end.
Proof.
  cbv zeta.
  destruct (sample_count duration interval) as [n|x] eqn:En.
  - destruct (collect_and_save_shape c duration interval csv_filename h n En)
      as (Fc & Hs).
    cbv zeta in Fc, Hs.
    assert (Hchk : count is_open_or_close
                     (trace (_check_connections
                               (dict_values (measurement_vars c)) h)) = O).
    { clear Hs. induction Fc as [|e tr He _ IH]; [reflexivity|].
      destruct He as (m & r' & _ & [-> | ->]); exact IH. }
    destruct Hs as [(Hr & ->)|[(Hr & ->)|(hs & flushed & Hr & ->)]].
    + eexists. split; [reflexivity|]. split; [exact Hchk|].
      left. split; [reflexivity | exact Hr].
    + eexists. split; [reflexivity|]. split; [exact Hchk|].
      right. left. split; [reflexivity | exact Hr].
    + eexists. split; [reflexivity|]. split; [exact Hchk|].
      right. right.
      exists (trace (_collect_samples csv_filename
                       (dict_values (measurement_vars c)) n interval hs)
              ++ [EvFlush csv_filename flushed])%list.
      split; [rewrite <- !app_assoc; reflexivity|].
      rewrite count_app, attempted_rows_app, List.length_app.
      cbn [count filter is_open_or_close attempted_rows row_of List.length].
      rewrite !Nat.add_0_r.
      unfold _collect_samples.
      destruct (sample_loop_run csv_filename
                  (dict_values (measurement_vars c)) interval
                  (Z.to_nat n) 0 hs) as (_ & Hoc & _).
      destruct (sample_loop_events csv_filename
                  (dict_values (measurement_vars c)) interval
                  (Z.to_nat n) 0 hs) as (_ & _ & _ & _ & _ & Hn & _).
      cbv zeta in Hoc, Hn. split; [|exact Hn]. clear Hn.
      unfold count. induction Hoc as [|e tr He _ IH]; [reflexivity|].
      cbn [filter]. rewrite He. exact IH.
  - split.
    + unfold collect_and_save. rewrite En. reflexivity.
    + exact (sample_count_errors duration interval x En).
Qed.

(** X15.  An interval that [time.sleep] refuses: a negative one, or one
    beyond 2^63 ns in either direction.  Then [collect_and_save] never
    sleeps and hands at most one data row to the writer.  If there is a
    sample to take ([int(duration / interval)] is positive) it does not
    return: it raises the error of [time.sleep], a [ValueError] or an
    [OverflowError], or the [OSError] of the file.  When the error of
    [time.sleep] comes out, the header and one row have been written, the
    line of that row has been shown, and the file has been written out
    and closed. *)
Theorem refused_interval_stops_after_one_row
        (c : Controller) duration interval csv_filename (h : H)
        (num_samples : Z) (x : Exn) :
  sleep_error interval = Some x ->
  sample_count duration interval = Ok num_samples ->
  let r := collect_and_save c duration interval csv_filename h in
  (x = ValueError \/ x = OverflowError) /\
  count is_sleep (trace r) = O /\
  (List.length (attempted_rows (trace r)) <= 2)%nat /\
  (0 < num_samples -> res r = Exc x \/ res r = Exc OSError) /\
  (res r = Exc x ->
   0 < num_samples /\
   List.length (attempted_rows (trace r)) = 2%nat /\
   exists tr line,
     trace r = (tr ++ [EvPrint line; EvFlush csv_filename true;
                       EvClose csv_filename])%list).
Proof.
  intros Hbad En. cbv zeta.
  pose proof (sleep_error_kinds interval x Hbad) as Hkind.
  assert (Hx : x <> OSError) by (destruct Hkind as [-> | ->]; discriminate).
  split; [exact Hkind|].
  destruct (collect_and_save_shape c duration interval csv_filename h
              num_samples En) as (Fc & Hs).
  cbv zeta in Fc, Hs.
  destruct (reads_are_silent _ _ Fc) as (_ & Rr & Rs & _ & _).
  destruct Hs as [(Hr & ->)|[(Hr & ->)|(hs & flushed & Hr & ->)]].
  - rewrite count_app, attempted_rows_app, Rr, Rs, Hr.
    cbn. split; [reflexivity|]. split; [lia|].
    split; [intros _; right; reflexivity|].
    intros [= E]. elim Hx. symmetry. exact E.
  - rewrite count_app, attempted_rows_app, Rr, Rs, Hr.
    cbn. split; [reflexivity|]. split; [lia|].
    split; [intros _; right; reflexivity|].
    intros [= E]. elim Hx. symmetry. exact E.
  - unfold _collect_samples in *.
    pose proof (sample_tick_events csv_filename
                  (dict_values (measurement_vars c)) interval 0 hs) as Ht.
    destruct (sample_loop_events csv_filename
                (dict_values (measurement_vars c)) interval
                (Z.to_nat num_samples) 0 hs)
      as (_ & _ & _ & _ & _ & _ & _ & _ & Hrefused).
    cbv zeta in Hrefused.
    destruct (Hrefused x Hbad) as (Hsl & Hrows & Hres).
    set (smp := sample_loop csv_filename (dict_values (measurement_vars c))
                  interval (Z.to_nat num_samples) 0 hs) in *.
    rewrite Hr.
    rewrite !count_app, !attempted_rows_app, Rr, Rs, Hsl.
    rewrite !List.length_app, Hrows.
    cbn [app attempted_rows row_of List.length count filter is_sleep
         Nat.add].
    split; [reflexivity|]. split; [lia|]. split.
    + intros Hpos. destruct flushed; [|right; reflexivity].
      apply Hres. lia.
    + intros Hv.
      destruct flushed;
        [|injection Hv as E; elim Hx; symmetry; exact E].
      destruct (Z.to_nat num_samples) as [|n'] eqn:Hn.
      { subst smp. cbn in Hv. discriminate. }
      split; [lia|]. split; [cbn; lia|].
      destruct Ht as (dt & hk & trr & ok & h2 & _ & Et).
      cbv zeta in Et. rewrite Hbad in Et.
      subst smp. cbn [sample_loop] in Hv |- *.
      destruct ok.
      * rewrite (bind_exc _ _ hs _ _ _ Et). cbn [trace].
        exists (trace (_check_connections
                         (dict_values (measurement_vars c)) h)
                ++ [EvOpen csv_filename ModeW true;
                    EvWriteRow csv_filename
                      (csv_header (dict_values (measurement_vars c))) true]
                ++ EvNow dt
                   :: trr
                   ++ [EvWriteRow csv_filename
                         (tick_row (dict_values (measurement_vars c))
                            interval 0 dt hk) true])%list,
               (tick_line (dict_values (measurement_vars c)) interval 0 hk).
        cbn [app]. rewrite <- !app_assoc. cbn [app].
        rewrite <- !app_assoc. reflexivity.
      * rewrite (bind_exc _ _ hs _ _ _ Et) in Hv. cbn in Hv.
        congruence.
Qed.

End CollectEvents.

Lemma refused_interval_stops_after_one_row_witness :
  let c := mkController false [("a", "A")] in
  let r := collect_and_save c (-2e10) (-1e10) "out.csv" (device []) in
  sleep_error (-1e10) = Some OverflowError /\
  sample_count (-2e10) (-1e10) = Ok 2 /\
  res r = Exc OverflowError /\
  count is_sleep (trace r) = O /\
  List.length (attempted_rows (trace r)) = 2%nat.
Proof.
  cbv zeta.
  assert (Ei : sleep_error (-1e10) = Some OverflowError) by reflexivity.
  assert (En : sample_count (-2e10) (-1e10) = Ok 2) by reflexivity.
  assert (Er : res (collect_and_save (mkController false [("a", "A")])
                      (-2e10) (-1e10) "out.csv" (device []))
               = Exc OverflowError) by (vm_compute; reflexivity).
  destruct (refused_interval_stops_after_one_row
              (mkController false [("a", "A")]) (-2e10) (-1e10) "out.csv"
              (device []) 2 OverflowError Ei En) as (_ & Hs & _ & _ & Hv).
  destruct (Hv Er) as (_ & Hrows & _).
  split; [exact Ei|]. split; [exact En|]. split; [exact Er|].
  split; [exact Hs | exact Hrows].
Defined.

(** ** The batch, event by event *)

Section BatchEvents.
Context {H : Type} `{Host H}.

(** The events of [_apply_single] and its writes. *)
Lemma apply_single_about var_name new_value (h : H) :
  let r := _apply_single var_name new_value h in
  Forall (about_parameter var_name new_value) (trace r) /\
  (count is_write (trace r) <= 1)%nat.
Proof.
  cbv zeta.
  destruct (apply_single_run var_name new_value h) as [Rf Rt].
  cbv zeta in Rf, Rt.
  destruct (read_calibration_shape var_name new_value h)
    as (v & h1 & tr & E & _ & _ & _ & Hw & Hab & _).
  rewrite E in Rf, Rt. cbn [final trace] in Rf, Rt.
  destruct (write_calibration_about var_name new_value h1)
    as (Wab & Wc & _).
  destruct (write_calibration_total var_name new_value h1) as [b Hb].
  destruct b.
  - rewrite (Rt Hb). cbn [res trace].
    set (wr := _write_calibration var_name new_value h1) in *.
    destruct (verify_loop_shape var_name new_value (range 0 3) None
                (host_sleep 0.3 (final wr)) eq_refl)
      as (_ & _ & Lw & Lab & _).
    assert (Ev : trace (_verify_calibration var_name new_value (final wr))
                 = EvSleep 0.3
                   :: trace (verify_loop var_name new_value (range 0 3)
                               None (host_sleep 0.3 (final wr)))).
    { unfold _verify_calibration.
      rewrite (bind_ok _ _ (final wr) _ _ _
                 (sleep_run 0.3 (final wr) eq_refl)). reflexivity. }
    split.
    + apply Forall_app. split; [apply Hab|].
      apply Forall_app. split; [exact Wab|].
      rewrite Ev. constructor; [exact I | apply Lab].
    + rewrite !count_app, Hw, Ev.
      change (count is_write (EvSleep 0.3 :: ?t)) with (count is_write t).
      rewrite Lw. lia.
  - rewrite (Rf Hb). cbn [res trace]. split.
    + apply Forall_app. split; [apply Hab | exact Wab].
    + rewrite count_app, Hw. lia.
Qed.

Lemma about_mapping_weaken (item : string * float) items e :
  about_mapping items e -> about_mapping (item :: items) e.
Proof.
  intros (n & v & Hin & Ha). exists n, v. split; [right; exact Hin | exact Ha].
Qed.

Lemma apply_loop_about (items : list (string * float)) :
  forall (success_count fail_count : Z) (h : H),
    let r := apply_loop items success_count fail_count h in
    Forall (about_mapping items) (trace r) /\
    (count is_write (trace r) <= List.length items)%nat.
Proof.
  induction items as [|[var_name new_value] rest IH]; intros sc fc h;
    cbv zeta.
  - cbn. split; [constructor | lia].
  - cbn [apply_loop].
    destruct (apply_single_about var_name new_value h) as [Fa Ca].
    cbv zeta in Fa, Ca.
    assert (Fa' : Forall (about_mapping ((var_name, new_value) :: rest))
                         (trace (_apply_single var_name new_value h))).
    { eapply Forall_impl; [|exact Fa].
      intros e He. exists var_name, new_value.
      split; [left; reflexivity | exact He]. }
    assert (Hstep : forall sc' fc',
               Forall (about_mapping ((var_name, new_value) :: rest))
                 (trace (_apply_single var_name new_value h)
                  ++ trace (apply_loop rest sc' fc'
                              (final (_apply_single var_name new_value h))))
               /\ (count is_write
                     (trace (_apply_single var_name new_value h)
                      ++ trace (apply_loop rest sc' fc'
                                  (final (_apply_single var_name new_value
                                            h))))
                   <= S (List.length rest))%nat).
    { intros sc' fc'.
      destruct (IH sc' fc' (final (_apply_single var_name new_value h)))
        as [Fr Cr].
      split.
      - apply Forall_app. split; [exact Fa'|].
        eapply Forall_impl; [|exact Fr].
        intros e. apply about_mapping_weaken.
      - rewrite count_app. lia. }
    destruct (apply_single_result var_name new_value h) as [[b Hb]|Hx].
    + rewrite (bind_res_ok _ _ h b Hb). cbn [trace List.length].
      destruct b; apply Hstep.
    + rewrite (bind_res_exc _ _ h _ Hx). cbn [trace List.length].
      split; [exact Fa' | lia].
Qed.

(** X16.  [apply_all] touches only the parameters of its mapping: every
    COM call it makes reads a parameter of the mapping, writes to a
    parameter the value the mapping gives for it, or is one of the three
    synchronisation calls.  It writes at most once per entry, and it
    neither starts nor stops the measurement and touches no file. *)
Theorem batch_touches_only_the_mapped_parameters
        (calib_dict : list (string * float)) (h : H) :
  let r := apply_all calib_dict h in
  Forall (about_mapping calib_dict) (trace r) /\
  (count is_write (trace r) <= List.length calib_dict)%nat /\
  (forall var_name value resp,
      In (EvCom (SetDoublePhysValue var_name value) resp) (trace r) ->
      In (var_name, value) calib_dict) /\
  count is_session_call (trace r) = O /\
  Forall (fun e => off_sink e = true) (trace r).
Proof.
  cbv zeta.
  destruct (apply_loop_about calib_dict 0 0 h) as [F C].
  cbv zeta in F, C. fold (apply_all calib_dict h) in F, C.
  split; [exact F|]. split; [exact C|]. split; [|split].
  - intros n v resp Hin. rewrite Forall_forall in F.
    destruct (F _ Hin) as (n' & v' & Hd & Ha). cbn in Ha.
    destruct Ha as [-> ->]. exact Hd.
  - clear C. induction F as [|e tr He _ IH]; [reflexivity|].
    destruct He as (n & v & _ & Ha).
    destruct e as [[]| | | | | | | | |]; cbn in Ha; try contradiction;
      exact IH.
  - eapply Forall_impl; [|exact F].
    intros e (n & v & _ & Ha).
    destruct e as [[]| | | | | | | | |]; cbn in Ha; try contradiction;
      reflexivity.
Qed.

End BatchEvents.

(** ** The measurement steps of [main] *)

Section MainMeasurementFacts.
Context {H : Type} `{Host H}.

Lemma bind_ext {A B} (m : M H A) (f f' : A -> M H B) (h : H) :
  (forall a h', f a h' = f' a h') -> bind m f h = bind m f' h.
Proof.
  intros E. unfold bind. destruct (res (m h)); [rewrite E|]; reflexivity.
Qed.

Lemma bind_assoc {A B C} (m : M H A) (f : A -> M H B) (g : B -> M H C)
      (h : H) :
  bind (bind m f) g h = bind m (fun a => bind (f a) g) h.
Proof.
  unfold bind. destruct (res (m h)) as [a|x]; cbn [res final trace];
    [|reflexivity].
  destruct (res (f a (final (m h)))) as [b|y]; cbn [res final trace];
    [|reflexivity].
  rewrite app_assoc. reflexivity.
Qed.

Lemma bind_forall {A B} (P : Event -> Prop) (m : M H A) (f : A -> M H B)
      (h : H) :
  Forall P (trace (m h)) ->
  (forall a h', Forall P (trace (f a h'))) ->
  Forall P (trace (bind m f h)).
Proof.
  intros Fm Ff. unfold bind. destruct (res (m h)); cbn [trace];
    [apply Forall_app; split; [exact Fm | apply Ff] | exact Fm].
Qed.

(** The steps between start and stop neither start nor stop the
    measurement. *)
Lemma work_has_no_session_call (c : Controller)
      (calib_data : list (string * float)) duration interval
      output_filename (h : H) :
  Forall (fun e => is_session_call e = false)
         (trace ((wait_for_stabilization ;;;
                  apply_all calib_data ;;;
                  collect_and_save c duration interval output_filename) h)).
Proof.
  apply bind_forall.
  { unfold wait_for_stabilization.
    repeat (apply bind_forall; [|intros]);
      unfold sleep; destruct (sleep_error 1); repeat constructor. }
  intros _ h1. apply bind_forall.
  { destruct (apply_loop_about calib_data 0 0 h1) as [F _].
    cbv zeta in F. fold (apply_all calib_data h1) in F.
    eapply Forall_impl; [|exact F].
    intros e (n & v & _ & Ha).
    destruct e as [[]| | | | | | | | |]; cbn in Ha; try contradiction;
      reflexivity. }
  intros _ h2.
  pose proof (collect_and_save_events c duration interval output_filename
                h2) as F.
  eapply Forall_impl; [|exact F].
  intros e He. destruct e as [cc r| | | | | | | | |]; try reflexivity.
  destruct He as (n & r' & _ & [E | E]); injection E as -> _; reflexivity.
Qed.

Lemma no_session_call_facts tr :
  Forall (fun e => is_session_call e = false) tr ->
  count is_stop_call tr = O /\
  forall r, ~ In (EvCom StopMeasurement r) tr.
Proof.
  induction 1 as [|e tr He _ [IH1 IH2]].
  - split; [reflexivity | intros r []].
  - split.
    + destruct e as [[]| | | | | | | | |]; try discriminate He; exact IH1.
    + intros r [-> | Hin]; [discriminate He | exact (IH2 r Hin)].
Qed.

(** [controller.stop_measurement()], keeping the controller. *)
Lemma stop_and_keep (c : Controller) (h : H) :
  let r := (sc' <- stop_measurement c ;; ret (snd sc')) h in
  exists c',
    res r = Ok c' /\
    measurement_vars c' = measurement_vars c /\
    count is_stop_call (trace r)
    = (if measurement_started c then 1 else 0)%nat /\
    (measurement_started c' = true <->
     measurement_started c = true /\
     ~ exists v, In (EvCom StopMeasurement (Returned v)) (trace r)).
Proof.
  cbv zeta.
  destruct (measurement_started c) eqn:Hs.
  - pose proof (stop_started c h Hs) as P.
    destruct (com_call StopMeasurement h) as [[v|] h1].
    + cbv zeta in P. destruct (com_call (WriteToMonitor _) h1) as [r2 h2].
      rewrite (bind_ok _ _ h _ _ _ P). cbn [res final trace snd ret app].
      eexists. split; [reflexivity|]. split; [reflexivity|].
      split; [reflexivity|]. cbn [measurement_started]. split.
      * discriminate.
      * intros [_ Hn]. exfalso. apply Hn. exists v. left. reflexivity.
    + rewrite (bind_ok _ _ h _ _ _ P). cbn [res final trace snd ret app].
      exists c. split; [reflexivity|]. split; [reflexivity|].
      split; [reflexivity|]. split.
      * intros _. split; [reflexivity|].
        intros [v [E|[]]]. discriminate E.
      * intros _. exact Hs.
  - rewrite (bind_ok _ _ h _ _ _ (stop_not_started c h Hs)).
    cbn [res final trace snd ret app].
    exists c. split; [reflexivity|]. split; [reflexivity|].
    split; [reflexivity|]. rewrite Hs. split; [discriminate|].
    intros [E _]. discriminate E.
Qed.

(** X17.  The measurement steps of [main] never raise: whatever the
    calibration or the sampling raises ends in the handler.  They call
    [StopMeasurement()] at most once, and only for a measurement that
    their own [StartMeasurement()] started.  If [start_measurement]
    answered [True] the stop is attempted, whether the steps in between
    returned or raised.  But if [StartMeasurement()] returned and
    [start_measurement] answered [False] all the same (the message to the
    monitor failed), the stop is attempted only when a later step raises:
    when all goes well the measurement is left running and the flag set.
    The measurement variables are not changed. *)
Theorem main_stops_the_measurement_it_started
        (c : Controller) (calib_data : list (string * float))
        duration interval output_filename (h : H) :
  measurement_started c = false ->
  let r1 := start_measurement c h in
  let r := main_measurement_steps c calib_data duration interval
             output_filename h in
  exists (b : bool) (c1 c' : Controller),
    let work := (wait_for_stabilization ;;;
                 apply_all calib_data ;;;
                 collect_and_save c1 duration interval output_filename)
                  (final r1) in
    res r1 = Ok (b, c1) /\
    res r = Ok c' /\
    measurement_vars c' = measurement_vars c /\
    (measurement_started c1 = true <->
     exists v, In (EvCom StartMeasurement (Returned v)) (trace r1)) /\
    (b = true -> measurement_started c1 = true) /\
    count is_stop_call (trace r)
    = (if measurement_started c1 && (b || negb (is_ok (res work)))
       then 1 else 0)%nat /\
    (measurement_started c' = true <->
     measurement_started c1 = true /\
     ~ exists v, In (EvCom StopMeasurement (Returned v)) (trace r)).
Proof.
  intros Hc. cbv zeta.
  assert (Hstart : exists b c1 h1 tr1,
             start_measurement c h = mkRun (Ok (b, c1)) h1 tr1 /\
             measurement_vars c1 = measurement_vars c /\
             (measurement_started c1 = true <->
              exists v, In (EvCom StartMeasurement (Returned v)) tr1) /\
             (b = true -> measurement_started c1 = true) /\
             Forall (fun e => is_stop_call e = false) tr1).
  { pose proof (start_measurement_run c h) as P.
    destruct (com_call StartMeasurement h) as [[v|] h1].
    - cbv zeta in P. destruct (com_call (WriteToMonitor _) h1) as [r2 h2].
      eexists _, _, _, _. split; [exact P|]. split; [reflexivity|].
      split; [|split; [reflexivity | repeat constructor]].
      split; [intros _; exists v; left; reflexivity | reflexivity].
    - eexists _, _, _, _. split; [exact P|]. split; [reflexivity|].
      split; [|split; [discriminate | repeat constructor]].
      rewrite Hc. split; [discriminate|].
      intros [v [E|[]]]. discriminate E. }
  destruct Hstart as (b & c1 & h1 & tr1 & P & Hvars & Hflag & Hb & Hst1).
  rewrite P. cbn [res final trace].
  exists b, c1.
  set (work := (wait_for_stabilization ;;;
                apply_all calib_data ;;;
                collect_and_save c1 duration interval output_filename)).
  set (stop := (sc' <- stop_measurement c1 ;; ret (snd sc'))).
  destruct (no_session_call_facts _
              (work_has_no_session_call c1 calib_data duration interval
                 output_filename h1)) as [Wc Wn].
  fold work in Wc, Wn.
  pose (tl := if measurement_started c1 && (b || negb (is_ok (res (work h1))))
              then stop (final (work h1))
              else ret c1 (final (work h1))).
  assert (Hrun : main_measurement_steps c calib_data duration interval
                   output_filename h
                 = mkRun (res tl) (final tl)
                     (tr1 ++ trace (work h1) ++ trace tl)
                   /\ exists c', res tl = Ok c').
  { unfold main_measurement_steps.
    rewrite (bind_ok _ _ h _ _ _ P). cbn [fst snd].
    fold stop.
    set (T := fun _ : unit => if b then stop else ret c1).
    assert (Hbody : forall h',
               (wait_for_stabilization ;;;
                apply_all calib_data ;;;
                collect_and_save c1 duration interval output_filename ;;;
                if b then stop else ret c1) h'
               = bind work T h').
    { intros h'. unfold work. rewrite bind_assoc.
      apply bind_ext. intros _ h''. rewrite bind_assoc. reflexivity. }
    unfold try_except. cbv zeta. rewrite !Hbody.
    destruct (stop_and_keep c1 (final (work h1))) as (cs & Hcs & _).
    cbv zeta in Hcs. fold stop in Hcs.
    subst tl.
    destruct (res (work h1)) as [u|x] eqn:Ew.
    - rewrite (bind_res_ok work T h1 u Ew).
      cbn [is_ok negb res final trace]. unfold T. rewrite orb_false_r.
      destruct b.
      + rewrite (Hb eq_refl). cbn [andb]. rewrite Hcs.
        split; [reflexivity | exists cs; reflexivity].
      + rewrite andb_false_r. cbn [ret res final trace].
        split; [reflexivity | exists c1; reflexivity].
    - rewrite (bind_res_exc work T h1 x Ew).
      cbn [is_ok negb res final trace].
      rewrite orb_true_r, andb_true_r.
      destruct (measurement_started c1).
      + split; [reflexivity | exists cs; exact Hcs].
      + cbn [ret res final trace].
        split; [reflexivity | exists c1; reflexivity]. }
  destruct Hrun as [Hrun [c' Hc']].
  rewrite Hrun. cbn [res trace]. exists c'.
  split; [reflexivity|]. split; [exact Hc'|].
  assert (Hst1' : count is_stop_call tr1 = O /\
                  forall r, ~ In (EvCom StopMeasurement r) tr1).
  { clear - Hst1. induction Hst1 as [|e tr He _ [I1 I2]].
    - split; [reflexivity | intros r []].
    - split.
      + unfold count in *. cbn [filter]. rewrite He. exact I1.
      + intros r [-> | Hin]; [discriminate He | exact (I2 r Hin)]. }
  destruct Hst1' as [C1 N1].
  destruct (stop_and_keep c1 (final (work h1)))
    as (cs & Hcs & Hvs & Hcnt & Hiff).
  cbv zeta in Hcs, Hcnt, Hiff. fold stop in Hcs, Hcnt, Hiff.
  rewrite !count_app, C1, Wc. cbn [Nat.add].
  assert (Hin : (exists v, In (EvCom StopMeasurement (Returned v))
                             (tr1 ++ trace (work h1) ++ trace tl)%list)
                <-> exists v, In (EvCom StopMeasurement (Returned v))
                                (trace tl)).
  { split; intros [v Hv]; exists v.
    - apply in_app_or in Hv. destruct Hv as [Hv|Hv]; [elim (N1 _ Hv)|].
      apply in_app_or in Hv. destruct Hv as [Hv|Hv]; [elim (Wn _ Hv)|].
      exact Hv.
    - apply in_or_app. right. apply in_or_app. right. exact Hv. }
  rewrite Hin. clear Hin.
  subst tl.
  destruct (measurement_started c1 && (b || negb (is_ok (res (work h1)))))
    eqn:Ed.
  - apply andb_prop in Ed. destruct Ed as [Es _].
    rewrite Hcs in Hc'. injection Hc' as <-.
    rewrite Es in Hcnt.
    split; [congruence|]. split; [exact Hflag|]. split; [exact Hb|].
    split; [exact Hcnt | exact Hiff].
  - cbn [ret res trace] in Hc' |- *. injection Hc' as <-.
    split; [exact Hvars|]. split; [exact Hflag|]. split; [exact Hb|].
    split; [reflexivity|].
    split.
    + intros Es. split; [exact Es|]. intros [v []].
    + intros [Es _]. exact Es.
Qed.

End MainMeasurementFacts.

Lemma main_stops_the_measurement_it_started_witness :
  let c := mkController false [("a", "A")] in
  let r := main_measurement_steps c [] 0.2 0.2 "out.csv"
             (device [ok; Raised]) in
  measurement_started c = false /\
  exists c',
    res r = Ok c' /\
    measurement_vars c' = measurement_vars c /\
    count is_stop_call (trace r) = O /\
    measurement_started c' = true.
Proof.
  cbv zeta. split; [reflexivity|].
  destruct (main_stops_the_measurement_it_started
              (mkController false [("a", "A")]) [] 0.2 0.2 "out.csv"
              (device [ok; Raised]) eq_refl)
    as (b & c1 & c' & Hr1 & Hr & Hvars & _ & _ & Hcnt & Hleft).
  exists c'. split; [exact Hr|]. split; [exact Hvars|].
  assert (Es : start_measurement (mkController false [("a", "A")])
                 (device [ok; Raised])
               = mkRun (Ok (false, mkController true [("a", "A")]))
                   (device [])
                   [EvCom StartMeasurement ok;
                    EvCom (WriteToMonitor "측정이 시작되었습니다.") Raised])
    by reflexivity.
  rewrite Es in Hr1, Hcnt. cbn [res final] in Hr1, Hcnt.
  injection Hr1 as <- <-.
  assert (Ew : is_ok (res ((wait_for_stabilization ;;;
                            apply_all [] ;;;
                            collect_and_save (mkController true [("a", "A")])
                              0.2 0.2 "out.csv") (device []))) = true)
    by (vm_compute; reflexivity).
  rewrite Ew in Hcnt. cbn [measurement_started andb orb negb] in Hcnt.
  split; [exact Hcnt|].
  apply Hleft. split; [reflexivity|].
  intros [v Hin].
  assert (Ec : count is_stop_call
                 (trace (main_measurement_steps
                           (mkController false [("a", "A")]) [] 0.2 0.2
                           "out.csv" (device [ok; Raised]))) = O)
    by exact Hcnt.
  clear - Hin Ec.
  induction (trace (main_measurement_steps
                      (mkController false [("a", "A")]) [] 0.2 0.2
                      "out.csv" (device [ok; Raised]))) as [|e tr IH];
    [exact Hin|].
  unfold count in Ec, IH. cbn [filter] in Ec.
  destruct Hin as [-> | Hin]; [discriminate Ec|].
  destruct (is_stop_call e); [discriminate Ec | exact (IH Hin Ec)].
Defined.

(** ** The loader *)

Lemma calib_set_keys d key value :
  map fst (calib_set d key value) = add_key (map fst d) key.
Proof.
  unfold add_key. induction d as [|[k v] d IH]; cbn; [reflexivity|].
  rewrite (String.eqb_sym key k).
  destruct (String.eqb k key) eqn:E; cbn; [reflexivity|].
  rewrite IH. destruct (existsb (String.eqb key) (map fst d)); reflexivity.
Qed.

Lemma add_key_nodup keys key : NoDup keys -> NoDup (add_key keys key).
Proof.
  intros Hn. unfold add_key.
  destruct (existsb (String.eqb key) keys) eqn:E; [exact Hn|].
  apply NoDup_app; [exact Hn | repeat constructor; intros [] |].
  intros k Hin [E'|[]]. subst k.
  assert (existsb (String.eqb key) keys = true)
    by (apply existsb_exists; exists key; split;
        [exact Hin | apply String.eqb_refl]).
  congruence.
Qed.

Lemma calib_get_set d key value k :
  calib_get (calib_set d key value) k
  = if String.eqb key k then Some value else calib_get d k.
Proof.
  induction d as [|[k' v'] d IH]; cbn; [reflexivity|].
  destruct (String.eqb k' key) eqn:E; cbn.
  - apply String.eqb_eq in E. subst k'.
    destruct (String.eqb key k); reflexivity.
  - rewrite IH. destruct (String.eqb k' k) eqn:E2; [|reflexivity].
    apply String.eqb_eq in E2. subst k'. rewrite String.eqb_sym, E.
    reflexivity.
Qed.

Lemma calib_set_in d key value n x :
  In (n, x) (calib_set d key value) ->
  (n, x) = (key, value) \/ In (n, x) d.
Proof.
  induction d as [|[k' v'] d IH]; cbn.
  - intros [E|[]]. left. symmetry. exact E.
  - destruct (String.eqb k' key) eqn:E.
    + apply String.eqb_eq in E. subst k'.
      intros [E'|Hin]; [left; symmetry; exact E' | right; right; exact Hin].
    + intros [E'|Hin]; [right; left; exact E'|].
      destruct (IH Hin) as [E'|Hin']; [left; exact E' | right; right; exact Hin'].
Qed.

Lemma calib_set_length d key value :
  (1 <= List.length (calib_set d key value) <= S (List.length d))%nat.
Proof.
  induction d as [|[k' v'] d IH]; cbn; [lia|].
  destruct (String.eqb k' key); cbn; lia.
Qed.

Lemma calib_get_in (d : list (string * float)) n v :
  NoDup (map fst d) ->
  (In (n, v) d <-> calib_get d n = Some v).
Proof.
  induction d as [|[k x] d IH]; cbn [calib_get In map fst]; intros Hnd.
  - split; [intros [] | discriminate].
  - inversion Hnd as [|? ? Hk Hd]; subst.
    destruct (String.eqb k n) eqn:E.
    + apply String.eqb_eq in E. subst k. split.
      * intros [Heq|Hin]; [injection Heq as ->; reflexivity|].
        elim Hk. apply (in_map fst) in Hin. exact Hin.
      * intros Heq. injection Heq as ->. left. reflexivity.
    + split.
      * intros [Heq|Hin].
        -- injection Heq as -> _. rewrite String.eqb_refl in E.
           discriminate E.
        -- apply IH; assumption.
      * intros Hg. right. apply IH; assumption.
Qed.

Section LoaderFacts.
Variable float_repr : float -> string.
Variable float_of_str : string -> option float.

Lemma stored_facts (es : list (string * float)) :
  forall d,
    map fst (stored es d) = fold_left add_key (map fst es) (map fst d) /\
    (NoDup (map fst d) -> NoDup (map fst (stored es d))) /\
    (forall k, calib_get (stored es d) k
               = match last_value es k with
                 | Some w => Some w
                 | None => calib_get d k
                 end) /\
    (forall n x, In (n, x) (stored es d) -> In (n, x) es \/ In (n, x) d) /\
    (List.length (stored es d) <= List.length d + List.length es)%nat /\
    (es <> [] -> stored es d <> []).
Proof.
  induction es as [|[k v] es IH]; intros d.
  - cbn. split; [reflexivity|]. split; [intros Hn; exact Hn|].
    split; [reflexivity|]. split; [intros n x Hin; right; exact Hin|].
    split; [lia|]. intros Hc. elim Hc. reflexivity.
  - cbn [stored fold_left fst snd map].
    destruct (IH (calib_set d k v)) as (I1 & I2 & I3 & I4 & I5 & I6).
    fold (stored es (calib_set d k v)).
    split; [rewrite I1, calib_set_keys; reflexivity|].
    split.
    { intros Hn. apply I2. rewrite calib_set_keys.
      apply add_key_nodup, Hn. }
    split.
    { intros k'. rewrite I3. cbn [last_value].
      destruct (last_value es k'); [reflexivity|].
      rewrite calib_get_set. destruct (String.eqb k k'); reflexivity. }
    split.
    { intros n x Hin. destruct (I4 n x Hin) as [Hin'|Hin'].
      - left. right. exact Hin'.
      - destruct (calib_set_in _ _ _ _ _ Hin') as [E|Hd];
          [left; left; symmetry; exact E | right; exact Hd]. }
    split.
    { pose proof (calib_set_length d k v). cbn [List.length]. lia. }
    intros _. destruct es as [|e es'].
    + cbn. pose proof (calib_set_length d k v) as L.
      destruct (calib_set d k v); [cbn in L; lia | discriminate].
    + apply I6. discriminate.
Qed.

(** The name of an entry is a stripped, non-empty text. *)
Lemma parse_row_clean row n v :
  (_parse_row float_repr float_of_str) row = XlOk (Some (n, v)) ->
  PyStr.is_empty n = false /\
  starts_with_space n = false /\
  ends_with_space n = false /\
  (exists cell value,
      nth_error row 0 = Some cell /\ nth_error row 1 = Some value /\
      py_bool cell = true /\
      n = PyStr.strip (py_str float_repr cell) /\
      py_float float_of_str value = Ok v).
Proof.
  unfold _parse_row.
  destruct (nth_error row 0) as [cell|]; [|discriminate].
  destruct (nth_error row 1) as [value|]; [|discriminate].
  destruct (py_bool cell) eqn:Eb; [|cbn; discriminate].
  destruct (PyStr.is_empty (PyStr.strip (py_str float_repr cell))) eqn:Ee;
    [discriminate|].
  intros E.
  assert (Hv : py_float float_of_str value = Ok v /\
               n = PyStr.strip (py_str float_repr cell)).
  { destruct value; try discriminate E;
      destruct (py_float float_of_str _) as [y|[]] eqn:Ef;
      try discriminate E; injection E as <- <-; split; reflexivity. }
  destruct Hv as [Hv ->].
  destruct (strip_is_stripped (py_str float_repr cell)) as [S1 S2].
  split; [exact Ee|]. split; [exact S1|]. split; [exact S2|].
  exists cell, value. repeat split; assumption.
Qed.

Lemma entries_from_rows (rows : list (list XlValue)) n v :
  In (n, v) ((entries float_repr float_of_str) rows) ->
  exists row, In row rows /\ (_parse_row float_repr float_of_str) row = XlOk (Some (n, v)).
Proof.
  induction rows as [|row rest IH]; cbn [entries]; [intros []|].
  destruct (blank_name row); [intros []|].
  destruct ((_parse_row float_repr float_of_str) row) as [[e|]|x] eqn:E.
  - intros [<-|Hin].
    + exists row. split; [left; reflexivity | exact E].
    + destruct (IH Hin) as (r & Hr & Er).
      exists r. split; [right; exact Hr | exact Er].
  - intros Hin. destruct (IH Hin) as (r & Hr & Er).
    exists r. split; [right; exact Hr | exact Er].
  - intros [].
Qed.

Lemma entries_length (rows : list (list XlValue)) :
  (List.length ((entries float_repr float_of_str) rows) <= List.length rows)%nat.
Proof.
  induction rows as [|row rest IH]; cbn [entries List.length]; [lia|].
  destruct (blank_name row); [cbn; lia|].
  destruct ((_parse_row float_repr float_of_str) row) as [[e|]|x]; cbn [List.length]; lia.
Qed.

(** The loop stores the entries of the rows and counts them. *)
Lemma parse_rows_entries (rows : list (list XlValue)) :
  forall d rc sc d' rc' sc',
    parse_rows float_repr float_of_str rows d rc sc = XlOk (d', rc', sc') ->
    d' = stored ((entries float_repr float_of_str) rows) d /\
    rc' = rc + Z.of_nat (List.length ((entries float_repr float_of_str) rows)).
Proof.
  induction rows as [|row rest IH]; intros d rc sc d' rc' sc'.
  - cbn. intros [= <- <- <-]. split; [reflexivity | lia].
  - cbn [parse_rows entries]. unfold blank_name.
    destruct (nth_error row 0) as [cell|] eqn:E0; [|discriminate].
    assert (Hgo : match (_parse_row float_repr float_of_str) row with
                  | XlOk (Some (var_name, var_value)) =>
                      parse_rows float_repr float_of_str rest
                        (calib_set d var_name var_value) (rc + 1) sc
                  | XlOk None =>
                      parse_rows float_repr float_of_str rest d rc (sc + 1)
                  | XlExc x => XlExc x
                  end = XlOk (d', rc', sc') ->
                  d' = stored
                         match (_parse_row float_repr float_of_str) row with
                         | XlOk (Some entry) => entry :: (entries float_repr float_of_str) rest
                         | XlOk None => (entries float_repr float_of_str) rest
                         | XlExc _ => []
                         end d /\
                  rc' = rc + Z.of_nat
                               (List.length
                                  match (_parse_row float_repr float_of_str) row with
                                  | XlOk (Some entry) =>
                                      entry :: (entries float_repr float_of_str) rest
                                  | XlOk None => (entries float_repr float_of_str) rest
                                  | XlExc _ => []
                                  end)).
    { destruct ((_parse_row float_repr float_of_str) row) as [[[n v]|]|x]; [| |discriminate].
      - intros E. destruct (IH _ _ _ _ _ _ E) as [-> ->].
        split; [reflexivity|]. cbn [List.length]. lia.
      - intros E. exact (IH _ _ _ _ _ _ E). }
    destruct cell; try exact Hgo.
    intros [= <- <- <-]. split; [reflexivity | cbn; lia].
Qed.

(** Rows below a row with an empty first cell are not looked at. *)
Lemma parse_rows_stop_at_blank (pre : list (list XlValue)) blank post :
  blank_name blank = true ->
  forall d rc sc,
    parse_rows float_repr float_of_str (pre ++ blank :: post) d rc sc
    = parse_rows float_repr float_of_str pre d rc sc.
Proof.
  intros Hb. induction pre as [|row rest IH]; intros d rc sc.
  - cbn [app parse_rows]. unfold blank_name in Hb.
    destruct (nth_error blank 0) as [[]|]; try discriminate Hb. reflexivity.
  - cbn [app parse_rows].
    destruct (nth_error row 0) as [cell|]; [|reflexivity].
    destruct ((_parse_row float_repr float_of_str) row) as [[[n v]|]|x]; rewrite ?IH; reflexivity.
Qed.

(** X18.  What [load] returns is never an empty mapping: it is [None] or
    a mapping with at least one entry, so the test [if not calib_data] of
    [main] only catches [None].  A mapping is returned only for a file
    that exists and can be read and whose workbook opened.  Its names are
    pairwise different, non-empty and without white space at either end,
    and every entry comes from a row below the header whose first cell is
    true and whose second cell [float()] accepts; there are at most as
    many entries as such rows. *)
Theorem loaded_mapping_is_never_empty
        (file_exists file_readable : bool) (wb : Workbook)
        (calib_data : list (string * float)) :
  load float_repr float_of_str file_exists file_readable wb
  = Some calib_data ->
  file_exists = true /\ file_readable = true /\
  calib_data <> [] /\
  NoDup (map fst calib_data) /\
  exists rows,
    wb = Sheet rows /\
    (List.length calib_data <= List.length (tl rows))%nat /\
    forall var_name var_value,
      In (var_name, var_value) calib_data ->
      PyStr.is_empty var_name = false /\
      starts_with_space var_name = false /\
      ends_with_space var_name = false /\
      exists row cell value,
        In row (tl rows) /\
        nth_error row 0 = Some cell /\ nth_error row 1 = Some value /\
        py_bool cell = true /\
        var_name = PyStr.strip (py_str float_repr cell) /\
        py_float float_of_str value = Ok var_value.
Proof.
  unfold load.
  destruct file_exists; [|discriminate].
  destruct file_readable; [|discriminate]. cbn [negb].
  destruct wb as [rows|p]; [|cbn; discriminate].
  cbn [_parse_excel].
  destruct (parse_rows float_repr float_of_str (tl rows) [] 0 0)
    as [[[d rc] sc]|x] eqn:Ep; [|discriminate].
  destruct (rc =? 0) eqn:Erc; [discriminate|].
  intros [= <-].
  destruct (parse_rows_entries _ _ _ _ _ _ _ Ep) as [-> Hrc].
  destruct (stored_facts ((entries float_repr float_of_str) (tl rows)) [])
    as (_ & Hn & _ & Hin & Hlen & Hne).
  split; [reflexivity|]. split; [reflexivity|].
  split.
  { apply Hne. intros E. rewrite E in Hrc. cbn in Hrc.
    apply Z.eqb_neq in Erc. lia. }
  split; [apply Hn; constructor|].
  exists rows. split; [reflexivity|]. split.
  { pose proof (entries_length (tl rows)). cbn [List.length] in Hlen. lia. }
  intros n v Hd.
  destruct (Hin n v Hd) as [He|[]].
  destruct (entries_from_rows _ _ _ He) as (row & Hrow & Er).
  destruct (parse_row_clean _ _ _ Er) as (C1 & C2 & C3 & cell & value & R).
  split; [exact C1|]. split; [exact C2|]. split; [exact C3|].
  exists row, cell, value. split; [exact Hrow | exact R].
Qed.

(** X19.  [_parse_excel] reads neither the header row nor anything below
    the first row whose first cell is empty: it gives the same for any
    other header and whatever stands below that row. *)
Theorem rows_below_an_empty_name_are_not_read
        (header header' : list XlValue) (pre : list (list XlValue))
        (blank : list XlValue) (post : list (list XlValue)) :
  blank_name blank = true ->
  _parse_excel float_repr float_of_str
    (Sheet (header :: pre ++ blank :: post))
  = _parse_excel float_repr float_of_str (Sheet (header' :: pre)).
Proof.
  intros Hb. cbn [_parse_excel tl].
  rewrite (parse_rows_stop_at_blank pre blank post Hb). reflexivity.
Qed.

(** X20.  The mapping [_parse_excel] returns, in terms of the entries of
    the rows it read: a name that occurs in several rows has the value of
    the last of them, and the names stand in the order in which they first
    occurred, which is the order in which [apply_all] will go through
    them.  The rows read are those up to the first row with an empty
    first cell; a row that gives no entry is skipped. *)
Theorem repeated_name_keeps_its_last_value
        (rows : list (list XlValue)) (calib_data : list (string * float)) :
  _parse_excel float_repr float_of_str (Sheet rows) = XlOk calib_data ->
  let es := (entries float_repr float_of_str) (tl rows) in
  (forall var_name, calib_get calib_data var_name = last_value es var_name) /\
  map fst calib_data = insertion_order (map fst es) /\
  (forall var_name var_value,
      In (var_name, var_value) calib_data <->
      last_value es var_name = Some var_value).
Proof.
  cbn [_parse_excel]. cbv zeta.
  destruct (parse_rows float_repr float_of_str (tl rows) [] 0 0)
    as [[[d rc] sc]|x] eqn:Ep; [|discriminate].
  destruct (rc =? 0); [discriminate|].
  intros [= <-].
  destruct (parse_rows_entries _ _ _ _ _ _ _ Ep) as [-> _].
  destruct (stored_facts ((entries float_repr float_of_str) (tl rows)) [])
    as (Hk & Hn & Hg & _).
  assert (Hget : forall k,
             calib_get (stored ((entries float_repr float_of_str) (tl rows)) []) k
             = last_value ((entries float_repr float_of_str) (tl rows)) k).
  { intros k. rewrite Hg. cbn [calib_get].
    destruct (last_value ((entries float_repr float_of_str) (tl rows)) k); reflexivity. }
  split; [exact Hget|]. split; [exact Hk|].
  intros n v. rewrite <- Hget.
  apply calib_get_in. apply Hn. constructor.
Qed.

End LoaderFacts.

Lemma loaded_mapping_is_never_empty_witness :
  let sheet := [[XlStr "name"; XlStr "value"];
                [XlStr " P1 "; XlInt 100];
                [XlStr "P2"; XlFloat 75.5];
                [XlStr "P1"; XlFloat 1.5];
                [XlNone; XlFloat 3];
                [XlStr "P3"; XlInt 1]] in
  load (fun _ => "") (fun _ => None) true true (Sheet sheet)
  = Some [("P1", 1.5%float); ("P2", 75.5%float)] /\
  NoDup ["P1"; "P2"].
Proof.
  cbv zeta.
  assert (E : load (fun _ => "") (fun _ => None) true true
                (Sheet [[XlStr "name"; XlStr "value"];
                        [XlStr " P1 "; XlInt 100];
                        [XlStr "P2"; XlFloat 75.5];
                        [XlStr "P1"; XlFloat 1.5];
                        [XlNone; XlFloat 3];
                        [XlStr "P3"; XlInt 1]])
              = Some [("P1", 1.5%float); ("P2", 75.5%float)])
    by (vm_compute; reflexivity).
  split; [exact E|].
  exact (proj1 (proj2 (proj2 (proj2
           (loaded_mapping_is_never_empty _ _ _ _ _ _ E))))).
Defined.

Lemma rows_below_an_empty_name_are_not_read_witness :
  blank_name [XlNone; XlFloat 3] = true /\
  _parse_excel (fun _ => "") (fun _ => None)
    (Sheet ([XlStr "name"; XlStr "value"]
            :: [[XlStr "P1"; XlInt 100]]
            ++ [XlNone; XlFloat 3] :: [[XlStr "P3"; XlInt 1]]))
  = _parse_excel (fun _ => "") (fun _ => None)
      (Sheet ([] :: [[XlStr "P1"; XlInt 100]])).
Proof.
  assert (E : blank_name [XlNone; XlFloat 3] = true) by reflexivity.
  split; [exact E|].
  exact (rows_below_an_empty_name_are_not_read (fun _ => "") (fun _ => None)
           [XlStr "name"; XlStr "value"] [] [[XlStr "P1"; XlInt 100]]
           [XlNone; XlFloat 3] [[XlStr "P3"; XlInt 1]] E).
Defined.

Lemma repeated_name_keeps_its_last_value_witness :
  let sheet := [[XlStr "name"; XlStr "value"];
                [XlStr "P1"; XlInt 100];
                [XlStr "P2"; XlFloat 75.5];
                [XlStr "P1"; XlFloat 1.5]] in
  _parse_excel (fun _ => "") (fun _ => None) (Sheet sheet)
  = XlOk [("P1", 1.5%float); ("P2", 75.5%float)] /\
  ["P1"; "P2"]
  = insertion_order
      (map fst (entries (fun _ => "") (fun _ => None) (tl sheet))).
Proof.
  cbv zeta.
  assert (E : _parse_excel (fun _ => "") (fun _ => None)
                (Sheet [[XlStr "name"; XlStr "value"];
                        [XlStr "P1"; XlInt 100];
                        [XlStr "P2"; XlFloat 75.5];
                        [XlStr "P1"; XlFloat 1.5]])
              = XlOk [("P1", 1.5%float); ("P2", 75.5%float)])
    by (vm_compute; reflexivity).
  split; [exact E|].
  exact (proj1 (proj2
           (repeated_name_keeps_its_last_value _ _ _ _ E))).
Defined.
